(** * Lil Wiggle Toe Tracker: the record store and the settings round trip

    A shallow embedding of [database/database_manager.py] and of the
    persistence part of [ui/main_window.py].  The Python code talks to
    three pieces of environment: the file system ([os.path.exists],
    [shutil.copy]), the Qt SQL driver for SQLite ([QSqlDatabase],
    [QSqlQuery]) and the Qt settings store ([QSettings]).  Each of them is
    given a small executable model; the program itself is written in a
    state monad with exceptions over these models, statement by
    statement. *)

From Stdlib Require Import ZArith List String Ascii Bool Lia.
From Stdlib Require DecimalString DecimalZ.
From stdpp Require Import gmap strings pretty.

Local Open Scope Z_scope.

(** ** Machine integers and decimal text *)

(** The C [int] of Qt's widgets and signals, and the 64-bit integer of
    SQLite and of Qt's [qlonglong]. *)
Definition in_int32 (n : Z) : bool :=
  (-2147483648 <=? n) && (n <=? 2147483647).

Definition in_int64 (n : Z) : bool :=
  (-9223372036854775808 <=? n) && (n <=? 9223372036854775807).

(** What is left of an integer in a C [int]: its low 32 bits, two's
    complement. *)
Definition wrap32 (n : Z) : Z :=
  (n + 2147483648) mod 4294967296 - 2147483648.

(** A C [int]: the value of a slider or a spin box. *)
Record c_int := { c_val :> Z; c_range : in_int32 c_val = true }.

Definition c_int_of (n : Z) (H : in_int32 n = true) : c_int :=
  {| c_val := n; c_range := H |}.

(** An integer in decimal, as Python, Qt and SQLite all print it. *)
Definition decimal (n : Z) : string :=
  DecimalString.NilZero.string_of_int (Z.to_int n).

(** White space as [QString::toLongLong] and SQLite skip it around a
    number. *)
Definition is_blank (c : ascii) : bool :=
  (Ascii.eqb c " " || Ascii.eqb c "009" || Ascii.eqb c "010"
   || Ascii.eqb c "011" || Ascii.eqb c "012" || Ascii.eqb c "013")%char.

Fixpoint lstrip (s : string) : string :=
  match s with
  | EmptyString => EmptyString
  | String c r => if is_blank c then lstrip r else s
  end.

Fixpoint rstrip (s : string) : string :=
  match s with
  | EmptyString => EmptyString
  | String c r =>
      match rstrip r with
      | EmptyString => if is_blank c then EmptyString else String c EmptyString
      | r' => String c r'
      end
  end.

Definition trim (s : string) : string := rstrip (lstrip s).

Fixpoint no_blank (s : string) : bool :=
  match s with
  | EmptyString => true
  | String c r => negb (is_blank c) && no_blank r
  end.

Definition digits_value (s : string) : option Z :=
  match DecimalString.NilZero.uint_of_string s with
  | Some d => Some (Z.of_uint d)
  | None => None
  end.

(** An integer written in decimal: white space around it, an optional
    sign, one digit or more, nothing else. *)
Definition parse_int (s : string) : option Z :=
  match digits_value (trim s) with
  | Some n => Some n
  | None =>
      match trim s with
      | String c r =>
          if Ascii.eqb c "+" then digits_value r
          else if Ascii.eqb c "-" then
            match digits_value r with
            | Some n => Some (- n)
            | None => None
            end
          else None
      | EmptyString => None
      end
  end.

Definition is_digit (c : ascii) : bool :=
  (Nat.leb 48 (nat_of_ascii c) && Nat.leb (nat_of_ascii c) 57)%nat.

(** The digits a text starts with, counted, and what follows them. *)
Fixpoint span_digits (s : string) : nat * string :=
  match s with
  | EmptyString => (0%nat, EmptyString)
  | String c r =>
      if is_digit c
      then (S (fst (span_digits r)), snd (span_digits r))
      else (0%nat, s)
  end.

Definition strip_sign (s : string) : string :=
  match s with
  | String "+" r => r
  | String "-" r => r
  | _ => s
  end.

Definition is_empty (s : string) : bool :=
  match s with
  | EmptyString => true
  | _ => false
  end.

(** A text SQLite reads as a number: white space around it, an optional
    sign, digits with an optional point among them or around them, an
    optional exponent. *)
Definition is_number_text (s : string) : bool :=
  let t := strip_sign (trim s) in
  let n1 := fst (span_digits t) in
  let r1 := snd (span_digits t) in
  let after_point :=
    match r1 with
    | String "." r => span_digits r
    | _ => (0%nat, r1)
    end in
  negb (Nat.eqb (n1 + fst after_point) 0) &&
  match snd after_point with
  | EmptyString => true
  | String c r =>
      (Ascii.eqb c "e" || Ascii.eqb c "E")%char &&
      negb (Nat.eqb (fst (span_digits (strip_sign r))) 0) &&
      is_empty (snd (span_digits (strip_sign r)))
  end.

Definition upper (c : ascii) : ascii :=
  if (Nat.leb 97 (nat_of_ascii c) && Nat.leb (nat_of_ascii c) 122)%nat
  then ascii_of_nat (nat_of_ascii c - 32)
  else c.

Fixpoint upper_string (s : string) : string :=
  match s with
  | EmptyString => EmptyString
  | String c r => String (upper c) (upper_string r)
  end.

Fixpoint has_infix (p s : string) : bool :=
  String.prefix p s ||
  match s with
  | EmptyString => false
  | String _ r => has_infix p r
  end.

(** ** SQL values and statements *)

(** What a cell of a table holds and what the program binds to a
    placeholder.  The program binds texts and 64-bit integers only.  The
    last two arise inside the engine: [SqlReal lit] is the floating point
    number nearest to the number written [lit]; [SqlNumeric lit] is what
    a column of integer or numeric affinity makes of a text [lit] that
    writes a number with a point or an exponent, which is that floating
    point number, or the 64-bit integer it equals when there is one.  The
    model does not carry out floating point arithmetic and keeps both as
    the text they come from. *)
Inductive SqlValue :=
| SqlNull
| SqlInt (n : Z)
| SqlText (s : string)
| SqlReal (lit : string)
| SqlNumeric (lit : string).

(** The program only ever sends two statement shapes to the driver:
    [CREATE TABLE IF NOT EXISTS t (id INTEGER PRIMARY KEY AUTOINCREMENT, c ty, ...)]
    and [INSERT INTO t(c, ...) VALUES (?, ...)]. *)
Inductive Stmt :=
| CreateTableIfNotExists (name : string) (idcol : string)
                         (cols : list (string * string))
| InsertInto (name : string) (cols : list string) (nparams : nat).

Inductive token :=
| TWord (s : string)
| TLParen
| TRParen
| TComma
| TQMark.

Definition is_space (c : ascii) : bool :=
  (Ascii.eqb c " " || Ascii.eqb c "010" || Ascii.eqb c "009"
   || Ascii.eqb c "013")%char.

Definition flush (cur : string) : list token :=
  match cur with
  | EmptyString => []
  | _ => [TWord cur]
  end.

Fixpoint lex (cur : string) (s : string) : list token :=
  match s with
  | EmptyString => flush cur
  | String c s' =>
      if is_space c then flush cur ++ lex "" s'
      else if Ascii.eqb c "("%char then flush cur ++ TLParen :: lex "" s'
      else if Ascii.eqb c ")"%char then flush cur ++ TRParen :: lex "" s'
      else if Ascii.eqb c ","%char then flush cur ++ TComma :: lex "" s'
      else if Ascii.eqb c "?"%char then flush cur ++ TQMark :: lex "" s'
      else lex (cur +:+ String c "") s'
  end.

(** [expect kws ts] strips the keywords [kws] from the front of [ts]. *)
Fixpoint expect (kws : list string) (ts : list token) : option (list token) :=
  match kws with
  | [] => Some ts
  | k :: kws' =>
      match ts with
      | TWord w :: ts' => if String.eqb w k then expect kws' ts' else None
      | _ => None
      end
  end.

(** Splits a parenthesised, comma separated list; the opening parenthesis
    has been consumed.  Returns the groups and what follows the closing
    parenthesis. *)
Fixpoint groups (ts : list token) (cur : list token)
  : option (list (list token) * list token) :=
  match ts with
  | [] => None
  | TRParen :: rest => Some ([rev cur], rest)
  | TComma :: rest =>
      match groups rest [] with
      | Some (gs, r) => Some (rev cur :: gs, r)
      | None => None
      end
  | TLParen :: _ => None
  | t :: rest => groups rest (t :: cur)
  end.

Definition word_of (g : list token) : option string :=
  match g with
  | [TWord w] => Some w
  | _ => None
  end.

Definition coldef_of (g : list token) : option (string * string) :=
  match g with
  | [TWord c; TWord ty] => Some (c, ty)
  | _ => None
  end.

Definition idcol_of (g : list token) : option string :=
  match g with
  | TWord c :: rest =>
      match expect ["INTEGER"; "PRIMARY"; "KEY"; "AUTOINCREMENT"] rest with
      | Some [] => Some c
      | _ => None
      end
  | _ => None
  end.

Definition is_qmark (g : list token) : bool :=
  match g with
  | [TQMark] => true
  | _ => false
  end.

Fixpoint all_some {A} (l : list (option A)) : option (list A) :=
  match l with
  | [] => Some []
  | Some a :: l' =>
      match all_some l' with
      | Some r => Some (a :: r)
      | None => None
      end
  | None :: _ => None
  end.

Definition parse_create (ts : list token) : option Stmt :=
  match expect ["CREATE"; "TABLE"; "IF"; "NOT"; "EXISTS"] ts with
  | Some (TWord name :: TLParen :: rest) =>
      match groups rest [] with
      | Some (g :: gs, []) =>
          match idcol_of g, all_some (map coldef_of gs) with
          | Some idc, Some cols => Some (CreateTableIfNotExists name idc cols)
          | _, _ => None
          end
      | _ => None
      end
  | _ => None
  end.

Definition parse_insert (ts : list token) : option Stmt :=
  match expect ["INSERT"; "INTO"] ts with
  | Some (TWord name :: TLParen :: rest) =>
      match groups rest [] with
      | Some (cgs, rest') =>
          match all_some (map word_of cgs), expect ["VALUES"] rest' with
          | Some cols, Some (TLParen :: rest'') =>
              match groups rest'' [] with
              | Some (qgs, []) =>
                  if forallb is_qmark qgs
                  then Some (InsertInto name cols (length qgs))
                  else None
              | _ => None
              end
          | _, _ => None
          end
      | None => None
      end
  | _ => None
  end.

(** What the driver makes of a statement text; [None] is a statement the
    engine rejects. *)
Definition compile (sql : string) : option Stmt :=
  let ts := lex "" sql in
  match parse_create ts with
  | Some s => Some s
  | None => parse_insert ts
  end.

(** ** Tables *)

(** A table with an [INTEGER PRIMARY KEY AUTOINCREMENT] identity column:
    its data columns with their declared types, its rows (identity and
    one value per data column, in insertion order) and the largest
    identity it ever handed out ([sqlite_sequence]). *)
Record Table := {
  t_id : string;
  t_cols : list (string * string);
  t_rows : list (Z * list SqlValue);
  t_seq : Z
}.

(** A database: its tables by name, in creation order. *)
Definition Database := list (string * Table).

Fixpoint find_table (name : string) (db : Database) : option Table :=
  match db with
  | [] => None
  | (n, t) :: db' => if String.eqb n name then Some t else find_table name db'
  end.

Fixpoint update_table (name : string) (t : Table) (db : Database) : Database :=
  match db with
  | [] => []
  | (n, t0) :: db' =>
      if String.eqb n name then (n, t) :: db'
      else (n, t0) :: update_table name t db'
  end.

Definition table_names (db : Database) : list string := map fst db.

Definition count_tables (name : string) (db : Database) : nat :=
  length (List.filter (fun n => String.eqb n name) (table_names db)).

Definition max_rowid (t : Table) : Z :=
  fold_right (fun r m => Z.max (fst r) m) 0 (t_rows t).

(** AUTOINCREMENT: one more than the largest identity ever used by the
    table, whether or not its row still exists. *)
Definition next_id (t : Table) : Z := Z.max (t_seq t) (max_rowid t) + 1.

(** An identity is a signed 64-bit integer; once the largest one was
    handed out an AUTOINCREMENT table takes no further row
    ([SQLITE_FULL]). *)
Definition max_rowid_value : Z := 9223372036854775807.

Definition exhausted (t : Table) : bool :=
  max_rowid_value <=? Z.max (t_seq t) (max_rowid t).

(** The affinity of a column follows from its declared type, by the
    rules of SQLite in their order. *)
Inductive Affinity := AffInteger | AffText | AffBlob | AffReal | AffNumeric.

Definition affinity (decl : string) : Affinity :=
  let d := upper_string decl in
  if has_infix "INT" d then AffInteger
  else if has_infix "CHAR" d || has_infix "CLOB" d || has_infix "TEXT" d
  then AffText
  else if has_infix "BLOB" d || is_empty d then AffBlob
  else if has_infix "REAL" d || has_infix "FLOA" d || has_infix "DOUB" d
  then AffReal
  else AffNumeric.

(** What a column of integer or numeric affinity makes of a text. *)
Definition numeric_of_text (s : string) : SqlValue :=
  match parse_int s with
  | Some n => if in_int64 n then SqlInt n else SqlReal s
  | None => if is_number_text s then SqlNumeric s else SqlText s
  end.

(** What a column stores of a bound value. *)
Definition apply_affinity (a : Affinity) (v : SqlValue) : SqlValue :=
  match a, v with
  | AffText, SqlInt n => SqlText (decimal n)
  | AffInteger, SqlText s => numeric_of_text s
  | AffNumeric, SqlText s => numeric_of_text s
  | AffReal, SqlInt n => SqlReal (decimal n)
  | AffReal, SqlText s => if is_number_text s then SqlReal s else SqlText s
  | _, _ => v
  end.

Fixpoint bound_value (c : string) (cols : list string) (vals : list SqlValue)
  : SqlValue :=
  match cols, vals with
  | c' :: cols', v :: vals' =>
      if String.eqb c' c then v else bound_value c cols' vals'
  | _, _ => SqlNull
  end.

Definition has_column (t : Table) (c : string) : bool :=
  existsb (fun cd => String.eqb (fst cd) c) (t_cols t).

(** The row an insert adds: for every data column what the column
    stores of the value bound to it, NULL when the statement does not
    name the column. *)
Definition new_row (t : Table) (cols : list string) (vals : list SqlValue)
  : list SqlValue :=
  map (fun cd => apply_affinity (affinity (snd cd))
                   (bound_value (fst cd) cols vals))
      (t_cols t).

(** [None]: the table has no identity left to hand out. *)
Definition insert_row (t : Table) (cols : list string) (vals : list SqlValue)
  : option Table :=
  if exhausted t then None
  else Some {| t_id := t_id t;
               t_cols := t_cols t;
               t_rows := t_rows t ++ [(next_id t, new_row t cols vals)];
               t_seq := next_id t |}.

(** Whether the engine accepts the statement against the database
    ([sqlite3_prepare]): an insert needs its table, its columns and as
    many placeholders as columns. *)
Definition valid_stmt (s : Stmt) (db : Database) : bool :=
  match s with
  | CreateTableIfNotExists _ _ _ => true
  | InsertInto name cols n =>
      match find_table name db with
      | Some t => forallb (has_column t) cols && Nat.eqb (length cols) n
      | None => false
      end
  end.

(** [CREATE TABLE IF NOT EXISTS]: an existing table of that name is left
    as it is, whatever its columns. *)
Definition create_if_not_exists (name idc : string)
    (cols : list (string * string)) (db : Database) : Database :=
  match find_table name db with
  | Some _ => db
  | None => db ++ [(name, {| t_id := idc; t_cols := cols;
                             t_rows := []; t_seq := 0 |})]
  end.

(** Running a statement with its bound values; [None] is a failure
    reported by the driver, which leaves the database as it was. *)
Definition run_stmt (s : Stmt) (binds : list SqlValue) (db : Database)
  : option Database :=
  match s with
  | CreateTableIfNotExists name idc cols =>
      match binds with
      | [] => Some (create_if_not_exists name idc cols db)
      | _ => None
      end
  | InsertInto name cols n =>
      if valid_stmt s db && Nat.eqb (length binds) n then
        match find_table name db with
        | Some t =>
            match insert_row t cols binds with
            | Some t' => Some (update_table name t' db)
            | None => None
            end
        | None => None
        end
      else None
  end.

(** ** The world the program runs in *)

(** Values held by the settings store and handed to widgets. *)
Inductive QVariant :=
| QInt (n : Z)
| QStr (s : string)
| QBytes (b : list Byte.byte).

(** The [type=] argument of [QSettings.value]. *)
Inductive QType := TInt | TStr.

Inductive Level := INFO | ERROR.

(** What the environment does at the next call into it: behave, report
    failure the way Qt does (a [False] result, a silently dropped write),
    or raise a Python exception. *)
Inductive Fault := NoFault | Fails | Raises.

Inductive exn :=
| ValueError (msg : string)
| TypeError (msg : string)
| OSError (msg : string).

Definition exn_text (e : exn) : string :=
  match e with
  | ValueError m => m
  | TypeError m => m
  | OSError m => m
  end.

(** Calls into the environment, in the order the program makes them. *)
Inductive Event :=
| EvCopy (src dst : string)
| EvOpen (path : string)
| EvIsOpen
| EvClose
| EvExecSql (sql : string)
| EvPrepare (sql : string)
| EvBind (v : SqlValue)
| EvExec
| EvSetValue (key : string)
| EvGetValue (key : string)
| EvWidgetSet (widget : string) (v : QVariant)
| EvConnect (table model : string)
| EvDeleteSelectedRows (table model : string)
| EvDeleteRows (table : string) (ids : list Z)
| EvCall (name : string).

(** A [QSqlQuery]: the prepared statement, if the engine accepted it,
    the values bound so far, and the text of [lastError()], empty when
    the last call succeeded. *)
Record Query := {
  q_stmt : option Stmt;
  q_binds : list SqlValue;
  q_error : string
}.

(** The stacked widget [lilyStack]: the page it shows, the number of its
    pages, and how many times its signal [currentChanged] is connected to
    [on_page_changed]. *)
Record Stack := {
  current_index : Z;
  page_count : Z;
  page_changed_slots : nat
}.

(** The last field is the text the engine gives to a failure of its own
    (a full disk, a locked file, an identity that cannot be handed out);
    the model does not spell these texts out. *)
Record World := {
  files : gmap string Database;      (* path |-> the database file there *)
  conn_name : string;                (* database name of the connection *)
  conn_open : bool;
  query : Query;
  settings : gmap string QVariant;   (* the persisted QSettings *)
  slots : list (string * string);    (* slots of action_delete_record *)
  models : gmap string string;       (* model attribute |-> its table *)
  selection : gmap string (list nat);(* model attribute |-> selected rows *)
  log : list (Level * string);
  trace : list Event;
  faults : list Fault;
  stack : Stack;                     (* the stacked widget lilyStack *)
  engine_error : string              (* the text of an error of the engine's *)
}.

Definition set_files (x : gmap string Database) (w : World) : World :=
  {| files := x; conn_name := conn_name w; conn_open := conn_open w;
     query := query w; settings := settings w; slots := slots w;
     models := models w; selection := selection w; log := log w;
     trace := trace w; faults := faults w; stack := stack w;
     engine_error := engine_error w |}.

Definition set_conn (n : string) (o : bool) (w : World) : World :=
  {| files := files w; conn_name := n; conn_open := o; query := query w;
     settings := settings w; slots := slots w; models := models w;
     selection := selection w; log := log w; trace := trace w;
     faults := faults w; stack := stack w;
     engine_error := engine_error w |}.

Definition set_query (x : Query) (w : World) : World :=
  {| files := files w; conn_name := conn_name w; conn_open := conn_open w;
     query := x; settings := settings w; slots := slots w;
     models := models w; selection := selection w; log := log w;
     trace := trace w; faults := faults w; stack := stack w;
     engine_error := engine_error w |}.

Definition set_settings (x : gmap string QVariant) (w : World) : World :=
  {| files := files w; conn_name := conn_name w; conn_open := conn_open w;
     query := query w; settings := x; slots := slots w;
     models := models w; selection := selection w; log := log w;
     trace := trace w; faults := faults w; stack := stack w;
     engine_error := engine_error w |}.

Definition set_slots (x : list (string * string)) (w : World) : World :=
  {| files := files w; conn_name := conn_name w; conn_open := conn_open w;
     query := query w; settings := settings w; slots := x;
     models := models w; selection := selection w; log := log w;
     trace := trace w; faults := faults w; stack := stack w;
     engine_error := engine_error w |}.

Definition set_models (x : gmap string string) (w : World) : World :=
  {| files := files w; conn_name := conn_name w; conn_open := conn_open w;
     query := query w; settings := settings w; slots := slots w;
     models := x; selection := selection w; log := log w;
     trace := trace w; faults := faults w; stack := stack w;
     engine_error := engine_error w |}.

Definition set_log (x : list (Level * string)) (w : World) : World :=
  {| files := files w; conn_name := conn_name w; conn_open := conn_open w;
     query := query w; settings := settings w; slots := slots w;
     models := models w; selection := selection w; log := x;
     trace := trace w; faults := faults w; stack := stack w;
     engine_error := engine_error w |}.

Definition set_trace (x : list Event) (w : World) : World :=
  {| files := files w; conn_name := conn_name w; conn_open := conn_open w;
     query := query w; settings := settings w; slots := slots w;
     models := models w; selection := selection w; log := log w;
     trace := x; faults := faults w; stack := stack w;
     engine_error := engine_error w |}.

Definition set_faults (x : list Fault) (w : World) : World :=
  {| files := files w; conn_name := conn_name w; conn_open := conn_open w;
     query := query w; settings := settings w; slots := slots w;
     models := models w; selection := selection w; log := log w;
     trace := trace w; faults := x; stack := stack w;
     engine_error := engine_error w |}.

Definition set_stack (x : Stack) (w : World) : World :=
  {| files := files w; conn_name := conn_name w; conn_open := conn_open w;
     query := query w; settings := settings w; slots := slots w;
     models := models w; selection := selection w; log := log w;
     trace := trace w; faults := faults w; stack := x;
     engine_error := engine_error w |}.

(** ** Statements that may raise *)

Inductive outcome (A : Type) :=
| Ret (a : A)
| Raise (e : exn).

Arguments Ret {A} a.
Arguments Raise {A} e.

Definition M (A : Type) : Type := World -> outcome A * World.

Definition ret {A} (a : A) : M A := fun w => (Ret a, w).

Definition bind {A B} (m : M A) (k : A -> M B) : M B :=
  fun w =>
    match m w with
    | (Ret a, w') => k a w'
    | (Raise e, w') => (Raise e, w')
    end.

Definition raise {A} (e : exn) : M A := fun w => (Raise e, w).

(** [try: m  except ... as e: h e] *)
Definition try_except {A} (m : M A) (h : exn -> M A) : M A :=
  fun w =>
    match m w with
    | (Ret a, w') => (Ret a, w')
    | (Raise e, w') => h e w'
    end.

Declare Scope prog_scope.
Delimit Scope prog_scope with prog.
Notation "x <- c1 ;; c2" := (bind c1 (fun x => c2))
  (at level 100, c1 at next level, right associativity) : prog_scope.
Notation "c1 ;; c2" := (bind c1 (fun _ => c2))
  (at level 100, right associativity) : prog_scope.
Local Open Scope prog_scope.

(** [for x in l: f x] *)
Fixpoint for_each {A} (l : list A) (f : A -> M unit) : M unit :=
  match l with
  | [] => ret tt
  | x :: l' => f x ;; for_each l' f
  end.

Definition logger_error (msg : string) : M unit :=
  fun w => (Ret tt, set_log (log w ++ [(ERROR, msg)]) w).

Definition logger_info (msg : string) : M unit :=
  fun w => (Ret tt, set_log (log w ++ [(INFO, msg)]) w).

(** Every call into the environment is recorded, then meets the next
    fault; with no fault left the environment behaves. *)
Definition attempt (ev : Event) : M Fault :=
  fun w =>
    let w1 := set_trace (trace w ++ [ev]) w in
    match faults w with
    | [] => (Ret NoFault, w1)
    | f :: fs => (Ret f, set_faults fs w1)
    end.

Definition get {A} (f : World -> A) : M A := fun w => (Ret (f w), w).

Definition modify (f : World -> World) : M unit := fun w => (Ret tt, f w).

(** *** File system *)

Definition os_path_exists (p : string) : M bool :=
  get (fun w => match files w !! p with Some _ => true | None => false end).

(** [shutil.copy(src, dst)] opens [src], creates [dst], carries the data
    over and then copies the permission bits.  [Raises]: it raises before
    [dst] is created.  [Fails]: it raises once [dst] is there; of these
    failures the model has the one of the permission copy, after the
    data went over.  A copy cut short half way leaves a [dst] that is no
    database, for which [Database] has no value; what is proved of a
    failure that leaves [dst] behind therefore says that [dst] exists,
    not what it holds. *)
Definition shutil_copy (src dst : string) : M unit :=
  f <- attempt (EvCopy src dst) ;;
  match f with
  | NoFault =>
      fs <- get files ;;
      match fs !! src with
      | Some d => modify (set_files (<[dst := d]> fs))
      | None => raise (OSError "No such file or directory")
      end
  | Fails =>
      fs <- get files ;;
      match fs !! src with
      | Some d =>
          modify (set_files (<[dst := d]> fs)) ;;
          raise (OSError "copy failed")
      | None => raise (OSError "No such file or directory")
      end
  | Raises => raise (OSError "copy failed")
  end.

(** *** QSqlDatabase *)

(** [QSqlDatabase.addDatabase('QSQLITE')] followed by
    [setDatabaseName(name)]: a new, closed default connection. *)
Definition db_addDatabase (name : string) : M unit :=
  modify (set_conn name false).

Definition create_if_absent (p : string) (fs : gmap string Database)
  : gmap string Database :=
  match fs !! p with
  | Some _ => fs
  | None => <[p := []]> fs
  end.

(** Opening creates the file, holding an empty database, when there is
    none. *)
Definition db_open : M bool :=
  name <- get conn_name ;;
  f <- attempt (EvOpen name) ;;
  match f with
  | Raises => raise (OSError "open")
  | Fails => ret false
  | NoFault =>
      modify (fun w => set_conn name true
                         (set_files (create_if_absent name (files w)) w)) ;;
      ret true
  end.

Definition db_isOpen : M bool :=
  f <- attempt EvIsOpen ;;
  match f with
  | Raises => raise (TypeError "isOpen")
  | _ => get conn_open
  end.

Definition db_close : M unit :=
  f <- attempt EvClose ;;
  match f with
  | Raises => raise (OSError "close")
  | _ => modify (fun w => set_conn (conn_name w) false w)
  end.

(** *** QSqlQuery *)

(** The database behind the connection, when it is open and its file is
    there. *)
Definition current_db (w : World) : option Database :=
  if conn_open w then files w !! conn_name w else None.

Definition store_db (db : Database) (w : World) : World :=
  set_files (<[conn_name w := db]> (files w)) w.

(** [QSqlQuery()] *)
Definition new_query : M unit :=
  modify (set_query {| q_stmt := None; q_binds := []; q_error := "" |}).

(** [query.exec(sql)]: compile and run at once. *)
Definition query_exec_sql (sql : string) : M bool :=
  f <- attempt (EvExecSql sql) ;;
  match f with
  | Raises => raise (TypeError "exec")
  | Fails =>
      err <- get engine_error ;;
      modify (set_query {| q_stmt := compile sql; q_binds := [];
                           q_error := err |}) ;;
      ret false
  | NoFault =>
      odb <- get current_db ;;
      err <- get engine_error ;;
      match odb, compile sql with
      | Some db, Some s =>
          match run_stmt s [] db with
          | Some db' =>
              modify (set_query {| q_stmt := compile sql; q_binds := [];
                                   q_error := "" |}) ;;
              modify (store_db db') ;; ret true
          | None =>
              modify (set_query {| q_stmt := compile sql; q_binds := [];
                                   q_error := err |}) ;;
              ret false
          end
      | _, _ =>
          modify (set_query {| q_stmt := compile sql; q_binds := [];
                               q_error := err |}) ;;
          ret false
      end
  end.

(** [query.prepare(sql)]: the statement is kept only when the engine
    accepts it; the code never looks at the result. *)
Definition query_prepare (sql : string) : M bool :=
  f <- attempt (EvPrepare sql) ;;
  err <- get engine_error ;;
  match f with
  | Raises => raise (TypeError "prepare")
  | Fails =>
      modify (set_query {| q_stmt := None; q_binds := []; q_error := err |}) ;;
      ret false
  | NoFault =>
      odb <- get current_db ;;
      match odb, compile sql with
      | Some db, Some s =>
          if valid_stmt s db
          then modify (set_query {| q_stmt := Some s; q_binds := [];
                                    q_error := "" |}) ;;
               ret true
          else modify (set_query {| q_stmt := None; q_binds := [];
                                    q_error := err |}) ;;
               ret false
      | _, _ =>
          modify (set_query {| q_stmt := None; q_binds := [];
                               q_error := err |}) ;;
          ret false
      end
  end.

Definition query_addBindValue (v : SqlValue) : M unit :=
  f <- attempt (EvBind v) ;;
  match f with
  | Raises => raise (TypeError "addBindValue")
  | _ =>
      modify (fun w => set_query {| q_stmt := q_stmt (query w);
                                    q_binds := q_binds (query w) ++ [v];
                                    q_error := q_error (query w) |} w)
  end.

(** The number of placeholders of the statement a query holds; none when
    the engine did not accept it. *)
Definition placeholders (q : Query) : nat :=
  match q_stmt q with
  | Some (InsertInto _ _ n) => n
  | _ => 0%nat
  end.

Definition set_error (e : string) (w : World) : World :=
  set_query {| q_stmt := q_stmt (query w); q_binds := q_binds (query w);
               q_error := e |} w.

(** [query.exec()]: runs the prepared statement with the bound values.
    The driver first compares the number of bound values with the number
    of placeholders of the statement, which is none when [prepare] did
    not succeed, and gives up with its own error text when they differ. *)
Definition query_exec : M bool :=
  f <- attempt EvExec ;;
  err <- get engine_error ;;
  match f with
  | Raises => raise (TypeError "exec")
  | Fails => modify (set_error err) ;; ret false
  | NoFault =>
      odb <- get current_db ;;
      q <- get query ;;
      if negb (Nat.eqb (length (q_binds q)) (placeholders q))
      then modify (set_error "Parameter count mismatch") ;; ret false
      else
        match odb, q_stmt q with
        | Some db, Some s =>
            match run_stmt s (q_binds q) db with
            | Some db' =>
                modify (set_error "") ;; modify (store_db db') ;; ret true
            | None => modify (set_error err) ;; ret false
            end
        | _, _ => modify (set_error err) ;; ret false
        end
  end.

(** *** QSettings *)

Definition string_of_bytes (b : list Byte.byte) : string :=
  fold_right (fun x r => String (ascii_of_byte x) r) EmptyString b.

(** A text read as a C [int]: Qt reads it as a 64-bit integer and keeps
    the low 32 bits. *)
Definition int_of_text (s : string) : option QVariant :=
  match parse_int s with
  | Some n => if in_int64 n then Some (QInt (wrap32 n)) else None
  | None => None
  end.

(** Conversion to the requested [type=], as [QVariant::convert] does it;
    without a type the value comes back as stored.  [type=int] is a C
    [int]: a larger integer keeps its low 32 bits, a text or a byte array
    is read as a decimal number.  [type=str] prints an integer in decimal
    and takes a byte array for the UTF-8 text it holds (texts are kept as
    their bytes).  [None] is a conversion Qt refuses, which makes the
    call raise. *)
Definition coerce (ty : option QType) (v : QVariant) : option QVariant :=
  match ty, v with
  | None, _ => Some v
  | Some TInt, QInt n => Some (QInt (wrap32 n))
  | Some TInt, QStr s => int_of_text s
  | Some TInt, QBytes b => int_of_text (string_of_bytes b)
  | Some TStr, QStr s => Some (QStr s)
  | Some TStr, QInt n => Some (QStr (decimal n))
  | Some TStr, QBytes b => Some (QStr (string_of_bytes b))
  end.

(** What the next process finds of a stored value.  [QSettings] keeps the
    map in the native format of the platform.  A typed format (the
    property lists of macOS, the Windows registry) hands a value back as
    it was written; the text format of the other platforms hands an
    integer back as its decimal text.  Texts and byte arrays come back as
    they were written in both. *)
Inductive Format := Typed | Textual.

Definition reload_value (fmt : Format) (v : QVariant) : QVariant :=
  match fmt, v with
  | Textual, QInt n => QStr (decimal n)
  | _, _ => v
  end.

Definition reload (fmt : Format) (st : gmap string QVariant)
  : gmap string QVariant :=
  reload_value fmt <$> st.

Definition settings_setValue (key : string) (v : QVariant) : M unit :=
  f <- attempt (EvSetValue key) ;;
  match f with
  | Raises => raise (TypeError "setValue")
  | Fails => ret tt
  | NoFault => modify (fun w => set_settings (<[key := v]> (settings w)) w)
  end.

(** [settings.value(key, default, type=ty)] *)
Definition settings_value (key : string) (default : QVariant)
    (ty : option QType) : M QVariant :=
  f <- attempt (EvGetValue key) ;;
  match f with
  | Raises => raise (TypeError "value")
  | _ =>
      st <- get settings ;;
      match coerce ty (match st !! key with Some v => v | None => default end)
      with
      | Some v => ret v
      | None => raise (TypeError "unable to convert a QVariant")
      end
  end.

(** *** Widgets *)

(** The widget setters check the type of their argument and are otherwise
    recorded only: the widgets are built by the generated GUI module. *)
Definition slider_setValue (widget : string) (v : QVariant) : M unit :=
  match v with
  | QInt _ => fun w => (Ret tt, set_trace (trace w ++ [EvWidgetSet widget v]) w)
  | _ => raise (TypeError "setValue(int)")
  end.

Definition text_setHtml (widget : string) (v : QVariant) : M unit :=
  match v with
  | QStr _ => fun w => (Ret tt, set_trace (trace w ++ [EvWidgetSet widget v]) w)
  | _ => raise (TypeError "setHtml(str)")
  end.

Definition restore_bytes (widget : string) (v : QVariant) : M unit :=
  match v with
  | QBytes _ => fun w => (Ret tt, set_trace (trace w ++ [EvWidgetSet widget v]) w)
  | _ => raise (TypeError "QByteArray expected")
  end.

(** [signal.connect(lambda: delete_selected_rows(self, table, model))] *)
Definition connect_delete (table model : string) : M unit :=
  f <- attempt (EvConnect table model) ;;
  match f with
  | Raises => raise (TypeError "connect")
  | _ => modify (fun w => set_slots (slots w ++ [(table, model)]) w)
  end.

(** A call into Qt that touches neither store. *)
Definition qt_call (name : string) : M unit :=
  f <- attempt (EvCall name) ;;
  match f with
  | Raises => raise (TypeError name)
  | _ => ret tt
  end.

(** * database/database_manager.py *)

Section Initialization.

  (** [db_path] is the bundled template next to the program,
      [target_db_path] the user's database; both are built from
      [tracker_config.DB_NAME], the working directory and the home
      directory when the module is loaded. *)
Variables db_path target_db_path : string.

Definition initialize_database : M unit :=
    try_except
      (there <- os_path_exists target_db_path ;;
       if negb there then
         bundled <- os_path_exists db_path ;;
         if bundled then
           shutil_copy db_path target_db_path
         else
           db_addDatabase target_db_path ;;
           ok <- db_open ;;
           (if negb ok
            then logger_error "Error: Unable to create database"
            else ret tt) ;;
           db_close
       else ret tt)
      (fun e => logger_error "Error: Unable to create database").

End Initialization.

(** The statement text of [setup_lily_notes_table]. *)
Definition create_lily_notes_table : string := "
                CREATE TABLE IF NOT EXISTS lily_notes_table (
                id INTEGER PRIMARY KEY AUTOINCREMENT,
                lily_date TEXT,
                lily_time TEXT,
                lily_notes TEXT
                )".

Definition setup_lily_notes_table : M unit :=
  ok <- query_exec_sql create_lily_notes_table ;;
  if negb ok then logger_error "Error creating table: lily_notes_table"
  else ret tt.

(** The statement text of [setup_time_in_room_table]. *)
Definition create_lily_in_room_table : string := "
                CREATE TABLE IF NOT EXISTS lily_in_room_table (
                id INTEGER PRIMARY KEY AUTOINCREMENT,
                lily_date TEXT,
                lily_time TEXT,
                time_in_room_slider INTEGER
                )".

Definition setup_time_in_room_table : M unit :=
  ok <- query_exec_sql create_lily_in_room_table ;;
  if negb ok then logger_error "Error creating table: lily_in_room_table"
  else ret tt.

(** The statement text of [setup_lily_diet_table]. *)
Definition create_lily_diet_table : string := "
                CREATE TABLE IF NOT EXISTS lily_diet_table (
                id INTEGER PRIMARY KEY AUTOINCREMENT,
                lily_date TEXT,
                lily_time TEXT
                )".

Definition setup_lily_diet_table : M unit :=
  ok <- query_exec_sql create_lily_diet_table ;;
  if negb ok then logger_error "Error creating table: lily_diet_table"
  else ret tt.

(** The statement text of [setup_lily_mood_table]. *)
Definition create_lily_mood_table : string := "
                CREATE TABLE IF NOT EXISTS lily_mood_table (
                id INTEGER PRIMARY KEY AUTOINCREMENT,
                lily_date TEXT,
                lily_time TEXT,
                lily_mood_slider INTEGER,
                lily_mood_activity_slider INTEGER,
                lily_energy_slider INTEGER
                    )".

Definition setup_lily_mood_table : M unit :=
  ok <- query_exec_sql create_lily_mood_table ;;
  if negb ok then logger_error "Error creating table: lily_mood_table"
  else ret tt.

(** The statement text of [setup_wiggles_walks_table]. *)
Definition create_lily_walk_table : string := "
                CREATE TABLE IF NOT EXISTS lily_walk_table (
                id INTEGER PRIMARY KEY AUTOINCREMENT,
                lily_date TEXT,
                lily_time TEXT,
                lily_behavior INTEGER,
                lily_gait INTEGER
                )".

Definition setup_wiggles_walks_table : M unit :=
  ok <- query_exec_sql create_lily_walk_table ;;
  if negb ok then logger_error "Error creating table: lily_walk_table"
  else ret tt.

(** The statement text of [setup_lily_walk_notes_table]. *)
Definition create_lily_walk_notes_table : string := "
                CREATE TABLE IF NOT EXISTS lily_walk_notes_table (
                id INTEGER PRIMARY KEY AUTOINCREMENT,
                lily_date TEXT,
                lily_time TEXT,
                lily_walk_note TEXT
                )".

Definition setup_lily_walk_notes_table : M unit :=
  ok <- query_exec_sql create_lily_walk_notes_table ;;
  if negb ok then logger_error "Error creating table: lily_walk_notes_table"
  else ret tt.

Definition setup_tables : M unit :=
  setup_lily_diet_table ;;
  setup_lily_mood_table ;;
  setup_wiggles_walks_table ;;
  setup_time_in_room_table ;;
  setup_lily_notes_table ;;
  setup_lily_walk_notes_table.

(** [DataManager.__init__(db_name)] *)
Definition DataManager_init (db_name : string) : M unit :=
  try_except
    (db_addDatabase db_name ;;
     ok <- db_open ;;
     (if negb ok then logger_error "Error: Unable to open database"
      else ret tt) ;;
     logger_info "DB INITIALIZING" ;;
     new_query ;;
     setup_tables)
    (fun e => logger_error ("Error: Unable to open database " +:+ exn_text e)).

(** [sql.count('?')] *)
Fixpoint count_char (c : ascii) (s : string) : nat :=
  match s with
  | EmptyString => 0%nat
  | String c' s' =>
      ((if Ascii.eqb c' c then 1 else 0) + count_char c s')%nat
  end.

(** [addBindValue] of a Python [int]: one that fits 64 bits is bound as
    an integer; Qt has no wider integer, and what does not fit reaches
    the engine as its decimal text. *)
Definition bind_int (n : Z) : SqlValue :=
  if in_int64 n then SqlInt n else SqlText (decimal n).

(** The six insert methods share their body word for word, up to the
    table label of their messages.  [insert_attempt] is the [try] block:
    prepare, bind every value, compare the number of placeholders with the
    number of values, execute, and log [lastError().text()] when the
    execution is reported as failed. *)
Definition insert_attempt (label sql : string) (bind_values : list SqlValue)
  : M unit :=
  query_prepare sql ;;
  for_each bind_values query_addBindValue ;;
  (if negb (Nat.eqb (count_char "?" sql) (length bind_values))
   then raise (ValueError
                 ("Mismatch: " +:+ label +:+ " Expected "
                  +:+ pretty (count_char "?" sql) +:+ " bind values, got "
                  +:+ pretty (length bind_values) +:+ "."))
   else ret tt) ;;
  ok <- query_exec ;;
  if negb ok then
    err <- get (fun w => q_error (query w)) ;;
    logger_error ("Error inserting data: " +:+ label +:+ " - " +:+ err)
  else ret tt.

(** ... and [insert_statement] the whole [try: ... except ValueError ...
    except Exception ...]. *)
Definition insert_statement (label sql : string) (bind_values : list SqlValue)
  : M unit :=
  try_except
    (insert_attempt label sql bind_values)
    (fun e =>
       match e with
       | ValueError m => logger_error ("ValueError " +:+ label +:+ ": " +:+ m)
       | _ => logger_error ("Error during data insertion: " +:+ label +:+ " "
                            +:+ exn_text e)
       end).

(** [sql] of [insert_into_lily_notes_table]. *)
Definition insert_lily_notes_sql : string :=
  "INSERT INTO lily_notes_table(lily_date, lily_time, lily_notes) VALUES (?, ?, ?)".

Definition insert_into_lily_notes_table (lily_date lily_time lily_notes : string)
  : M unit :=
  insert_statement "lily_notes_table"
    insert_lily_notes_sql
    [SqlText lily_date; SqlText lily_time; SqlText lily_notes].

(** [sql] of [insert_into_time_in_room_table]. *)
Definition insert_time_in_room_sql : string :=
  "INSERT INTO lily_in_room_table(lily_date, lily_time,
                                       time_in_room_slider) VALUES (?, ?, ?)".

Definition insert_into_time_in_room_table (lily_date lily_time : string)
    (time_in_room_slider : Z) : M unit :=
  insert_statement "lily_in_room_table"
    insert_time_in_room_sql
    [SqlText lily_date; SqlText lily_time; bind_int time_in_room_slider].

(** [sql] of [insert_into_lily_diet_table]. *)
Definition insert_lily_diet_sql : string :=
  "INSERT INTO lily_diet_table(lily_date, lily_time) VALUES (?, ?)".

Definition insert_into_lily_diet_table (lily_date lily_time : string) : M unit :=
  insert_statement "lily_eats_table"
    insert_lily_diet_sql
    [SqlText lily_date; SqlText lily_time].

(** [sql] of [insert_into_lily_mood_table]. *)
Definition insert_lily_mood_sql : string :=
  "INSERT INTO lily_mood_table(
        lily_date, lily_time, lily_mood_slider, lily_mood_activity_slider, lily_energy_slider)
        VALUES (?, ?, ?, ?, ?)".

Definition insert_into_lily_mood_table (lily_date lily_time : string)
    (lily_mood_slider lily_mood_activity_slider lily_energy_slider : Z)
  : M unit :=
  insert_statement "lily_mood_table"
    insert_lily_mood_sql
    [SqlText lily_date; SqlText lily_time; bind_int lily_mood_slider;
     bind_int lily_mood_activity_slider; bind_int lily_energy_slider].

(** [sql] of [insert_into_wiggles_walks_table]. *)
Definition insert_wiggles_walks_sql : string :=
  "INSERT INTO lily_walk_table(
            lily_date, lily_time, lily_behavior, lily_gait)
            VALUES (?, ?, ?, ?)".

Definition insert_into_wiggles_walks_table (lily_date lily_time : string)
    (lily_behavior lily_gait : Z) : M unit :=
  insert_statement "lily_walk_table"
    insert_wiggles_walks_sql
    [SqlText lily_date; SqlText lily_time; bind_int lily_behavior;
     bind_int lily_gait].

(** [sql] of [insert_into_lily_walk_notes_table]. *)
Definition insert_lily_walk_notes_sql : string :=
  "INSERT INTO lily_walk_notes_table(
            lily_date, lily_time, lily_walk_note)
            VALUES (?, ?, ?)".

Definition insert_into_lily_walk_notes_table
    (lily_date lily_time lily_walk_note : string) : M unit :=
  insert_statement "lily_walk_notes_table"
    insert_lily_walk_notes_sql
    [SqlText lily_date; SqlText lily_time; SqlText lily_walk_note].

Definition close_database : M unit :=
  try_except
    (logger_info "if database is open" ;;
     o <- db_isOpen ;;
     if o then
       logger_info "the database is closed successfully" ;;
       db_close
     else ret tt)
    (fun e => logger_error ("Error closing database: " +:+ exn_text e)).

(** * Parts of the repository that are not among the sources *)

(** Modelled from the spec: [database_utility/model_setup.py] is missing.
    "bind(tableName) -> Model: issues a select all against the table and
    returns a live, re-queryable view": the model is the name of the table
    it is bound to, and reading it is a fresh select of all rows. *)
Definition create_and_set_model (table_name view : string) : M string :=
  qt_call "create_and_set_model" ;;
  ret table_name.

(** Modelled from the spec: the "select all" behind a bound model; the
    rows of the table in insertion order, each with its identity. *)
Definition select_all (table_name : string) (w : World)
  : option (list (Z * list SqlValue)) :=
  match current_db w with
  | Some db =>
      match find_table table_name db with
      | Some t => Some (t_rows t)
      | None => None
      end
  | None => None
  end.

(** Modelled from the spec: "selectedRowIdentities(model, selection) -> set
    of id: maps a UI selection (possibly empty, possibly multiple rows) to
    the identity column values". *)
Fixpoint selectedRowIdentities (rows : list (Z * list SqlValue))
    (sel : list nat) : list Z :=
  match sel with
  | [] => []
  | i :: sel' =>
      match nth_error rows i with
      | Some r => fst r :: selectedRowIdentities rows sel'
      | None => selectedRowIdentities rows sel'
      end
  end.

(** Modelled from the spec: "removes the given identities".  The rows
    with these identities go; the largest identity handed out so far is
    kept, as SQLite keeps it for an AUTOINCREMENT table. *)
Definition delete_ids (ids : list Z) (t : Table) : Table :=
  {| t_id := t_id t;
     t_cols := t_cols t;
     t_rows := List.filter (fun r => negb (existsb (Z.eqb (fst r)) ids)) (t_rows t);
     t_seq := t_seq t |}.

(** Modelled from the spec: [database_utility/delete_records.py] is
    missing.  "deleteRows(tableName, rowIdentities): removes the given
    identities; no-ops on an empty set; fails with DeleteError on driver
    failure, logged and swallowed". *)
Definition deleteRows (table_name : string) (ids : list Z) : M unit :=
  match ids with
  | [] => ret tt
  | _ =>
      f <- attempt (EvDeleteRows table_name ids) ;;
      odb <- get current_db ;;
      match f, odb with
      | NoFault, Some db =>
          match find_table table_name db with
          | Some t => modify (store_db (update_table table_name (delete_ids ids t) db))
          | None => logger_error ("DeleteError " +:+ table_name)
          end
      | _, _ => logger_error ("DeleteError " +:+ table_name)
      end
  end.

(** Modelled from the spec: the routine behind the delete action,
    "Table Model Adapter resolves selected row -> Record Store deletes by
    row identity -> Table Model Adapter refreshes".  The selection is the
    one held for the model; the rows are those of the table the model is
    bound to. *)
Definition delete_selected_rows (table_name model_name : string) : M unit :=
  modify (fun w => set_trace (trace w ++ [EvDeleteSelectedRows table_name model_name]) w) ;;
  ms <- get models ;;
  sel <- get (fun w => match selection w !! model_name with
                       | Some l => l
                       | None => []
                       end) ;;
  rows <- get (fun w => match ms !! model_name with
                        | Some t => match select_all t w with
                                    | Some r => r
                                    | None => []
                                    end
                        | None => []
                        end) ;;
  deleteRows table_name (selectedRowIdentities rows sel).

(** * ui/main_window.py *)

(** What the widgets of the main window currently show. *)
Record Widgets := {
  lily_time_in_room_slider : c_int;
  lily_mood_slider : c_int;
  lily_mood_activity_slider : c_int;
  lily_energy_slider : c_int;
  lily_time_in_room : c_int;
  lily_mood : c_int;
  lily_activity : c_int;
  lily_energy : c_int;
  lily_notes : string;              (* lily_notes.toHtml() *)
  saveGeometry : list Byte.byte;
  saveState : list Byte.byte
}.

Definition on_page_changed (index : Z) : M unit :=
  settings_setValue "lastPageIndex" (QInt index).

(** [connect_slider_spinbox] is a utility of the repository that wires
    two widgets; it touches neither store. *)
Definition slider_set_spinbox : M unit :=
  for_each
    [("lily_time_in_room_slider", "lily_time_in_room");
     ("lily_mood_slider", "lily_mood");
     ("lily_mood_activity_slider", "lily_activity");
     ("lily_gait_slider", "lily_gait");
     ("lily_behavior_slider", "lily_behavior");
     ("lily_energy_slider", "lily_energy")]
    (fun p => qt_call ("connect_slider_spinbox " +:+ fst p +:+ " " +:+ snd p)).

Definition auto_date_time : M unit :=
  try_except
    (qt_call "lily_date.setDate" ;;
     qt_call "lily_time.setTime")
    (fun e => logger_error ("Auto-Date time failed to be so auto... "
                            +:+ exn_text e)).

Definition stack_navigation : M unit :=
  try_except
    (qt_call "action_input_page.triggered.connect" ;;
     qt_call "action_data_view_page.triggered.connect")
    (fun e => logger_error ("An error has occurred: " +:+ exn_text e)).

(** [lilyStack.currentChanged.connect(self.on_page_changed)] *)
Definition connect_page_changed : M unit :=
  f <- attempt (EvCall "lilyStack.currentChanged.connect") ;;
  match f with
  | Raises => raise (TypeError "lilyStack.currentChanged.connect")
  | _ =>
      modify (fun w =>
                set_stack {| current_index := current_index (stack w);
                             page_count := page_count (stack w);
                             page_changed_slots :=
                               S (page_changed_slots (stack w)) |} w)
  end.

(** The signal [currentChanged(index)] calls [on_page_changed] once for
    every connection.  An exception the slot raises does not travel back
    through Qt to the caller of [setCurrentIndex]: PyQt hands it to
    [sys.excepthook], and with the hook Python installs by default it
    then ends the process.  The model records the call of the hook and
    stops following the slot there; [setCurrentIndex] is the last
    statement of [widget_operations], so that nothing of the method is
    left to run in either case. *)
Definition emit_currentChanged (index : Z) : M unit :=
  n <- get (fun w => page_changed_slots (stack w)) ;;
  for_each (repeat tt n)
    (fun _ =>
       try_except (on_page_changed index)
         (fun e =>
            modify (fun w => set_trace (trace w ++ [EvCall "sys.excepthook"]) w))).

(** [lilyStack.setCurrentIndex(index)]: when [index] is a page of the
    stack other than the one it shows, the stack shows it and emits
    [currentChanged]; otherwise nothing happens. *)
Definition lilyStack_setCurrentIndex (v : QVariant) : M unit :=
  match v with
  | QInt i =>
      modify (fun w =>
                set_trace (trace w ++ [EvWidgetSet "lilyStack.setCurrentIndex" v])
                  w) ;;
      st <- get stack ;;
      if (0 <=? i) && (i <? page_count st) && negb (i =? current_index st)
      then
        modify (set_stack {| current_index := i;
                             page_count := page_count st;
                             page_changed_slots := page_changed_slots st |}) ;;
        emit_currentChanged i
      else ret tt
  | _ => raise (TypeError "setCurrentIndex(int)")
  end.

Definition widget_operations : M unit :=
  try_except
    (slider_set_spinbox ;;
     auto_date_time ;;
     stack_navigation ;;
     qt_call "action_input_page.triggered.connect" ;;
     qt_call "action_data_view_page.triggered.connect" ;;
     connect_page_changed ;;
     last_index <- settings_value "lastPageIndex" (QInt 0) (Some TInt) ;;
     lilyStack_setCurrentIndex last_index)
    (fun e => logger_error ("Error setting up primary operations "
                            +:+ exn_text e)).

Definition assign_model (attr : string) (m : string) : M unit :=
  modify (fun w => set_models (<[attr := m]> (models w)) w).

Definition setup_models : M unit :=
  try_except
    (m <- create_and_set_model "lily_diet_table" "lily_diet_table" ;;
     assign_model "lily_diet_model" m ;;
     m <- create_and_set_model "lily_mood_table" "lily_mood_table" ;;
     assign_model "lily_mood_model" m ;;
     m <- create_and_set_model "lily_walk_table" "lily_walk_table" ;;
     assign_model "lily_walk_model" m ;;
     m <- create_and_set_model "lily_in_room_table" "time_in_room_table" ;;
     assign_model "lily_room_model" m ;;
     m <- create_and_set_model "lily_notes_table" "lily_notes_table" ;;
     assign_model "lily_note_model" m ;;
     m <- create_and_set_model "lily_walk_notes_table" "lily_walk_note_table" ;;
     assign_model "lily_walk_note_model" m)
    (fun e => logger_error ("Error setting up models: " +:+ exn_text e)).

Definition setup_delete_actions : M unit :=
  try_except
    (try_except (connect_delete "lily_walk_table" "lily_walk_model")
       (fun e => logger_error ("Error setting up delete actions: " +:+ exn_text e)) ;;
     try_except (connect_delete "lily_diet_table" "lily_diet_model")
       (fun e => logger_error ("Error setting up delete actions: " +:+ exn_text e)) ;;
     try_except (connect_delete "lily_mood_table" "lily_mood_model")
       (fun e => logger_error ("Error setting up delete actions: " +:+ exn_text e)) ;;
     try_except (connect_delete "time_in_room_table" "lily_room_model")
       (fun e => logger_error ("Error setting up delete actions: " +:+ exn_text e)) ;;
     try_except (connect_delete "lily_notes_table" "lily_note_model")
       (fun e => logger_error ("Error setting up delete actions: " +:+ exn_text e)) ;;
     try_except (connect_delete "lily_walk_note_table" "lily_walk_note_model")
       (fun e => logger_error ("Error setting up delete actions: " +:+ exn_text e)))
    (fun e => logger_error (exn_text e)).

(** [action_delete_record.triggered.emit()]: Qt calls the connected slots
    in the order of their connection. *)
Definition trigger_action_delete_record : M unit :=
  sl <- get slots ;;
  for_each sl (fun s => delete_selected_rows (fst s) (snd s)).

Definition save_state (ui : Widgets) : M unit :=
  try_except
    (settings_setValue "lily_time_in_room_slider" (QInt (lily_time_in_room_slider ui)))
    (fun e => logger_error (exn_text e)) ;;
  try_except
    (settings_setValue "lily_mood_slider" (QInt (lily_mood_slider ui)))
    (fun e => logger_error (exn_text e)) ;;
  try_except
    (settings_setValue "lily_mood_activity_slider" (QInt (lily_mood_activity_slider ui)))
    (fun e => logger_error (exn_text e)) ;;
  try_except
    (settings_setValue "lily_energy_slider" (QInt (lily_energy_slider ui)))
    (fun e => logger_error (exn_text e)) ;;
  try_except
    (settings_setValue "lily_time_in_room" (QInt (lily_time_in_room ui)))
    (fun e => logger_error (exn_text e)) ;;
  try_except
    (settings_setValue "lily_mood" (QInt (lily_mood ui)))
    (fun e => logger_error (exn_text e)) ;;
  try_except
    (settings_setValue "lily_activity" (QInt (lily_activity ui)))
    (fun e => logger_error (exn_text e)) ;;
  try_except
    (settings_setValue "lily_energy" (QInt (lily_energy ui)))
    (fun e => logger_error (exn_text e)) ;;
  try_except
    (settings_setValue "lily_notes" (QStr (lily_notes ui)))
    (fun e => logger_error (exn_text e)) ;;
  try_except
    (settings_setValue "geometry" (QBytes (saveGeometry ui)) ;;
     settings_setValue "windowState" (QBytes (saveState ui)))
    (fun e => logger_error ("An Error has occurred " +:+ exn_text e)).

Definition restore_state : M unit :=
  try_except
    (v <- settings_value "geometry" (QBytes []) None ;;
     restore_bytes "restoreGeometry" v)
    (fun e => logger_error ("Error restoring the minds module : stress state "
                            +:+ exn_text e)) ;;
  try_except
    (v <- settings_value "lily_time_in_room_slider" (QInt 0) (Some TInt) ;;
     slider_setValue "lily_time_in_room_slider" v)
    (fun e => logger_error (exn_text e)) ;;
  try_except
    (v <- settings_value "lily_mood_slider" (QInt 0) (Some TInt) ;;
     slider_setValue "lily_mood_slider" v)
    (fun e => logger_error (exn_text e)) ;;
  try_except
    (v <- settings_value "lily_mood_activity_slider" (QInt 0) (Some TInt) ;;
     slider_setValue "lily_mood_activity_slider" v)
    (fun e => logger_error (exn_text e)) ;;
  try_except
    (v <- settings_value "lily_energy_slider" (QInt 0) (Some TInt) ;;
     slider_setValue "lily_energy_slider" v)
    (fun e => logger_error (exn_text e)) ;;
  try_except
    (v <- settings_value "lily_time_in_room" (QInt 0) (Some TInt) ;;
     slider_setValue "lily_time_in_room" v)
    (fun e => logger_error (exn_text e)) ;;
  try_except
    (v <- settings_value "lily_mood" (QInt 0) (Some TInt) ;;
     slider_setValue "lily_mood" v)
    (fun e => logger_error (exn_text e)) ;;
  try_except
    (v <- settings_value "lily_activity" (QInt 0) (Some TInt) ;;
     slider_setValue "lily_activity" v)
    (fun e => logger_error (exn_text e)) ;;
  try_except
    (v <- settings_value "lily_energy" (QInt 0) (Some TInt) ;;
     slider_setValue "lily_energy" v)
    (fun e => logger_error (exn_text e)) ;;
  try_except
    (v <- settings_value "lily_notes" (QStr "") (Some TStr) ;;
     text_setHtml "lily_notes" v)
    (fun e => logger_error (exn_text e)) ;;
  try_except
    (v <- settings_value "windowState" (QBytes []) None ;;
     restore_bytes "restoreState" v)
    (fun e => logger_error ("Error restoring WINDOW STATE " +:+ exn_text e)).

Definition closeEvent (ui : Widgets) : M unit :=
  try_except (save_state ui)
    (fun e => logger_error ("error saving state during closure: " +:+ exn_text e)).

(** The older copy of the window, [Lilys Micro Module July26/ui/main_window.py]. *)
Module July26.

Definition setup_delete_actions : M unit :=
    try_except
      (connect_delete "lily_walk_table" "lily_walk_model" ;;
       connect_delete "lily_diet_table" "lily_diet_model" ;;
       connect_delete "lily_mood_table" "lily_mood_model" ;;
       connect_delete "time_in_room_table" "lily_room_model" ;;
       connect_delete "lily_notes_table" "lily_note_model" ;;
       connect_delete "lily_walk_note_table" "lily_walk_note_model")
      (fun e => logger_error (exn_text e)).

End July26.

(** [save_state] and [restore_state] of the older copy of the window,
    [Lilys Micro Module July26/ui/main_window.py]. *)
Module July26State.

Definition save_state (ui : Widgets) : M unit :=
  try_except
    (settings_setValue "lily_time_in_room_slider" (QInt (lily_time_in_room_slider ui)))
    (fun e => logger_error (exn_text e)) ;;
  try_except
    (settings_setValue "lily_mood_slider" (QInt (lily_mood_slider ui)))
    (fun e => logger_error (exn_text e)) ;;
  try_except
    (settings_setValue "lily_mood_activity_slider" (QInt (lily_mood_activity_slider ui)))
    (fun e => logger_error (exn_text e)) ;;
  try_except
    (settings_setValue "lily_energy_slider" (QInt (lily_energy_slider ui)))
    (fun e => logger_error (exn_text e)) ;;
  try_except
    (settings_setValue "lily_time_in_room" (QInt (lily_time_in_room ui)))
    (fun e => logger_error (exn_text e)) ;;
  try_except
    (settings_setValue "lily_mood" (QInt (lily_mood ui)))
    (fun e => logger_error (exn_text e)) ;;
  try_except
    (settings_setValue "lily_activity" (QInt (lily_activity ui)))
    (fun e => logger_error (exn_text e)) ;;
  try_except
    (settings_setValue "lily_energy" (QInt (lily_energy ui)))
    (fun e => logger_error (exn_text e)) ;;
  try_except
    (settings_setValue "geometry" (QBytes (saveGeometry ui)) ;;
     settings_setValue "windowState" (QBytes (saveState ui)))
    (fun e => logger_error ("An Error has occurred " +:+ exn_text e)).

Definition restore_state : M unit :=
  try_except
    (v <- settings_value "geometry" (QBytes []) None ;;
     restore_bytes "restoreGeometry" v)
    (fun e => logger_error ("Error restoring the minds module : stress state "
                            +:+ exn_text e)) ;;
  try_except
    (v <- settings_value "lily_time_in_room_slider" (QInt 0) (Some TInt) ;;
     slider_setValue "lily_time_in_room_slider" v)
    (fun e => logger_error (exn_text e)) ;;
  try_except
    (v <- settings_value "lily_mood_slider" (QInt 0) (Some TInt) ;;
     slider_setValue "lily_mood_slider" v)
    (fun e => logger_error (exn_text e)) ;;
  try_except
    (v <- settings_value "lily_mood_activity_slider" (QInt 0) (Some TInt) ;;
     slider_setValue "lily_mood_activity_slider" v)
    (fun e => logger_error (exn_text e)) ;;
  try_except
    (v <- settings_value "lily_energy_slider" (QInt 0) (Some TInt) ;;
     slider_setValue "lily_energy_slider" v)
    (fun e => logger_error (exn_text e)) ;;
  try_except
    (v <- settings_value "lily_time_in_room" (QInt 0) (Some TInt) ;;
     slider_setValue "lily_time_in_room" v)
    (fun e => logger_error (exn_text e)) ;;
  try_except
    (v <- settings_value "lily_mood" (QInt 0) (Some TInt) ;;
     slider_setValue "lily_mood" v)
    (fun e => logger_error (exn_text e)) ;;
  try_except
    (v <- settings_value "lily_activity" (QInt 0) (Some TInt) ;;
     slider_setValue "lily_activity" v)
    (fun e => logger_error (exn_text e)) ;;
  try_except
    (v <- settings_value "lily_energy" (QInt 0) (Some TInt) ;;
     slider_setValue "lily_energy" v)
    (fun e => logger_error (exn_text e)) ;;
  try_except
    (v <- settings_value "windowState" (QBytes []) None ;;
     restore_bytes "restoreState" v)
    (fun e => logger_error ("Error restoring WINDOW STATE " +:+ exn_text e)).

End July26State.

(** * Worlds to run the program in *)

Definition empty_query : Query :=
  {| q_stmt := None; q_binds := []; q_error := "" |}.

(** The stack as the window is built: two pages, the input page shown,
    nothing connected. *)
Definition new_stack : Stack :=
  {| current_index := 0; page_count := 2; page_changed_slots := 0 |}.

(** A machine with the given files, nothing connected, nothing stored and
    an environment that behaves. *)
Definition fresh_world (fs : gmap string Database) : World :=
  {| files := fs; conn_name := ""; conn_open := false; query := empty_query;
     settings := ∅; slots := []; models := ∅; selection := ∅;
     log := []; trace := []; faults := []; stack := new_stack;
     engine_error := "disk I/O error" |}.

Definition run {A} (m : M A) (w : World) : World := snd (m w).
Definition result {A} (m : M A) (w : World) : outcome A := fst (m w).

(** * Vocabulary of the properties *)

Definition appends {A} (m : M A) : Prop :=
  forall w, exists l, trace (run m w) = trace w ++ l.

Definition total {A} (m : M A) : Prop :=
  forall w, exists a, result m w = Ret a.

Definition emits {A} (e : Event) (m : M A) : Prop :=
  forall w, exists l, trace (run m w) = trace w ++ l /\ In e l.

(** [begins_with ev m]: the first call [m] makes is [ev]. *)
Definition begins_with {A} (ev : Event) (m : M A) : Prop :=
  forall w, exists l, trace (run m w) = trace w ++ ev :: l.

(** [m] called [n] times in a row. *)
Fixpoint repeat_prog (n : nat) (m : M unit) : M unit :=
  match n with
  | O => ret tt
  | S n' => m ;; repeat_prog n' m
  end.

(** The tables of the six categories, in the order [setup_tables] creates
    them. *)
Definition schema_tables : list string :=
  ["lily_diet_table"; "lily_mood_table"; "lily_walk_table";
   "lily_in_room_table"; "lily_notes_table"; "lily_walk_notes_table"].

(** What a [CREATE TABLE IF NOT EXISTS] text does to a database. *)
Definition ddl_effect (sql : string) (db : Database) : Database :=
  match compile sql with
  | Some (CreateTableIfNotExists name idc cols) =>
      create_if_not_exists name idc cols db
  | _ => db
  end.

Definition with_schema (db : Database) : Database :=
  ddl_effect create_lily_walk_notes_table
    (ddl_effect create_lily_notes_table
       (ddl_effect create_lily_in_room_table
          (ddl_effect create_lily_walk_table
             (ddl_effect create_lily_mood_table
                (ddl_effect create_lily_diet_table db))))).

(** The store is usable: the connection is open on an existing file and
    the environment behaves. *)
Definition ready (w : World) (db : Database) : Prop :=
  faults w = [] /\ conn_open w = true /\ files w !! conn_name w = Some db.

(** The data columns of the mood table, as [setup_lily_mood_table]
    declares them. *)
Definition mood_columns : list string :=
  ["lily_date"; "lily_time"; "lily_mood_slider"; "lily_mood_activity_slider";
   "lily_energy_slider"].

(** The same columns with their declared types. *)
Definition mood_schema : list (string * string) :=
  [("lily_date", "TEXT"); ("lily_time", "TEXT");
   ("lily_mood_slider", "INTEGER"); ("lily_mood_activity_slider", "INTEGER");
   ("lily_energy_slider", "INTEGER")].

(** A call of an insert method is the shared body at a statement text
    with as many placeholders as values. *)
Definition well_bound (m : M unit) : Prop :=
  exists label sql binds,
    m = insert_statement label sql binds /\
    count_char "?" sql = length binds.

(** [m] raises no [ValueError]. *)
Definition no_value_error {A} (m : M A) : Prop :=
  forall w e, result m w = Raise e -> forall msg, e <> ValueError msg.

(** [m] stops short of executing a statement: it leaves the files alone
    and makes no [exec()] call. *)
Definition pre_exec {A} (m : M A) : Prop :=
  forall w, files (run m w) = files w /\
            exists l, trace (run m w) = trace w ++ l /\ ~ In EvExec l.

(** The world the page index and the widgets [ui] are saved in: the page
    was changed to [index] and the window was closed. *)
Definition after_shutdown (index : Z) (ui : Widgets) (w : World) : World :=
  run (on_page_changed index ;; save_state ui) w.

(** The program ends and is started again on a platform whose settings
    format is [fmt] and with a window that shows page [page] at first:
    the settings are read from where they were flushed to, the files and
    the log are as they were left, the connection, the query, the slots,
    the models and the selection are those of a new process. *)
Definition restart (fmt : Format) (page : Z) : M unit :=
  modify (fun w =>
    {| files := files w; conn_name := ""; conn_open := false;
       query := empty_query; settings := reload fmt (settings w);
       slots := []; models := ∅; selection := ∅; log := log w;
       trace := trace w; faults := faults w;
       stack := {| current_index := page;
                   page_count := page_count (stack w);
                   page_changed_slots := 0 |};
       engine_error := engine_error w |}).

(** The world of the next start after that shutdown. *)
Definition next_start (fmt : Format) (page : Z) (index : Z) (ui : Widgets)
    (w : World) : World :=
  run (restart fmt page) (after_shutdown index ui w).

(** Whether showing page [index] changes the page of a stack. *)
Definition changes_page (index : Z) (st : Stack) : bool :=
  (0 <=? index) && (index <? page_count st) && negb (index =? current_index st).

(** The exceptions among the faults the environment answered with, and
    the error lines among the lines of a log. *)
Fixpoint raised (fl : list Fault) : nat :=
  match fl with
  | [] => 0%nat
  | Raises :: r => S (raised r)
  | _ :: r => raised r
  end.

Fixpoint error_lines (l : list (Level * string)) : nat :=
  match l with
  | [] => 0%nat
  | (ERROR, _) :: r => S (error_lines r)
  | _ :: r => error_lines r
  end.

(** [m] logs its exceptions: of the faults that were waiting it used up
    a first part, it only added to the log, and it added at least one
    error line for every exception in the part it used up. *)
Definition logs_exceptions {A} (m : M A) : Prop :=
  forall w, exists used added,
    faults w = used ++ faults (run m w) /\
    log (run m w) = log w ++ added /\
    (raised used <= error_lines added)%nat.

(** The same while an exception may still be on its way out of [m]: that
    one is not logged yet. *)
Definition accounts {A} (m : M A) : Prop :=
  forall w, exists used added,
    faults w = used ++ faults (run m w) /\
    log (run m w) = log w ++ added /\
    (raised used <= error_lines added
                    + match result m w with Raise _ => 1 | Ret _ => 0 end)%nat.

(** A handler that logs the exception it is given. *)
Definition logs_it {A} (h : exn -> M A) : Prop :=
  forall e w, exists msg a,
    h e w = (Ret a, set_log (log w ++ [(ERROR, msg)]) w).

(** The six setup methods, each with the message it logs. *)
Definition schema_setups : list (M unit * string) :=
  [(setup_lily_diet_table, "Error creating table: lily_diet_table");
   (setup_lily_mood_table, "Error creating table: lily_mood_table");
   (setup_wiggles_walks_table, "Error creating table: lily_walk_table");
   (setup_time_in_room_table, "Error creating table: lily_in_room_table");
   (setup_lily_notes_table, "Error creating table: lily_notes_table");
   (setup_lily_walk_notes_table, "Error creating table: lily_walk_notes_table")].

(** The settings [save_state] leaves, written as one map. *)
Definition saved_settings (ui : Widgets) (st : gmap string QVariant)
  : gmap string QVariant :=
  <["windowState" := QBytes (saveState ui)]>
    (<["geometry" := QBytes (saveGeometry ui)]>
    (<["lily_notes" := QStr (lily_notes ui)]>
    (<["lily_energy" := QInt (lily_energy ui)]>
    (<["lily_activity" := QInt (lily_activity ui)]>
    (<["lily_mood" := QInt (lily_mood ui)]>
    (<["lily_time_in_room" := QInt (lily_time_in_room ui)]>
    (<["lily_energy_slider" := QInt (lily_energy_slider ui)]>
    (<["lily_mood_activity_slider" := QInt (lily_mood_activity_slider ui)]>
    (<["lily_mood_slider" := QInt (lily_mood_slider ui)]>
    (<["lily_time_in_room_slider" := QInt (lily_time_in_room_slider ui)]>
       st)))))))))).

(** The calls [restore_state] makes when it finds what [save_state] left
    for the widgets [ui]: each key is read, and the widget is handed the
    value that was saved. *)
Definition restored_calls (ui : Widgets) : list Event :=
  [EvGetValue "geometry";
   EvWidgetSet "restoreGeometry" (QBytes (saveGeometry ui));
   EvGetValue "lily_time_in_room_slider";
   EvWidgetSet "lily_time_in_room_slider" (QInt (lily_time_in_room_slider ui));
   EvGetValue "lily_mood_slider";
   EvWidgetSet "lily_mood_slider" (QInt (lily_mood_slider ui));
   EvGetValue "lily_mood_activity_slider";
   EvWidgetSet "lily_mood_activity_slider" (QInt (lily_mood_activity_slider ui));
   EvGetValue "lily_energy_slider";
   EvWidgetSet "lily_energy_slider" (QInt (lily_energy_slider ui));
   EvGetValue "lily_time_in_room";
   EvWidgetSet "lily_time_in_room" (QInt (lily_time_in_room ui));
   EvGetValue "lily_mood";
   EvWidgetSet "lily_mood" (QInt (lily_mood ui));
   EvGetValue "lily_activity";
   EvWidgetSet "lily_activity" (QInt (lily_activity ui));
   EvGetValue "lily_energy";
   EvWidgetSet "lily_energy" (QInt (lily_energy ui));
   EvGetValue "lily_notes";
   EvWidgetSet "lily_notes" (QStr (lily_notes ui));
   EvGetValue "windowState";
   EvWidgetSet "restoreState" (QBytes (saveState ui))].

(** The part of the world the store consists of. *)
Definition store_state (w : World)
  : gmap string Database * string * bool * Query :=
  (files w, conn_name w, conn_open w, query w).

(** The slots of the delete action, in the order both copies of the
    window connect them: table argument and model argument. *)
Definition delete_slots : list (string * string) :=
  [("lily_walk_table", "lily_walk_model");
   ("lily_diet_table", "lily_diet_model");
   ("lily_mood_table", "lily_mood_model");
   ("time_in_room_table", "lily_room_model");
   ("lily_notes_table", "lily_note_model");
   ("lily_walk_note_table", "lily_walk_note_model")].

(** The calls of the delete routine recorded in a trace, in order. *)
Fixpoint delete_calls (tr : list Event) : list (string * string) :=
  match tr with
  | [] => []
  | EvDeleteSelectedRows t m :: r => (t, m) :: delete_calls r
  | _ :: r => delete_calls r
  end.

(** The keys [save_state] writes each in a [try] of its own, and the
    first key of its last [try]. *)
Definition save_keys : list string :=
  ["lily_time_in_room_slider"; "lily_mood_slider"; "lily_mood_activity_slider";
   "lily_energy_slider"; "lily_time_in_room"; "lily_mood"; "lily_activity";
   "lily_energy"; "lily_notes"; "geometry"].

(** The keys [restore_state] reads, each in a [try] of its own. *)
Definition restore_keys : list string :=
  ["geometry"; "lily_time_in_room_slider"; "lily_mood_slider";
   "lily_mood_activity_slider"; "lily_energy_slider"; "lily_time_in_room";
   "lily_mood"; "lily_activity"; "lily_energy"; "lily_notes"; "windowState"].

(** The statements [setup_tables] sends, in order. *)
Definition schema_statements : list string :=
  [create_lily_diet_table; create_lily_mood_table; create_lily_walk_table;
   create_lily_in_room_table; create_lily_notes_table;
   create_lily_walk_notes_table].

(** * Scenarios

    Concrete machines and stores on which the statements below are
    exercised. *)

(** A bundled template holding one diet record. *)
Definition template_db : Database :=
  [("lily_diet_table",
    {| t_id := "id"; t_cols := [("lily_date", "TEXT"); ("lily_time", "TEXT")];
       t_rows := [(1, [SqlText "2023-12-31"; SqlText "18:30"])];
       t_seq := 1 |})].

(** A first start (only the template is there), a later start (the
    user's database is there) and a start with neither file. *)
Definition first_start : World := fresh_world {[ "/app/lily.db" := template_db ]}.
Definition later_start : World := fresh_world {[ "/home/u/lily.db" := template_db ]}.
Definition bare_start : World := fresh_world ∅.

(** A store opened on the user's database as seeded from the template. *)
Definition open_store : World :=
  run (db_addDatabase "/home/u/lily.db" ;; db_open) later_start.

(** The user's store right after the first start on a bare machine. *)
Definition started_store : World :=
  run (initialize_database "/app/lily.db" "/home/u/lily.db" ;;
       DataManager_init "/home/u/lily.db") bare_start.

(** The same store after a mood record was logged and then deleted. *)
Definition emptied_store : World :=
  run (insert_into_lily_mood_table "2023-12-31" "08:00" 1 1 1 ;;
       deleteRows "lily_mood_table" [1]) started_store.

(** The widgets as the user left them. *)
Definition some_widgets : Widgets :=
  {| lily_time_in_room_slider := c_int_of 7 eq_refl;
     lily_mood_slider := c_int_of 3 eq_refl;
     lily_mood_activity_slider := c_int_of 2 eq_refl;
     lily_energy_slider := c_int_of 4 eq_refl;
     lily_time_in_room := c_int_of 7 eq_refl;
     lily_mood := c_int_of 3 eq_refl;
     lily_activity := c_int_of 2 eq_refl;
     lily_energy := c_int_of 4 eq_refl;
     lily_notes := "<p>slept well</p>";
     saveGeometry := [Byte.x01; Byte.xd9]; saveState := [Byte.x00; Byte.xff] |}.

(** The window as set up on the started store. *)
Definition wired_store : World := run setup_delete_actions started_store.

(** An open store whose driver reports failure for the first and the
    third statement it is sent. *)
Definition flaky_store : World := set_faults [Fails; NoFault; Fails] open_store.

(** An open store where the next call into Qt raises. *)
Definition raising_store : World := set_faults [Raises] open_store.

(** An open store whose driver reports the execution of the next
    prepared statement with two values as failed. *)
Definition failing_exec_store : World :=
  set_faults [NoFault; NoFault; NoFault; Fails] started_store.

(** A store where the tenth call into Qt raises: in [save_state], the
    write of [geometry]. *)
Definition geometry_raising_store : World :=
  set_faults [NoFault; NoFault; NoFault; NoFault; NoFault; NoFault; NoFault;
              NoFault; NoFault; Raises] open_store.

(** * Further vocabulary and scenarios *)

(** What the store shows of a table: the rows the database behind the
    open connection holds in it, each with its identity, in the order of
    insertion; nothing when there is no open connection on a file or no
    such table. *)
Definition stored_rows (table_name : string) (w : World)
  : option (list (Z * list SqlValue)) :=
  match current_db w with
  | Some db =>
      match find_table table_name db with
      | Some t => Some (t_rows t)
      | None => None
      end
  | None => None
  end.

(** The data columns of the other five tables, as their setup methods
    declare them. *)
Definition diet_columns : list string := ["lily_date"; "lily_time"].

Definition walk_columns : list string :=
  ["lily_date"; "lily_time"; "lily_behavior"; "lily_gait"].

Definition room_columns : list string :=
  ["lily_date"; "lily_time"; "time_in_room_slider"].

Definition notes_columns : list string :=
  ["lily_date"; "lily_time"; "lily_notes"].

Definition walk_notes_columns : list string :=
  ["lily_date"; "lily_time"; "lily_walk_note"].

(** The same columns with their declared types. *)
Definition diet_schema : list (string * string) :=
  [("lily_date", "TEXT"); ("lily_time", "TEXT")].





(** The store cannot take an insert into [name] with columns [cols]:
    there is no open connection on a file, or the file's database lacks
    the table or one of the columns. *)
Definition refuses (w : World) (name : string) (cols : list string) : Prop :=
  match current_db w with
  | Some db => valid_stmt (InsertInto name cols (length cols)) db = false
  | None => True
  end.

(** A table as the schema setup creates it: no row yet, no identity
    handed out. *)
Definition fresh_table (cols : list (string * string)) : Table :=
  {| t_id := "id"; t_cols := cols; t_rows := []; t_seq := 0 |}.

(** The started store after [close_database]. *)
Definition closed_store : World := run close_database started_store.

(** A store opened on a database file that holds no table. *)
Definition unschemed_store : World :=
  run (db_addDatabase "/home/u/lily.db" ;; db_open) bare_start.

(** Rows numbered from [i] on. *)
Fixpoint numbered (i : Z) (rows : list (list SqlValue))
  : list (Z * list SqlValue) :=
  match rows with
  | [] => []
  | r :: rs => (i, r) :: numbered (i + 1) rs
  end.

(** The database a connection on [name] finds: the one in the file, or an
    empty one in a file created by opening. *)
Definition opened_db (name : string) (fs : gmap string Database) : Database :=
  match fs !! name with
  | Some db => db
  | None => []
  end.

(** The errors [setup_tables] logs when no table can be created. *)
Definition schema_errors : list (Level * string) :=
  [(ERROR, "Error creating table: lily_diet_table");
   (ERROR, "Error creating table: lily_mood_table");
   (ERROR, "Error creating table: lily_walk_table");
   (ERROR, "Error creating table: lily_in_room_table");
   (ERROR, "Error creating table: lily_notes_table");
   (ERROR, "Error creating table: lily_walk_notes_table")].

(** [initialize_database()] followed by [DataManager()], whose [db_name]
    defaults to [target_db_path]: the user's database is seeded, then
    opened. *)
Definition startup (db_path target_db_path : string) : M unit :=
  initialize_database db_path target_db_path ;;
  DataManager_init target_db_path.

(** A machine on which opening the database fails. *)
Definition locked_start : World := set_faults [Fails] later_start.

(** A first start on which the seeding copy fails before the user's
    file is created. *)
Definition failing_copy_start : World := set_faults [Raises] first_start.

(** A first start on which the seeding copy fails once the user's file
    is there. *)
Definition interrupted_copy_start : World := set_faults [Fails] first_start.

(** The keys [save_state] writes. *)
Definition state_keys : list string := save_keys ++ ["windowState"].

(** [m] takes every world to one related to it by [R]. *)
Definition respects {A} (R : World -> World -> Prop) (m : M A) : Prop :=
  forall w, R w (run m w).

(** The database side of the world is the same. *)
Definition same_store (w w' : World) : Prop :=
  files w' = files w /\ conn_name w' = conn_name w /\
  conn_open w' = conn_open w /\ query w' = query w.

(** The settings are the same. *)
Definition same_settings (w w' : World) : Prop := settings w' = settings w.

(** The settings are the same outside the keys [ks]. *)
Definition same_settings_outside (ks : list string) (w w' : World) : Prop :=
  forall k, ~ In k ks -> settings w' !! k = settings w !! k.

(** What [save_state] means to store for the widgets [ui]. *)
Definition widget_settings (ui : Widgets) : gmap string QVariant :=
  saved_settings ui ∅.

(** Every setting is what it was, or what [save_state] means to store. *)
Definition kept_or_saved (ui : Widgets) (w w' : World) : Prop :=
  forall k,
    settings w' !! k = settings w !! k \/
    exists v, widget_settings ui !! k = Some v /\ settings w' !! k = Some v.

(** The widgets as [restore_state] sets them when nothing was saved. *)
Definition default_widgets : Widgets :=
  {| lily_time_in_room_slider := c_int_of 0 eq_refl;
     lily_mood_slider := c_int_of 0 eq_refl;
     lily_mood_activity_slider := c_int_of 0 eq_refl;
     lily_energy_slider := c_int_of 0 eq_refl;
     lily_time_in_room := c_int_of 0 eq_refl;
     lily_mood := c_int_of 0 eq_refl;
     lily_activity := c_int_of 0 eq_refl;
     lily_energy := c_int_of 0 eq_refl;
     lily_notes := ""; saveGeometry := []; saveState := [] |}.

(** The slots that get connected when the calls to [connect] meet the
    faults [fl] and each call has a handler of its own: a call that
    raises costs its own slot. *)
Fixpoint connected (fl : list Fault) (sl : list (string * string))
    {struct sl} : list (string * string) :=
  match sl with
  | [] => []
  | s :: r =>
      match fl with
      | [] => s :: r
      | Raises :: fl' => connected fl' r
      | _ :: fl' => s :: connected fl' r
      end
  end.

(** The same with one handler around all the calls: the first call that
    raises costs its own slot and every later one. *)
Fixpoint connected_until (fl : list Fault) (sl : list (string * string))
    {struct sl} : list (string * string) :=
  match sl with
  | [] => []
  | s :: r =>
      match fl with
      | [] => s :: r
      | Raises :: _ => []
      | _ :: fl' => s :: connected_until fl' r
      end
  end.

(** The settings after the older copy saved the widgets [ui] over [st]. *)
Definition older_saved_settings (ui : Widgets) (st : gmap string QVariant)
  : gmap string QVariant :=
  <["windowState" := QBytes (saveState ui)]>
    (<["geometry" := QBytes (saveGeometry ui)]>
    (<["lily_energy" := QInt (lily_energy ui)]>
    (<["lily_activity" := QInt (lily_activity ui)]>
    (<["lily_mood" := QInt (lily_mood ui)]>
    (<["lily_time_in_room" := QInt (lily_time_in_room ui)]>
    (<["lily_energy_slider" := QInt (lily_energy_slider ui)]>
    (<["lily_mood_activity_slider" := QInt (lily_mood_activity_slider ui)]>
    (<["lily_mood_slider" := QInt (lily_mood_slider ui)]>
    (<["lily_time_in_room_slider" := QInt (lily_time_in_room_slider ui)]>
       st))))))))).

(** The calls the older copy's [restore_state] makes on what its
    [save_state] left. *)
Definition older_restored_calls (ui : Widgets) : list Event :=
  [EvGetValue "geometry";
   EvWidgetSet "restoreGeometry" (QBytes (saveGeometry ui));
   EvGetValue "lily_time_in_room_slider";
   EvWidgetSet "lily_time_in_room_slider" (QInt (lily_time_in_room_slider ui));
   EvGetValue "lily_mood_slider";
   EvWidgetSet "lily_mood_slider" (QInt (lily_mood_slider ui));
   EvGetValue "lily_mood_activity_slider";
   EvWidgetSet "lily_mood_activity_slider" (QInt (lily_mood_activity_slider ui));
   EvGetValue "lily_energy_slider";
   EvWidgetSet "lily_energy_slider" (QInt (lily_energy_slider ui));
   EvGetValue "lily_time_in_room";
   EvWidgetSet "lily_time_in_room" (QInt (lily_time_in_room ui));
   EvGetValue "lily_mood";
   EvWidgetSet "lily_mood" (QInt (lily_mood ui));
   EvGetValue "lily_activity";
   EvWidgetSet "lily_activity" (QInt (lily_activity ui));
   EvGetValue "lily_energy";
   EvWidgetSet "lily_energy" (QInt (lily_energy ui));
   EvGetValue "windowState";
   EvWidgetSet "restoreState" (QBytes (saveState ui))].

(** The calls that concern the notes: the setting [lily_notes] written or
    read, the notes widget set. *)
Definition about_notes (ev : Event) : bool :=
  match ev with
  | EvSetValue k => String.eqb k "lily_notes"
  | EvGetValue k => String.eqb k "lily_notes"
  | EvWidgetSet n _ => String.eqb n "lily_notes"
  | _ => false
  end.

(** The stored notes are the same and no further call concerns them. *)
Definition notes_untouched (w w' : World) : Prop :=
  settings w' !! "lily_notes" = settings w !! "lily_notes" /\
  List.filter about_notes (trace w') = List.filter about_notes (trace w).

(** * Reasoning about runs *)

(** Unfolds the program down to the environment's maps. *)
Ltac unfold_prog :=
  cbv beta iota zeta delta
    [run result bind ret raise try_except get modify attempt for_each
     logger_error logger_info os_path_exists shutil_copy db_addDatabase
     db_open db_isOpen db_close new_query qt_call
     query_exec_sql query_prepare query_addBindValue query_exec
     settings_setValue settings_value slider_setValue text_setHtml
     restore_bytes connect_delete current_db store_db
     lilyStack_setCurrentIndex connect_page_changed emit_currentChanged
     on_page_changed slider_set_spinbox auto_date_time
     stack_navigation
     set_files set_conn set_query set_settings set_slots set_models set_log
     set_trace set_faults set_stack set_error
     files conn_name conn_open query settings slots models selection log
     trace faults stack engine_error q_stmt q_binds q_error
     current_index page_count page_changed_slots fst snd negb].

(** ** The model at work *)

Example compile_insert_time_in_room :
  compile insert_time_in_room_sql
  = Some (InsertInto "lily_in_room_table"
            ["lily_date"; "lily_time"; "time_in_room_slider"] 3).
Proof. vm_compute. reflexivity. Qed.

Example compile_create_lily_walk_table :
  compile create_lily_walk_table
  = Some (CreateTableIfNotExists "lily_walk_table" "id"
            [("lily_date", "TEXT"); ("lily_time", "TEXT");
             ("lily_behavior", "INTEGER"); ("lily_gait", "INTEGER")]).
Proof. vm_compute. reflexivity. Qed.

(** The first start on a bare machine leaves the six empty tables and one
    log line. *)
Example started_store_tables :
  option_map table_names (current_db started_store) = Some schema_tables
  /\ log started_store = [(INFO, "DB INITIALIZING")]
  /\ trace started_store
     = EvOpen "/home/u/lily.db" :: EvClose :: EvOpen "/home/u/lily.db"
       :: map EvExecSql schema_statements.
Proof. vm_compute. repeat split. Qed.

(** One record of each category on the started store: every table gets
    its row, with identity 1, and nothing is logged. *)
Example one_record_each :
  let w := run (insert_into_lily_diet_table "2024-01-01" "08:00" ;;
                insert_into_lily_mood_table "2024-01-01" "09:00" 3 2 4 ;;
                insert_into_wiggles_walks_table "2024-01-01" "10:00" 5 6 ;;
                insert_into_time_in_room_table "2024-01-01" "11:00" 45 ;;
                insert_into_lily_notes_table "2024-01-01" "12:00" "<p>ok</p>" ;;
                insert_into_lily_walk_notes_table "2024-01-01" "13:00" "short")
             started_store in
  select_all "lily_diet_table" w
    = Some [(1, [SqlText "2024-01-01"; SqlText "08:00"])] /\
  select_all "lily_mood_table" w
    = Some [(1, [SqlText "2024-01-01"; SqlText "09:00"; SqlInt 3; SqlInt 2;
                 SqlInt 4])] /\
  select_all "lily_walk_table" w
    = Some [(1, [SqlText "2024-01-01"; SqlText "10:00"; SqlInt 5; SqlInt 6])] /\
  select_all "lily_in_room_table" w
    = Some [(1, [SqlText "2024-01-01"; SqlText "11:00"; SqlInt 45])] /\
  select_all "lily_notes_table" w
    = Some [(1, [SqlText "2024-01-01"; SqlText "12:00"; SqlText "<p>ok</p>"])] /\
  select_all "lily_walk_notes_table" w
    = Some [(1, [SqlText "2024-01-01"; SqlText "13:00"; SqlText "short"])] /\
  log w = log started_store.
Proof. vm_compute. repeat split. Qed.

(** When the database cannot be opened the [DataManager] is still built:
    the failure and the six failed table creations are logged. *)
Example store_unavailable :
  let w := run (DataManager_init "/home/u/lily.db")
             (set_faults [Fails] bare_start) in
  result (DataManager_init "/home/u/lily.db") (set_faults [Fails] bare_start)
    = Ret tt /\
  files w = ∅ /\
  conn_open w = false /\
  log w = [(ERROR, "Error: Unable to open database");
           (INFO, "DB INITIALIZING");
           (ERROR, "Error creating table: lily_diet_table");
           (ERROR, "Error creating table: lily_mood_table");
           (ERROR, "Error creating table: lily_walk_table");
           (ERROR, "Error creating table: lily_in_room_table");
           (ERROR, "Error creating table: lily_notes_table");
           (ERROR, "Error creating table: lily_walk_notes_table")].
Proof. vm_compute. repeat split. Qed.

(** An insert into a store whose connection was closed is logged and
    changes nothing. *)
Example insert_after_close :
  let w0 := run close_database started_store in
  let w := run (insert_into_lily_diet_table "2024-01-01" "08:00") w0 in
  files w = files w0 /\
  log w = log w0 ++ [(ERROR, "Error inserting data: lily_eats_table - "
                             +:+ "Parameter count mismatch")].
Proof. vm_compute. repeat split. Qed.

Section InitializationFacts.

Variables db_path target_db_path : string.

Lemma initialize_database_existing (w : World) (d : Database) :
    files w !! target_db_path = Some d ->
    initialize_database db_path target_db_path w = (Ret tt, w).
  Proof.
    intros H. destruct w; simpl in H.
    unfold initialize_database. unfold_prog. rewrite H. reflexivity.
  Qed.

Lemma initialize_database_copy (w : World) (tpl : Database) :
    faults w = [] ->
    files w !! target_db_path = None ->
    files w !! db_path = Some tpl ->
    initialize_database db_path target_db_path w =
      (Ret tt, set_files (<[target_db_path := tpl]> (files w))
                 (set_trace (trace w ++ [EvCopy db_path target_db_path]) w)).
  Proof.
    intros Hf Ht Hd. destruct w; simpl in *; subst.
    unfold initialize_database.
    repeat (unfold_prog; rewrite ?Ht, ?Hd). reflexivity.
  Qed.

End InitializationFacts.

(** ** Three properties of a program, closed under its constructs

    [appends m]: the calls [m] makes are added to the end of the trace;
    [total m]: no exception leaves [m];
    [emits e m]: whatever the environment does, [m] makes the call [e]. *)

Lemma appends_ret {A} (a : A) : appends (ret a).
Proof. intros w. exists []. symmetry. apply app_nil_r. Qed.

Lemma appends_raise {A} (e : exn) : appends (@raise A e).
Proof. intros w. exists []. symmetry. apply app_nil_r. Qed.

Lemma appends_get {A} (f : World -> A) : appends (get f).
Proof. intros w. exists []. symmetry. apply app_nil_r. Qed.

Lemma appends_modify (f : World -> World) :
  (forall w, trace (f w) = trace w) -> appends (modify f).
Proof.
  intros H w. exists []. unfold run, modify. simpl. rewrite H.
  symmetry. apply app_nil_r.
Qed.

Lemma appends_bind {A B} (m : M A) (k : A -> M B) :
  appends m -> (forall a, appends (k a)) -> appends (bind m k).
Proof.
  intros Hm Hk w. destruct (Hm w) as [l1 H1]. unfold run, bind in *.
  destruct (m w) as [[a|e] w1]; simpl in *.
  - destruct (Hk a w1) as [l2 H2]. unfold run in H2.
    exists (l1 ++ l2). rewrite H2, H1. symmetry. apply app_assoc.
  - exists l1. exact H1.
Qed.

Lemma appends_try {A} (m : M A) (h : exn -> M A) :
  appends m -> (forall e, appends (h e)) -> appends (try_except m h).
Proof.
  intros Hm Hh w. destruct (Hm w) as [l1 H1]. unfold run, try_except in *.
  destruct (m w) as [[a|e] w1]; simpl in *.
  - exists l1. exact H1.
  - destruct (Hh e w1) as [l2 H2]. unfold run in H2.
    exists (l1 ++ l2). rewrite H2, H1. symmetry. apply app_assoc.
Qed.

Lemma appends_attempt (ev : Event) : appends (attempt ev).
Proof.
  intros w. exists [ev]. unfold run, attempt.
  destruct (faults w); reflexivity.
Qed.

Lemma appends_logger_error (msg : string) : appends (logger_error msg).
Proof. intros w. exists []. symmetry. apply app_nil_r. Qed.

Lemma appends_logger_info (msg : string) : appends (logger_info msg).
Proof. intros w. exists []. symmetry. apply app_nil_r. Qed.

Lemma appends_for_each {A} (l : list A) (f : A -> M unit) :
  (forall x, appends (f x)) -> appends (for_each l f).
Proof.
  intros Hf. induction l as [|x l IH]; simpl.
  - apply appends_ret.
  - apply appends_bind; [apply Hf | intros _; exact IH].
Qed.

Lemma appends_emit (ev : Event) :
  appends (fun w => (Ret tt, set_trace (trace w ++ [ev]) w)).
Proof. intros w. exists [ev]. reflexivity. Qed.

(** Works through a program built from the constructs above. *)
Ltac appends_step :=
  match goal with
  | |- appends (bind _ _) => apply appends_bind
  | |- appends (try_except _ _) => apply appends_try
  | |- appends (ret _) => apply appends_ret
  | |- appends (raise _) => apply appends_raise
  | |- appends (get _) => apply appends_get
  | |- appends (modify _) => apply appends_modify; intros; reflexivity
  | |- appends (attempt _) => apply appends_attempt
  | |- appends (logger_error _) => apply appends_logger_error
  | |- appends (logger_info _) => apply appends_logger_info
  | |- appends (for_each _ _) => apply appends_for_each
  | |- appends (fun w => (Ret tt, set_trace (trace w ++ [_]) w)) =>
      apply appends_emit
  | |- appends (match ?x with _ => _ end) => destruct x
  | |- forall _, _ => intro
  end.

Create HintDb appends_db.

Lemma appends_os_path_exists p : appends (os_path_exists p).
Proof. unfold os_path_exists. repeat appends_step. Qed.

Lemma appends_shutil_copy a b : appends (shutil_copy a b).
Proof. unfold shutil_copy. repeat appends_step. Qed.

Lemma appends_db_addDatabase n : appends (db_addDatabase n).
Proof. unfold db_addDatabase. repeat appends_step. Qed.

Lemma appends_db_open : appends db_open.
Proof. unfold db_open. repeat appends_step. Qed.

Lemma appends_db_isOpen : appends db_isOpen.
Proof. unfold db_isOpen. repeat appends_step. Qed.

Lemma appends_db_close : appends db_close.
Proof. unfold db_close. repeat appends_step. Qed.

Lemma appends_new_query : appends new_query.
Proof. unfold new_query. repeat appends_step. Qed.

Lemma appends_qt_call n : appends (qt_call n).
Proof. unfold qt_call. repeat appends_step. Qed.

Lemma appends_query_exec_sql sql : appends (query_exec_sql sql).
Proof. unfold query_exec_sql. repeat appends_step. Qed.

Lemma appends_query_prepare sql : appends (query_prepare sql).
Proof. unfold query_prepare. repeat appends_step. Qed.

Lemma appends_query_addBindValue v : appends (query_addBindValue v).
Proof. unfold query_addBindValue. repeat appends_step. Qed.

Lemma appends_query_exec : appends query_exec.
Proof. unfold query_exec. repeat appends_step. Qed.

Lemma appends_settings_setValue k v : appends (settings_setValue k v).
Proof. unfold settings_setValue. repeat appends_step. Qed.

Lemma appends_settings_value k d ty : appends (settings_value k d ty).
Proof. unfold settings_value. repeat appends_step. Qed.

Lemma appends_slider_setValue n v : appends (slider_setValue n v).
Proof. unfold slider_setValue. repeat appends_step. Qed.

Lemma appends_text_setHtml n v : appends (text_setHtml n v).
Proof. unfold text_setHtml. repeat appends_step. Qed.

Lemma appends_restore_bytes n v : appends (restore_bytes n v).
Proof. unfold restore_bytes. repeat appends_step. Qed.

Lemma appends_connect_delete t m : appends (connect_delete t m).
Proof. unfold connect_delete. repeat appends_step. Qed.

#[export] Hint Resolve appends_os_path_exists appends_shutil_copy
  appends_db_addDatabase appends_db_open appends_db_isOpen appends_db_close
  appends_new_query appends_qt_call appends_query_exec_sql
  appends_query_prepare appends_query_addBindValue appends_query_exec
  appends_settings_setValue appends_settings_value appends_slider_setValue
  appends_text_setHtml appends_restore_bytes appends_connect_delete
  : appends_db.

(** For a program of the repository: unfold it, then go through it. *)
Ltac appends_prog := repeat first [ solve [auto with appends_db] | appends_step ].

Lemma total_ret {A} (a : A) : total (ret a).
Proof. intros w. exists a. reflexivity. Qed.

Lemma total_logger_error msg : total (logger_error msg).
Proof. intros w. exists tt. reflexivity. Qed.

Lemma total_logger_info msg : total (logger_info msg).
Proof. intros w. exists tt. reflexivity. Qed.

Lemma total_bind {A B} (m : M A) (k : A -> M B) :
  total m -> (forall a, total (k a)) -> total (bind m k).
Proof.
  intros Hm Hk w. destruct (Hm w) as [a Ha]. unfold result, bind in *.
  destruct (m w) as [[a'|e] w1]; simpl in *; [|discriminate].
  apply Hk.
Qed.

(** A handler that cannot raise makes the whole [try] statement safe. *)
Lemma total_try {A} (m : M A) (h : exn -> M A) :
  (forall e, total (h e)) -> total (try_except m h).
Proof.
  intros Hh w. unfold result, try_except.
  destruct (m w) as [[a|e] w1]; simpl.
  - exists a. reflexivity.
  - apply Hh.
Qed.

Lemma emits_attempt {A} (ev : Event) (k : Fault -> M A) :
  (forall f, appends (k f)) -> emits ev (bind (attempt ev) k).
Proof.
  intros Hk w. unfold run, bind, attempt.
  destruct (faults w) as [|f fs].
  - destruct (Hk NoFault (set_trace (trace w ++ [ev]) w)) as [l Hl].
    unfold run in Hl. exists (ev :: l). split; [|left; reflexivity].
    rewrite Hl. simpl. rewrite <- app_assoc. reflexivity.
  - destruct (Hk f (set_faults fs (set_trace (trace w ++ [ev]) w))) as [l Hl].
    unfold run in Hl. exists (ev :: l). split; [|left; reflexivity].
    rewrite Hl. simpl. rewrite <- app_assoc. reflexivity.
Qed.

Lemma emits_bind_l {A B} (e : Event) (m : M A) (k : A -> M B) :
  emits e m -> (forall a, appends (k a)) -> emits e (bind m k).
Proof.
  intros Hm Hk w. destruct (Hm w) as [l1 [H1 Hin]]. unfold run, bind in *.
  destruct (m w) as [[a|x] w1]; simpl in *.
  - destruct (Hk a w1) as [l2 H2]. unfold run in H2.
    exists (l1 ++ l2). split; [|apply in_or_app; left; exact Hin].
    rewrite H2, H1. symmetry. apply app_assoc.
  - exists l1. split; assumption.
Qed.

Lemma emits_bind_r {A B} (e : Event) (m : M A) (k : A -> M B) :
  appends m -> total m -> (forall a, emits e (k a)) -> emits e (bind m k).
Proof.
  intros Ha Ht Hk w. destruct (Ha w) as [l1 H1]. destruct (Ht w) as [a Hr].
  unfold run, result, bind in *.
  destruct (m w) as [[a'|x] w1]; simpl in *; [|discriminate].
  destruct (Hk a' w1) as [l2 [H2 Hin]]. unfold run in H2.
  exists (l1 ++ l2). split; [|apply in_or_app; right; exact Hin].
  rewrite H2, H1. symmetry. apply app_assoc.
Qed.

Lemma emits_try {A} (e : Event) (m : M A) (h : exn -> M A) :
  emits e m -> (forall x, appends (h x)) -> emits e (try_except m h).
Proof.
  intros Hm Hh w. destruct (Hm w) as [l1 [H1 Hin]]. unfold run, try_except in *.
  destruct (m w) as [[a|x] w1]; simpl in *.
  - exists l1. split; assumption.
  - destruct (Hh x w1) as [l2 H2]. unfold run in H2.
    exists (l1 ++ l2). split; [|apply in_or_app; left; exact Hin].
    rewrite H2, H1. symmetry. apply app_assoc.
Qed.

Lemma emits_appends {A} (e : Event) (m : M A) : emits e m -> appends m.
Proof. intros H w. destruct (H w) as [l [Hl _]]. exists l. exact Hl. Qed.

(** ** The programs only add to the trace *)

Lemma appends_initialize_database a b : appends (initialize_database a b).
Proof. unfold initialize_database. appends_prog. Qed.

Lemma appends_setup_lily_notes_table : appends setup_lily_notes_table.
Proof. unfold setup_lily_notes_table. appends_prog. Qed.

Lemma appends_setup_time_in_room_table : appends setup_time_in_room_table.
Proof. unfold setup_time_in_room_table. appends_prog. Qed.

Lemma appends_setup_lily_diet_table : appends setup_lily_diet_table.
Proof. unfold setup_lily_diet_table. appends_prog. Qed.

Lemma appends_setup_lily_mood_table : appends setup_lily_mood_table.
Proof. unfold setup_lily_mood_table. appends_prog. Qed.

Lemma appends_setup_wiggles_walks_table : appends setup_wiggles_walks_table.
Proof. unfold setup_wiggles_walks_table. appends_prog. Qed.

Lemma appends_setup_lily_walk_notes_table : appends setup_lily_walk_notes_table.
Proof. unfold setup_lily_walk_notes_table. appends_prog. Qed.

#[export] Hint Resolve appends_initialize_database
  appends_setup_lily_notes_table appends_setup_time_in_room_table
  appends_setup_lily_diet_table appends_setup_lily_mood_table
  appends_setup_wiggles_walks_table appends_setup_lily_walk_notes_table
  : appends_db.

Lemma appends_setup_tables : appends setup_tables.
Proof. unfold setup_tables. appends_prog. Qed.

#[export] Hint Resolve appends_setup_tables : appends_db.

Lemma appends_DataManager_init n : appends (DataManager_init n).
Proof. unfold DataManager_init. appends_prog. Qed.

Lemma appends_insert_attempt l s b : appends (insert_attempt l s b).
Proof. unfold insert_attempt. appends_prog. Qed.

#[export] Hint Resolve appends_DataManager_init appends_insert_attempt
  : appends_db.

Lemma appends_insert_statement l s b : appends (insert_statement l s b).
Proof. unfold insert_statement. appends_prog. Qed.

Lemma appends_close_database : appends close_database.
Proof. unfold close_database. appends_prog. Qed.

#[export] Hint Resolve appends_insert_statement appends_close_database
  : appends_db.

(** ** Start-up: seeding the user's database *)

Lemma begins_attempt {A} (ev : Event) (k : Fault -> M A) :
  (forall f, appends (k f)) -> begins_with ev (bind (attempt ev) k).
Proof.
  intros Hk w. unfold run, bind, attempt.
  destruct (faults w) as [|f fs].
  - destruct (Hk NoFault (set_trace (trace w ++ [ev]) w)) as [l Hl].
    unfold run in Hl. exists l. rewrite Hl. simpl.
    rewrite <- app_assoc. reflexivity.
  - destruct (Hk f (set_faults fs (set_trace (trace w ++ [ev]) w))) as [l Hl].
    unfold run in Hl. exists l. rewrite Hl. simpl.
    rewrite <- app_assoc. reflexivity.
Qed.

Lemma begins_try {A} (ev : Event) (m : M A) (h : exn -> M A) :
  begins_with ev m -> (forall x, appends (h x)) ->
  begins_with ev (try_except m h).
Proof.
  intros Hm Hh w. destruct (Hm w) as [l1 H1]. unfold run, try_except in *.
  destruct (m w) as [[a|x] w1]; simpl in *.
  - exists l1. exact H1.
  - destruct (Hh x w1) as [l2 H2]. unfold run in H2.
    exists (l1 ++ l2). rewrite H2, H1. rewrite <- app_assoc. reflexivity.
Qed.

Lemma bind_assoc {A B C} (m : M A) (f : A -> M B) (g : B -> M C) (w : World) :
  bind (bind m f) g w = bind m (fun x => bind (f x) g) w.
Proof. unfold bind. destruct (m w) as [[a|e] w1]; reflexivity. Qed.

Lemma DataManager_init_opens_first (n : string) :
  begins_with (EvOpen n) (DataManager_init n).
Proof.
  unfold DataManager_init. apply begins_try; [|intros; appends_prog].
  intros w.
  match goal with
  | |- context [bind db_open ?K] =>
      change (run (bind (db_addDatabase n) (fun _ => bind db_open K)) w)
        with (snd (bind (bind (attempt (EvOpen n))
                     (fun f =>
                        match f with
                        | Raises => raise (OSError "open")
                        | Fails => ret false
                        | NoFault =>
                            modify (fun w => set_conn n true
                              (set_files (create_if_absent n (files w)) w)) ;;
                            ret true
                        end)) K
                (set_conn n false w)))
  end.
  rewrite bind_assoc.
  refine (begins_attempt (EvOpen n) _ _ (set_conn n false w)).
  intros f. cbv beta. appends_prog.
Qed.

Lemma initialize_database_create (db_path target_db_path : string) (w : World) :
  faults w = [] ->
  files w !! target_db_path = None ->
  files w !! db_path = None ->
  initialize_database db_path target_db_path w =
    (Ret tt, set_conn target_db_path false
               (set_files (<[target_db_path := []]> (files w))
                  (set_trace (trace w ++ [EvOpen target_db_path; EvClose]) w))).
Proof.
  intros Hf Ht Hd. destruct w; simpl in *; subst.
  unfold initialize_database.
  repeat (unfold_prog; unfold create_if_absent; rewrite ?Ht, ?Hd).
  rewrite <- app_assoc. reflexivity.
Qed.

(** C1.  When the user's database file is missing and the bundled
    template is there, initialization copies the template to the target
    path: afterwards the target holds exactly the template's content, the
    copy is the only call initialization makes (it opens no connection
    itself), and the connection that [DataManager] opens next is opened
    after the copy.  When the target file exists already, initialization
    changes nothing at all: no copy, same content. *)
Theorem initialize_database_seeds_from_template
    (db_path target_db_path : string) (w : World) :
  (forall tpl : Database,
     faults w = [] ->
     files w !! target_db_path = None ->
     files w !! db_path = Some tpl ->
     result (initialize_database db_path target_db_path) w = Ret tt /\
     files (run (initialize_database db_path target_db_path) w)
       = <[target_db_path := tpl]> (files w) /\
     files (run (initialize_database db_path target_db_path) w)
       !! target_db_path = Some tpl /\
     trace (run (initialize_database db_path target_db_path) w)
       = trace w ++ [EvCopy db_path target_db_path] /\
     log (run (initialize_database db_path target_db_path) w) = log w /\
     exists l,
       trace (run (initialize_database db_path target_db_path ;;
                   DataManager_init target_db_path) w)
       = trace w ++ EvCopy db_path target_db_path
                 :: EvOpen target_db_path :: l)
  /\
  (forall d : Database,
     files w !! target_db_path = Some d ->
     initialize_database db_path target_db_path w = (Ret tt, w)).
Proof.
  split.
  - intros tpl Hf Ht Hd.
    pose proof (initialize_database_copy db_path target_db_path w tpl Hf Ht Hd)
      as E.
    unfold result, run. rewrite E. simpl.
    repeat split.
    + apply lookup_insert_eq.
    + unfold bind. rewrite E.
      destruct (DataManager_init_opens_first target_db_path
                  (set_files (<[target_db_path:=tpl]> (files w))
                     (set_trace (trace w ++ [EvCopy db_path target_db_path]) w)))
        as [l Hl].
      exists l. unfold run in Hl. rewrite Hl. simpl.
      rewrite <- app_assoc. reflexivity.
  - intros d Hd. exact (initialize_database_existing db_path target_db_path w d Hd).
Qed.

(** C10.  With neither the user's database nor the template present,
    initialization opens a connection on the target path, which creates
    the file holding an empty database, and closes it again; it returns
    normally and logs no error.  With the target file present it makes no
    change to the file system. *)
Theorem initialize_database_creates_empty_database
    (db_path target_db_path : string) (w : World) :
  (faults w = [] ->
   files w !! target_db_path = None ->
   files w !! db_path = None ->
   result (initialize_database db_path target_db_path) w = Ret tt /\
   files (run (initialize_database db_path target_db_path) w)
     = <[target_db_path := []]> (files w) /\
   trace (run (initialize_database db_path target_db_path) w)
     = trace w ++ [EvOpen target_db_path; EvClose] /\
   conn_open (run (initialize_database db_path target_db_path) w) = false /\
   log (run (initialize_database db_path target_db_path) w) = log w)
  /\
  (forall d : Database,
     files w !! target_db_path = Some d ->
     files (run (initialize_database db_path target_db_path) w) = files w).
Proof.
  split.
  - intros Hf Ht Hd. unfold result, run.
    rewrite (initialize_database_create db_path target_db_path w Hf Ht Hd).
    simpl. repeat split.
  - intros d Hd. unfold run.
    rewrite (initialize_database_existing db_path target_db_path w d Hd).
    reflexivity.
Qed.

Lemma initialize_database_seeds_from_template_witness :
  files (run (initialize_database "/app/lily.db" "/home/u/lily.db") first_start)
    !! "/home/u/lily.db" = Some template_db
  /\ initialize_database "/app/lily.db" "/home/u/lily.db" later_start
     = (Ret tt, later_start).
Proof.
  split.
  - destruct (proj1 (initialize_database_seeds_from_template
                       "/app/lily.db" "/home/u/lily.db" first_start)
                template_db ltac:(reflexivity) ltac:(vm_compute; reflexivity)
                ltac:(vm_compute; reflexivity))
      as (_ & _ & H & _).
    exact H.
  - exact (proj2 (initialize_database_seeds_from_template
                    "/app/lily.db" "/home/u/lily.db" later_start)
             template_db ltac:(vm_compute; reflexivity)).
Defined.

Lemma initialize_database_creates_empty_database_witness :
  files (run (initialize_database "/app/lily.db" "/home/u/lily.db") bare_start)
    = <["/home/u/lily.db" := []]> (files bare_start)
  /\ files (run (initialize_database "/app/lily.db" "/home/u/lily.db") later_start)
     = files later_start.
Proof.
  split.
  - destruct (proj1 (initialize_database_creates_empty_database
                       "/app/lily.db" "/home/u/lily.db" bare_start)
                ltac:(reflexivity) ltac:(vm_compute; reflexivity)
                ltac:(vm_compute; reflexivity))
      as (_ & H & _).
    exact H.
  - exact (proj2 (initialize_database_creates_empty_database
                    "/app/lily.db" "/home/u/lily.db" later_start)
             template_db ltac:(vm_compute; reflexivity)).
Defined.

(** ** Schema creation *)

Lemma bind_ret_eq {A B} (m : M A) (k : A -> M B) (w w1 : World) (a : A) :
  m w = (Ret a, w1) -> bind m k w = k a w1.
Proof. intros H. unfold bind. rewrite H. reflexivity. Qed.

Lemma create_step (sql msg name idc : string) (cols : list (string * string))
    (w : World) (db : Database) :
  ready w db ->
  compile sql = Some (CreateTableIfNotExists name idc cols) ->
  (ok <- query_exec_sql sql ;;
   if negb ok then logger_error msg else ret tt) w
  = (Ret tt,
     set_files (<[conn_name w := ddl_effect sql db]> (files w))
       (set_query {| q_stmt := compile sql; q_binds := []; q_error := "" |}
          (set_trace (trace w ++ [EvExecSql sql]) w))).
Proof.
  intros (Hf & Ho & Hdb) Hc. unfold ddl_effect. rewrite Hc.
  destruct w; simpl in *; subst.
  repeat (unfold_prog; rewrite ?Hdb, ?Hc; cbv beta iota delta [run_stmt]).
  reflexivity.
Qed.

Lemma ready_step (sql : string) (w : World) (db db' : Database) :
  ready w db ->
  ready (set_files (<[conn_name w := db']> (files w))
           (set_query {| q_stmt := compile sql; q_binds := []; q_error := "" |}
              (set_trace (trace w ++ [EvExecSql sql]) w))) db'.
Proof.
  intros (Hf & Ho & Hdb). unfold ready. simpl. repeat split; try assumption.
  apply lookup_insert_eq.
Qed.

(** Evaluates what the engine makes of a statement text. *)
Ltac compiled sql H :=
  let r := eval vm_compute in (compile sql) in
  assert (H : compile sql = r) by (vm_compute; reflexivity).

Lemma setup_tables_ready (w : World) (db : Database) :
  ready w db ->
  exists w',
    setup_tables w = (Ret tt, w') /\
    ready w' (with_schema db) /\
    files w' = <[conn_name w := with_schema db]> (files w) /\
    conn_name w' = conn_name w /\
    log w' = log w /\
    query w' = {| q_stmt := compile create_lily_walk_notes_table;
                  q_binds := []; q_error := "" |}.
Proof.
  intros Hr.
  compiled create_lily_diet_table H1. compiled create_lily_mood_table H2.
  compiled create_lily_walk_table H3. compiled create_lily_in_room_table H4.
  compiled create_lily_notes_table H5. compiled create_lily_walk_notes_table H6.
  eexists. split.
  - unfold setup_tables.
    erewrite bind_ret_eq
      by (unfold setup_lily_diet_table; eapply create_step; eassumption).
    erewrite bind_ret_eq
      by (unfold setup_lily_mood_table; eapply create_step;
          [repeat eapply ready_step|]; eassumption).
    erewrite bind_ret_eq
      by (unfold setup_wiggles_walks_table; eapply create_step;
          [repeat eapply ready_step|]; eassumption).
    erewrite bind_ret_eq
      by (unfold setup_time_in_room_table; eapply create_step;
          [repeat eapply ready_step|]; eassumption).
    erewrite bind_ret_eq
      by (unfold setup_lily_notes_table; eapply create_step;
          [repeat eapply ready_step|]; eassumption).
    unfold setup_lily_walk_notes_table; eapply create_step;
      [repeat eapply ready_step|]; eassumption.
  - split; [repeat eapply ready_step; eassumption|].
    simpl. rewrite !insert_insert_eq. repeat split.
Qed.

Lemma find_table_app (n m : string) (t : Table) (db : Database) :
  find_table n (db ++ [(m, t)]) =
    match find_table n db with
    | Some x => Some x
    | None => if String.eqb m n then Some t else None
    end.
Proof.
  induction db as [|[k x] db IH]; simpl.
  - reflexivity.
  - destruct (String.eqb k n); [reflexivity | exact IH].
Qed.

Lemma find_table_In (n : string) (db : Database) :
  In n (table_names db) <-> exists t, find_table n db = Some t.
Proof.
  induction db as [|[k x] db IH]; simpl.
  - split; [intros [] | intros [t Ht]; discriminate].
  - destruct (String.eqb_spec k n) as [->|Hne].
    + split; [intros _; eauto | intros _; left; reflexivity].
    + rewrite <- IH. split; [intros [E|H]; [contradiction | exact H] | auto].
Qed.

Lemma table_names_create (n i : string) (c : list (string * string))
    (db : Database) :
  table_names (create_if_not_exists n i c db) =
    match find_table n db with
    | Some _ => table_names db
    | None => table_names db ++ [n]
    end.
Proof.
  unfold create_if_not_exists, table_names.
  destruct (find_table n db); [reflexivity|]. rewrite map_app. reflexivity.
Qed.

Lemma create_keeps (n i m : string) (c : list (string * string))
    (db : Database) (t : Table) :
  find_table m db = Some t ->
  find_table m (create_if_not_exists n i c db) = Some t.
Proof.
  intros H. unfold create_if_not_exists.
  destruct (find_table n db); [exact H|].
  rewrite find_table_app, H. reflexivity.
Qed.

Lemma create_makes (n i : string) (c : list (string * string)) (db : Database) :
  exists t, find_table n (create_if_not_exists n i c db) = Some t.
Proof.
  unfold create_if_not_exists.
  destruct (find_table n db) as [t|] eqn:E; [eauto|].
  rewrite find_table_app, E, String.eqb_refl. eauto.
Qed.

Lemma create_existing (n i : string) (c : list (string * string))
    (db : Database) (t : Table) :
  find_table n db = Some t -> create_if_not_exists n i c db = db.
Proof. intros H. unfold create_if_not_exists. rewrite H. reflexivity. Qed.

Lemma create_NoDup (n i : string) (c : list (string * string)) (db : Database) :
  NoDup (table_names db) -> NoDup (table_names (create_if_not_exists n i c db)).
Proof.
  intros H. rewrite table_names_create.
  destruct (find_table n db) eqn:E; [exact H|].
  apply NoDup_app. split; [exact H|]. split.
  - intros x Hx Hn. apply list_elem_of_In in Hx.
    apply list_elem_of_In in Hn. simpl in Hn. destruct Hn as [<-|[]].
    apply find_table_In in Hx. destruct Hx as [t Ht]. congruence.
  - apply NoDup_singleton.
Qed.

Lemma count_tables_NoDup (n : string) (db : Database) (t : Table) :
  NoDup (table_names db) -> find_table n db = Some t ->
  count_tables n db = 1%nat.
Proof.
  unfold count_tables.
  induction db as [|[k x] db IH]; simpl; intros Hnd Hf; [discriminate|].
  apply NoDup_cons in Hnd. destruct Hnd as [Hk Hnd].
  destruct (String.eqb_spec k n) as [->|Hne].
  - simpl. f_equal.
    assert (Hnone : ~ In n (table_names db)).
    { intros Hin. apply Hk. apply list_elem_of_In. exact Hin. }
    clear -Hnone. induction db as [|[k' x'] db IH]; simpl in *; [reflexivity|].
    destruct (String.eqb_spec k' n) as [->|Hne]; [exfalso; auto|].
    apply IH. auto.
  - apply IH; assumption.
Qed.

Lemma ddl_keeps (sql m : string) (db : Database) (t : Table) :
  find_table m db = Some t -> find_table m (ddl_effect sql db) = Some t.
Proof.
  intros H. unfold ddl_effect.
  destruct (compile sql) as [[n i c|]|]; try exact H.
  apply create_keeps. exact H.
Qed.

Lemma ddl_makes (sql n i : string) (c : list (string * string)) (db : Database) :
  compile sql = Some (CreateTableIfNotExists n i c) ->
  exists t, find_table n (ddl_effect sql db) = Some t.
Proof. intros H. unfold ddl_effect. rewrite H. apply create_makes. Qed.

Lemma ddl_existing (sql n i : string) (c : list (string * string))
    (db : Database) (t : Table) :
  compile sql = Some (CreateTableIfNotExists n i c) ->
  find_table n db = Some t -> ddl_effect sql db = db.
Proof.
  intros H Hf. unfold ddl_effect. rewrite H.
  apply (create_existing n i c db t Hf).
Qed.

Lemma ddl_NoDup (sql : string) (db : Database) :
  NoDup (table_names db) -> NoDup (table_names (ddl_effect sql db)).
Proof.
  intros H. unfold ddl_effect.
  destruct (compile sql) as [[n i c|]|]; try exact H.
  apply create_NoDup. exact H.
Qed.

Lemma with_schema_has (n : string) (db : Database) :
  In n schema_tables -> exists t, find_table n (with_schema db) = Some t.
Proof.
  compiled create_lily_diet_table H1. compiled create_lily_mood_table H2.
  compiled create_lily_walk_table H3. compiled create_lily_in_room_table H4.
  compiled create_lily_notes_table H5. compiled create_lily_walk_notes_table H6.
  unfold with_schema. simpl.
  intros [<-|[<-|[<-|[<-|[<-|[<-|[]]]]]]].
  - destruct (ddl_makes _ _ _ _ db H1) as [t Ht].
    exists t. do 5 apply ddl_keeps. exact Ht.
  - destruct (ddl_makes _ _ _ _ (ddl_effect create_lily_diet_table db) H2)
      as [t Ht].
    exists t. do 4 apply ddl_keeps. exact Ht.
  - match goal with |- context [ddl_effect create_lily_walk_table ?d] =>
      destruct (ddl_makes _ _ _ _ d H3) as [t Ht] end.
    exists t. do 3 apply ddl_keeps. exact Ht.
  - match goal with |- context [ddl_effect create_lily_in_room_table ?d] =>
      destruct (ddl_makes _ _ _ _ d H4) as [t Ht] end.
    exists t. do 2 apply ddl_keeps. exact Ht.
  - match goal with |- context [ddl_effect create_lily_notes_table ?d] =>
      destruct (ddl_makes _ _ _ _ d H5) as [t Ht] end.
    exists t. apply ddl_keeps. exact Ht.
  - match goal with |- context [ddl_effect create_lily_walk_notes_table ?d] =>
      destruct (ddl_makes _ _ _ _ d H6) as [t Ht] end.
    exists t. exact Ht.
Qed.

Lemma with_schema_NoDup (db : Database) :
  NoDup (table_names db) -> NoDup (table_names (with_schema db)).
Proof. intros H. unfold with_schema. do 6 apply ddl_NoDup. exact H. Qed.

(** Once the six tables are there, creating the schema changes nothing. *)
Lemma with_schema_fixpoint (db : Database) :
  (forall n, In n schema_tables -> exists t, find_table n db = Some t) ->
  with_schema db = db.
Proof.
  intros H.
  compiled create_lily_diet_table H1. compiled create_lily_mood_table H2.
  compiled create_lily_walk_table H3. compiled create_lily_in_room_table H4.
  compiled create_lily_notes_table H5. compiled create_lily_walk_notes_table H6.
  unfold with_schema.
  destruct (H "lily_diet_table") as [t1 T1]; [simpl; tauto|].
  destruct (H "lily_mood_table") as [t2 T2]; [simpl; tauto|].
  destruct (H "lily_walk_table") as [t3 T3]; [simpl; tauto|].
  destruct (H "lily_in_room_table") as [t4 T4]; [simpl; tauto|].
  destruct (H "lily_notes_table") as [t5 T5]; [simpl; tauto|].
  destruct (H "lily_walk_notes_table") as [t6 T6]; [simpl; tauto|].
  rewrite (ddl_existing _ _ _ _ db t1 H1 T1).
  rewrite (ddl_existing _ _ _ _ db t2 H2 T2).
  rewrite (ddl_existing _ _ _ _ db t3 H3 T3).
  rewrite (ddl_existing _ _ _ _ db t4 H4 T4).
  rewrite (ddl_existing _ _ _ _ db t5 H5 T5).
  apply (ddl_existing _ _ _ _ db t6 H6 T6).
Qed.

Lemma with_schema_idempotent (db : Database) :
  with_schema (with_schema db) = with_schema db.
Proof. apply with_schema_fixpoint. intros n Hn. apply with_schema_has, Hn. Qed.

Lemma repeat_setup_tables_settled (N : nat) (w : World) (db : Database) :
  ready w db -> with_schema db = db ->
  query w = {| q_stmt := compile create_lily_walk_notes_table;
               q_binds := []; q_error := "" |} ->
  exists w',
    repeat_prog N setup_tables w = (Ret tt, w') /\
    ready w' db /\ files w' = files w /\ conn_name w' = conn_name w /\
    log w' = log w /\ query w' = query w.
Proof.
  revert w. induction N as [|N IH]; intros w Hr Hs Hq; simpl.
  - exists w. repeat split; try apply Hr.
  - destruct (setup_tables_ready w db Hr) as (w1 & E & Hr1 & Hf & Hc & Hl & Hq1).
    rewrite Hs in Hr1, Hf.
    destruct (IH w1 Hr1 Hs Hq1) as (w2 & E2 & Hr2 & Hf2 & Hc2 & Hl2 & Hq2).
    exists w2. rewrite (bind_ret_eq _ _ _ _ _ E). split; [exact E2|].
    split; [exact Hr2|].
    split; [|repeat split; congruence].
    rewrite Hf2, Hf. apply insert_id. apply Hr.
Qed.

(** C2.  On a usable store (connection open on its file, no table name
    twice, the environment behaving), calling [setup_tables] N >= 1 times
    returns normally every time, leaves the store (files, connection and
    query) exactly as one call does, logs no error, and the database then
    holds exactly one table for each of the six categories. *)
Theorem setup_tables_idempotent (N : nat) (w : World) (db : Database) :
  (1 <= N)%nat ->
  ready w db ->
  NoDup (table_names db) ->
  result (repeat_prog N setup_tables) w = Ret tt /\
  store_state (run (repeat_prog N setup_tables) w)
    = store_state (run setup_tables w) /\
  log (run (repeat_prog N setup_tables) w) = log w /\
  exists db',
    current_db (run (repeat_prog N setup_tables) w) = Some db' /\
    forall n, In n schema_tables -> count_tables n db' = 1%nat.
Proof.
  intros HN Hr Hnd. destruct N as [|N]; [lia|]. simpl.
  destruct (setup_tables_ready w db Hr) as (w1 & E & Hr1 & Hf & Hc & Hl & Hq).
  destruct (repeat_setup_tables_settled N w1 (with_schema db) Hr1
              (with_schema_idempotent db) Hq)
    as (w2 & E2 & Hr2 & Hf2 & Hc2 & Hl2 & Hq2).
  unfold result, run. rewrite (bind_ret_eq _ _ _ _ _ E), E2, E. simpl.
  destruct Hr1 as (_ & Ho1 & _). destruct Hr2 as (_ & Ho2 & Hdb2).
  split; [reflexivity|].
  split; [unfold store_state; congruence|].
  split; [congruence|].
  exists (with_schema db). split.
  - unfold current_db. rewrite Ho2. exact Hdb2.
  - intros n Hn. destruct (with_schema_has n db Hn) as [t Ht].
    apply (count_tables_NoDup n _ t); [apply with_schema_NoDup, Hnd | exact Ht].
Qed.

Lemma setup_tables_idempotent_witness :
  store_state (run (repeat_prog 3 setup_tables) open_store)
    = store_state (run setup_tables open_store)
  /\ log (run (repeat_prog 3 setup_tables) open_store) = log open_store.
Proof.
  destruct (setup_tables_idempotent 3 open_store template_db
              ltac:(lia)
              ltac:(repeat split; vm_compute; reflexivity)
              ltac:(apply NoDup_singleton))
    as (_ & H1 & H2 & _).
  split; [exact H1 | exact H2].
Defined.

(** ** Inserting a record *)

Lemma try_ret_eq {A} (m : M A) (h : exn -> M A) (w w1 : World) (a : A) :
  m w = (Ret a, w1) -> try_except m h w = (Ret a, w1).
Proof. intros H. unfold try_except. rewrite H. reflexivity. Qed.

Lemma query_prepare_ok (sql : string) (s : Stmt) (w : World) (db : Database) :
  ready w db -> compile sql = Some s -> valid_stmt s db = true ->
  query_prepare sql w =
    (Ret true, set_query {| q_stmt := Some s; q_binds := []; q_error := "" |}
                 (set_trace (trace w ++ [EvPrepare sql]) w)).
Proof.
  intros (Hf & Ho & Hdb) Hc Hv. destruct w; simpl in *; subst.
  unfold query_prepare.
  repeat (unfold_prog; rewrite ?Hdb, ?Hc, ?Hv). reflexivity.
Qed.

Lemma bind_values_ok (binds : list SqlValue) (w : World) :
  faults w = [] ->
  for_each binds query_addBindValue w =
    (Ret tt, set_query {| q_stmt := q_stmt (query w);
                          q_binds := q_binds (query w) ++ binds;
                          q_error := q_error (query w) |}
               (set_trace (trace w ++ map EvBind binds) w)).
Proof.
  revert w. induction binds as [|v binds IH]; intros w Hf.
  - destruct w as [? ? ? [? ? ?] ? ? ? ? ? ? ? ? ?]; simpl in *.
    unfold ret. rewrite !app_nil_r. reflexivity.
  - destruct w as [? ? ? [? ? ?] ? ? ? ? ? ? ? ? ?]; simpl in *; subst.
    unfold bind at 1. unfold query_addBindValue. unfold_prog.
    rewrite IH by reflexivity. simpl.
    rewrite <- !app_assoc. reflexivity.
Qed.

Lemma query_exec_ok (w : World) (db db' : Database) (s : Stmt) :
  ready w db -> q_stmt (query w) = Some s ->
  length (q_binds (query w)) = placeholders (query w) ->
  run_stmt s (q_binds (query w)) db = Some db' ->
  query_exec w =
    (Ret true, set_files (<[conn_name w := db']> (files w))
                 (set_error "" (set_trace (trace w ++ [EvExec]) w))).
Proof.
  intros (Hf & Ho & Hdb) Hs Hn Hr.
  destruct w as [? ? ? [? ? ?] ? ? ? ? ? ? ? ? ?]; simpl in *; subst.
  unfold query_exec. unfold_prog. rewrite <- Hn, Nat.eqb_refl.
  repeat (unfold_prog; rewrite ?Hdb, ?Hr). reflexivity.
Qed.

Lemma insert_statement_runs (label sql name : string) (cols : list string)
    (binds : list SqlValue) (w : World) (db db' : Database) :
  ready w db ->
  compile sql = Some (InsertInto name cols (length binds)) ->
  count_char "?" sql = length binds ->
  valid_stmt (InsertInto name cols (length binds)) db = true ->
  run_stmt (InsertInto name cols (length binds)) binds db = Some db' ->
  exists w',
    insert_statement label sql binds w = (Ret tt, w') /\
    ready w' db' /\
    files w' = <[conn_name w := db']> (files w) /\
    conn_name w' = conn_name w /\
    log w' = log w /\
    trace w' = trace w ++ EvPrepare sql :: map EvBind binds ++ [EvExec].
Proof.
  intros Hr Hc Hn Hv Hrun.
  pose proof Hr as (Hf & Ho & Hdb).
  eexists. split.
  - unfold insert_statement. apply try_ret_eq. unfold insert_attempt.
    erewrite bind_ret_eq by (eapply query_prepare_ok; eassumption).
    erewrite bind_ret_eq by (apply bind_values_ok; exact Hf).
    rewrite Hn, Nat.eqb_refl. simpl negb. cbv iota.
    erewrite bind_ret_eq by reflexivity.
    erewrite bind_ret_eq.
    2:{ eapply query_exec_ok with (db := db) (s := InsertInto name cols (length binds)).
        - repeat split; assumption.
        - reflexivity.
        - reflexivity.
        - simpl q_binds. exact Hrun. }
    reflexivity.
  - simpl. repeat split; try assumption.
    + apply lookup_insert_eq.
    + rewrite <- !app_assoc. reflexivity.
Qed.

Lemma find_table_update (n : string) (t t' : Table) (db : Database) :
  find_table n db = Some t -> find_table n (update_table n t' db) = Some t'.
Proof.
  induction db as [|[k x] db IH]; simpl; [discriminate|].
  destruct (String.eqb k n) eqn:E; simpl; rewrite E; auto.
Qed.

Lemma has_column_names (t : Table) (c : string) :
  has_column t c = existsb (fun k => String.eqb k c) (map fst (t_cols t)).
Proof.
  unfold has_column. induction (t_cols t) as [|cd l IH]; simpl;
    [reflexivity | rewrite IH; reflexivity].
Qed.

Lemma forallb_has_column (t : Table) (cols : list string) :
  forallb (has_column t) cols
  = forallb (fun c => existsb (fun k => String.eqb k c) (map fst (t_cols t))) cols.
Proof.
  induction cols as [|c l IH]; simpl;
    [reflexivity | rewrite IH, has_column_names; reflexivity].
Qed.

(** A table that has an identity left takes the row. *)
Lemma insert_row_some (t : Table) (cols : list string) (vals : list SqlValue) :
  exhausted t = false ->
  insert_row t cols vals
  = Some {| t_id := t_id t; t_cols := t_cols t;
            t_rows := t_rows t ++ [(next_id t, new_row t cols vals)];
            t_seq := next_id t |}.
Proof. intros H. unfold insert_row. rewrite H. reflexivity. Qed.

Lemma max_rowid_bound (t : Table) (r : Z * list SqlValue) :
  In r (t_rows t) -> fst r <= max_rowid t.
Proof.
  unfold max_rowid. induction (t_rows t) as [|x l IH]; simpl; [intros []|].
  intros [->|H]; [lia | specialize (IH H); lia].
Qed.

(** The identity handed out is new and larger than any handed out
    before. *)
Lemma next_id_fresh (t : Table) :
  t_seq t < next_id t /\ forall r, In r (t_rows t) -> fst r < next_id t.
Proof.
  unfold next_id. split; [lia|].
  intros r Hr. pose proof (max_rowid_bound t r Hr). lia.
Qed.

(** ... and it is a 64-bit identity. *)
Lemma next_id_in_range (t : Table) :
  exhausted t = false -> next_id t <= max_rowid_value.
Proof.
  unfold exhausted, next_id. intros H. apply Z.leb_gt in H. lia.
Qed.

(** The text columns of the schema keep a text as it is bound, its
    integer columns an integer of 64 bits. *)
Lemma bind_int_in_range (n : Z) : in_int64 n = true -> bind_int n = SqlInt n.
Proof. intros H. unfold bind_int. rewrite H. reflexivity. Qed.

Lemma insert_into_lily_mood_table_runs (w : World) (db : Database) (t : Table)
    (lily_date lily_time : string) (mood activity energy : Z) :
  ready w db ->
  find_table "lily_mood_table" db = Some t ->
  t_cols t = mood_schema ->
  exhausted t = false ->
  in_int64 mood = true -> in_int64 activity = true -> in_int64 energy = true ->
  exists w',
    insert_into_lily_mood_table lily_date lily_time mood activity energy w
      = (Ret tt, w') /\
    log w' = log w /\
    select_all "lily_mood_table" w'
      = Some (t_rows t ++
              [(next_id t, [SqlText lily_date; SqlText lily_time; SqlInt mood;
                            SqlInt activity; SqlInt energy])]).
Proof.
  intros Hr Ht Hc Hx Hm Ha He.
  compiled insert_lily_mood_sql Hs.
  assert (Hv : valid_stmt (InsertInto "lily_mood_table" mood_columns 5) db = true).
  { unfold valid_stmt. rewrite Ht, forallb_has_column, Hc. reflexivity. }
  unfold insert_into_lily_mood_table.
  rewrite (bind_int_in_range _ Hm), (bind_int_in_range _ Ha),
    (bind_int_in_range _ He).
  destruct (insert_statement_runs "lily_mood_table" insert_lily_mood_sql
              "lily_mood_table" mood_columns
              [SqlText lily_date; SqlText lily_time; SqlInt mood;
               SqlInt activity; SqlInt energy] w db
              (update_table "lily_mood_table"
                 {| t_id := t_id t; t_cols := t_cols t;
                    t_rows := t_rows t ++
                      [(next_id t,
                        new_row t mood_columns
                          [SqlText lily_date; SqlText lily_time; SqlInt mood;
                           SqlInt activity; SqlInt energy])];
                    t_seq := next_id t |} db)
              Hr Hs)
    as (w' & E & Hr' & _ & _ & Hl & _).
  - vm_compute. reflexivity.
  - exact Hv.
  - unfold run_stmt. simpl length. rewrite Hv, Ht.
    rewrite (insert_row_some _ _ _ Hx). reflexivity.
  - exists w'. split; [exact E|]. split; [exact Hl|].
    destruct Hr' as (_ & Ho & Hdb). unfold select_all, current_db.
    rewrite Ho, Hdb. rewrite (find_table_update _ t _ _ Ht).
    simpl t_rows. unfold new_row. rewrite Hc. reflexivity.
Qed.

(** C3, as the code has it.  On a usable store whose mood table has the
    columns of the schema with their declared types and has an identity
    left to hand out, an insert of 64-bit integers returns normally, and
    re-reading the table gives the rows it had followed by exactly one
    new row with the inserted values; the identity of that row is a
    64-bit integer larger than every identity the table has handed out so
    far, hence new.  On a mood table that never held a row, the record of
    the scenario comes back as the only row, with identity 1. *)
Theorem insert_mood_then_rebind (w : World) (db : Database) (t : Table)
    (lily_date lily_time : string) (mood activity energy : Z) :
  ready w db ->
  find_table "lily_mood_table" db = Some t ->
  t_cols t = mood_schema ->
  exhausted t = false ->
  in_int64 mood = true -> in_int64 activity = true -> in_int64 energy = true ->
  result (insert_into_lily_mood_table lily_date lily_time mood activity energy) w
    = Ret tt /\
  select_all "lily_mood_table"
    (run (insert_into_lily_mood_table lily_date lily_time mood activity energy) w)
    = Some (t_rows t ++
            [(next_id t, [SqlText lily_date; SqlText lily_time; SqlInt mood;
                          SqlInt activity; SqlInt energy])]) /\
  t_seq t < next_id t /\
  next_id t <= max_rowid_value /\
  (forall r, In r (t_rows t) -> fst r < next_id t) /\
  (t_rows t = [] -> t_seq t = 0 ->
   select_all "lily_mood_table"
     (run (insert_into_lily_mood_table "2024-01-01" "09:00" 3 2 4) w)
     = Some [(1, [SqlText "2024-01-01"; SqlText "09:00"; SqlInt 3; SqlInt 2;
                  SqlInt 4])]).
Proof.
  intros Hr Ht Hc Hx Hm Ha He.
  destruct (insert_into_lily_mood_table_runs w db t lily_date lily_time
              mood activity energy Hr Ht Hc Hx Hm Ha He) as (w' & E & _ & Hsel).
  unfold result, run. rewrite E. simpl.
  split; [reflexivity|]. split; [exact Hsel|].
  split; [apply next_id_fresh|].
  split; [apply next_id_in_range, Hx|].
  split; [apply next_id_fresh|].
  intros Hrows Hseq.
  destruct (insert_into_lily_mood_table_runs w db t "2024-01-01" "09:00"
              3 2 4 Hr Ht Hc Hx eq_refl eq_refl eq_refl)
    as (w2 & E2 & _ & Hsel2).
  rewrite E2. simpl. rewrite Hsel2, Hrows.
  unfold next_id, max_rowid. rewrite Hrows, Hseq. reflexivity.
Qed.

Lemma insert_mood_then_rebind_witness :
  select_all "lily_mood_table"
    (run (insert_into_lily_mood_table "2024-01-01" "09:00" 3 2 4) started_store)
  = Some [(1, [SqlText "2024-01-01"; SqlText "09:00"; SqlInt 3; SqlInt 2;
               SqlInt 4])].
Proof.
  destruct (insert_mood_then_rebind started_store
              (with_schema [])
              {| t_id := "id"; t_cols := mood_schema;
                 t_rows := []; t_seq := 0 |}
              "2024-01-01" "09:00" 3 2 4
              ltac:(repeat split; vm_compute; reflexivity)
              ltac:(vm_compute; reflexivity)
              ltac:(reflexivity)
              ltac:(vm_compute; reflexivity)
              ltac:(reflexivity) ltac:(reflexivity) ltac:(reflexivity))
    as (_ & _ & _ & _ & _ & H).
  exact (H eq_refl eq_refl).
Defined.

(** C3 as stated fails: the mood table of [emptied_store] is empty, yet
    the record of the scenario gets identity 2, not 1. *)
Lemma insert_mood_on_emptied_table :
  select_all "lily_mood_table" emptied_store = Some [] /\
  select_all "lily_mood_table"
    (run (insert_into_lily_mood_table "2024-01-01" "09:00" 3 2 4) emptied_store)
  = Some [(2, [SqlText "2024-01-01"; SqlText "09:00"; SqlInt 3; SqlInt 2;
               SqlInt 4])] /\
  select_all "lily_mood_table"
    (run (insert_into_lily_mood_table "2024-01-01" "09:00" 3 2 4) emptied_store)
  <> Some [(1, [SqlText "2024-01-01"; SqlText "09:00"; SqlInt 3; SqlInt 2;
                SqlInt 4])].
Proof.
  assert (E : select_all "lily_mood_table"
    (run (insert_into_lily_mood_table "2024-01-01" "09:00" 3 2 4) emptied_store)
  = Some [(2, [SqlText "2024-01-01"; SqlText "09:00"; SqlInt 3; SqlInt 2;
               SqlInt 4])]) by (vm_compute; reflexivity).
  split; [vm_compute; reflexivity|]. split; [exact E|].
  rewrite E. discriminate.
Qed.

(** ** The placeholder check of the insert methods *)

Lemma nve_ret {A} (a : A) : no_value_error (ret a).
Proof. intros w e H. discriminate. Qed.

Lemma nve_get {A} (f : World -> A) : no_value_error (get f).
Proof. intros w e H. discriminate. Qed.

Lemma nve_modify f : no_value_error (modify f).
Proof. intros w e H. discriminate. Qed.

Lemma nve_logger_error msg : no_value_error (logger_error msg).
Proof. intros w e H. discriminate. Qed.

Lemma nve_attempt ev : no_value_error (attempt ev).
Proof.
  intros w e H. unfold result, attempt in H.
  destruct (faults w); discriminate.
Qed.

Lemma nve_raise_type {A} msg : no_value_error (@raise A (TypeError msg)).
Proof. intros w e H. inversion H. discriminate. Qed.

Lemma nve_bind {A B} (m : M A) (k : A -> M B) :
  no_value_error m -> (forall a, no_value_error (k a)) ->
  no_value_error (bind m k).
Proof.
  intros Hm Hk w e H. unfold result, bind in H.
  destruct (m w) as [[a|x] w1] eqn:E.
  - apply (Hk a w1 e). exact H.
  - simpl in H. inversion H; subst. apply (Hm w e).
    unfold result. rewrite E. reflexivity.
Qed.

Lemma nve_for_each {A} (l : list A) (f : A -> M unit) :
  (forall x, no_value_error (f x)) -> no_value_error (for_each l f).
Proof.
  intros Hf. induction l as [|x l IH]; simpl.
  - apply nve_ret.
  - apply nve_bind; [apply Hf | intros _; exact IH].
Qed.

Ltac nve_step :=
  match goal with
  | |- no_value_error (bind _ _) => apply nve_bind
  | |- no_value_error (ret _) => apply nve_ret
  | |- no_value_error (get _) => apply nve_get
  | |- no_value_error (modify _) => apply nve_modify
  | |- no_value_error (attempt _) => apply nve_attempt
  | |- no_value_error (logger_error _) => apply nve_logger_error
  | |- no_value_error (raise (TypeError _)) => apply nve_raise_type
  | |- no_value_error (for_each _ _) => apply nve_for_each
  | |- no_value_error (match ?x with _ => _ end) => destruct x
  | |- forall _, _ => intro
  end.

Lemma nve_query_prepare sql : no_value_error (query_prepare sql).
Proof. unfold query_prepare. repeat nve_step. Qed.

Lemma nve_query_addBindValue v : no_value_error (query_addBindValue v).
Proof. unfold query_addBindValue. repeat nve_step. Qed.

Lemma nve_query_exec : no_value_error query_exec.
Proof. unfold query_exec. repeat nve_step. Qed.

Lemma pre_exec_ret {A} (a : A) : pre_exec (ret a).
Proof.
  intros w. split; [reflexivity|]. exists []. split; [|intros []].
  symmetry. apply app_nil_r.
Qed.

Lemma pre_exec_raise {A} (e : exn) : pre_exec (@raise A e).
Proof.
  intros w. split; [reflexivity|]. exists []. split; [|intros []].
  symmetry. apply app_nil_r.
Qed.

Lemma pre_exec_get {A} (f : World -> A) : pre_exec (get f).
Proof.
  intros w. split; [reflexivity|]. exists []. split; [|intros []].
  symmetry. apply app_nil_r.
Qed.

Lemma pre_exec_modify (f : World -> World) :
  (forall w, files (f w) = files w /\ trace (f w) = trace w) ->
  pre_exec (modify f).
Proof.
  intros H w. destruct (H w) as [Hf Ht]. unfold run, modify. simpl.
  split; [exact Hf|]. exists []. split; [|intros []].
  rewrite Ht. symmetry. apply app_nil_r.
Qed.

Lemma pre_exec_logger_error msg : pre_exec (logger_error msg).
Proof.
  intros w. split; [reflexivity|]. exists []. split; [|intros []].
  symmetry. apply app_nil_r.
Qed.

Lemma pre_exec_attempt (ev : Event) : ev <> EvExec -> pre_exec (attempt ev).
Proof.
  intros Hne w. unfold run, attempt.
  destruct (faults w); simpl; (split; [reflexivity|]); exists [ev];
    (split; [reflexivity|]); intros [H|[]]; congruence.
Qed.

Lemma pre_exec_bind {A B} (m : M A) (k : A -> M B) :
  pre_exec m -> (forall a, pre_exec (k a)) -> pre_exec (bind m k).
Proof.
  intros Hm Hk w. destruct (Hm w) as (Hf1 & l1 & H1 & N1).
  unfold run, bind in *. destruct (m w) as [[a|e] w1]; simpl in *.
  - destruct (Hk a w1) as (Hf2 & l2 & H2 & N2). unfold run in *.
    split; [congruence|]. exists (l1 ++ l2). split.
    + rewrite H2, H1. symmetry. apply app_assoc.
    + intros Hin. apply in_app_or in Hin. tauto.
  - split; [exact Hf1|]. exists l1. split; assumption.
Qed.

(** Whatever follows a [raise] is not run. *)
Lemma pre_exec_after_raise {A B} (e : exn) (k : A -> M B) :
  pre_exec (bind (raise e) k).
Proof.
  intros w. split; [reflexivity|]. exists []. split; [|intros []].
  symmetry. apply app_nil_r.
Qed.

Lemma pre_exec_try {A} (m : M A) (h : exn -> M A) :
  pre_exec m -> (forall e, pre_exec (h e)) -> pre_exec (try_except m h).
Proof.
  intros Hm Hh w. destruct (Hm w) as (Hf1 & l1 & H1 & N1).
  unfold run, try_except in *. destruct (m w) as [[a|e] w1]; simpl in *.
  - split; [exact Hf1|]. exists l1. split; assumption.
  - destruct (Hh e w1) as (Hf2 & l2 & H2 & N2). unfold run in *.
    split; [congruence|]. exists (l1 ++ l2). split.
    + rewrite H2, H1. symmetry. apply app_assoc.
    + intros Hin. apply in_app_or in Hin. tauto.
Qed.

Lemma pre_exec_for_each {A} (l : list A) (f : A -> M unit) :
  (forall x, pre_exec (f x)) -> pre_exec (for_each l f).
Proof.
  intros Hf. induction l as [|x l IH]; simpl.
  - apply pre_exec_ret.
  - apply pre_exec_bind; [apply Hf | intros _; exact IH].
Qed.

Ltac pre_exec_step :=
  match goal with
  | |- pre_exec (bind (raise _) _) => apply pre_exec_after_raise
  | |- pre_exec (bind _ _) => apply pre_exec_bind
  | |- pre_exec (try_except _ _) => apply pre_exec_try
  | |- pre_exec (ret _) => apply pre_exec_ret
  | |- pre_exec (raise _) => apply pre_exec_raise
  | |- pre_exec (get _) => apply pre_exec_get
  | |- pre_exec (modify _) => apply pre_exec_modify; intros; split; reflexivity
  | |- pre_exec (attempt _) => apply pre_exec_attempt; discriminate
  | |- pre_exec (logger_error _) => apply pre_exec_logger_error
  | |- pre_exec (for_each _ _) => apply pre_exec_for_each
  | |- pre_exec (match ?x with _ => _ end) => destruct x
  | |- forall _, _ => intro
  end.

Lemma pre_exec_query_prepare sql : pre_exec (query_prepare sql).
Proof. unfold query_prepare. repeat pre_exec_step. Qed.

Lemma pre_exec_query_addBindValue v : pre_exec (query_addBindValue v).
Proof. unfold query_addBindValue. repeat pre_exec_step. Qed.

Lemma total_insert_statement label sql binds :
  total (insert_statement label sql binds).
Proof.
  unfold insert_statement. apply total_try.
  intros [m|m|m]; apply total_logger_error.
Qed.

Lemma insert_attempt_no_value_error label sql binds :
  count_char "?" sql = length binds ->
  no_value_error (insert_attempt label sql binds).
Proof.
  intros H. unfold insert_attempt. rewrite H, Nat.eqb_refl. simpl negb.
  apply nve_bind; [apply nve_query_prepare|]. intros _.
  apply nve_bind; [apply nve_for_each, nve_query_addBindValue|]. intros _.
  apply nve_bind; [apply nve_ret|]. intros _.
  apply nve_bind; [apply nve_query_exec|]. intros ok.
  destruct ok; simpl;
    [ apply nve_ret
    | apply nve_bind; [apply nve_get | intros; apply nve_logger_error] ].
Qed.

Lemma insert_statement_mismatch label sql binds :
  count_char "?" sql <> length binds ->
  pre_exec (insert_statement label sql binds).
Proof.
  intros H. apply Nat.eqb_neq in H.
  unfold insert_statement, insert_attempt. rewrite H. simpl negb.
  apply pre_exec_try.
  - apply pre_exec_bind; [apply pre_exec_query_prepare|]. intros _.
    apply pre_exec_bind;
      [apply pre_exec_for_each, pre_exec_query_addBindValue|]. intros _.
    apply pre_exec_after_raise.
  - intros [m|m|m]; apply pre_exec_logger_error.
Qed.

(** C4.  Each of the six insert methods runs the shared body at a
    statement text with exactly as many placeholders as bound values;
    with equal counts the [try] block raises no [ValueError], so the
    mismatch branch is never taken, whatever the environment does.  Were
    the counts to differ, the call would return normally without an
    [exec()] call and with the files untouched. *)
Theorem bind_mismatch_unreachable :
  (forall d t n, well_bound (insert_into_lily_notes_table d t n)) /\
  (forall d t v, well_bound (insert_into_time_in_room_table d t v)) /\
  (forall d t, well_bound (insert_into_lily_diet_table d t)) /\
  (forall d t m a e, well_bound (insert_into_lily_mood_table d t m a e)) /\
  (forall d t b g, well_bound (insert_into_wiggles_walks_table d t b g)) /\
  (forall d t n, well_bound (insert_into_lily_walk_notes_table d t n)) /\
  (forall label sql binds w msg,
     count_char "?" sql = length binds ->
     result (insert_attempt label sql binds) w <> Raise (ValueError msg)) /\
  (forall label sql binds w,
     count_char "?" sql <> length binds ->
     result (insert_statement label sql binds) w = Ret tt /\
     files (run (insert_statement label sql binds) w) = files w /\
     exists l,
       trace (run (insert_statement label sql binds) w) = trace w ++ l /\
       ~ In EvExec l).
Proof.
  repeat split.
  1-6: intros; unfold well_bound; do 3 eexists; split;
       [reflexivity | vm_compute; reflexivity].
  - intros label sql binds w msg H E.
    apply (insert_attempt_no_value_error label sql binds H w _ E msg).
    reflexivity.
  - destruct (total_insert_statement label sql binds w) as [[] E]. exact E.
  - apply (insert_statement_mismatch label sql binds H w).
  - apply (insert_statement_mismatch label sql binds H w).
Qed.

Lemma bind_mismatch_unreachable_witness :
  files (run (insert_statement "lily_eats_table" insert_lily_diet_sql
                [SqlText "2024-01-01"]) started_store)
  = files started_store.
Proof.
  destruct bind_mismatch_unreachable as (_ & _ & _ & _ & _ & _ & _ & H).
  destruct (H "lily_eats_table" insert_lily_diet_sql [SqlText "2024-01-01"]
              started_store ltac:(vm_compute; lia)) as (_ & Hf & _).
  exact Hf.
Defined.

(** ** Settings: what is saved at shutdown is what the next start reads *)

(** *** Integers and their decimal text *)

Lemma wrap32_in_range (n : Z) : in_int32 n = true -> wrap32 n = n.
Proof.
  unfold in_int32, wrap32. intros H. apply andb_prop in H as [H1 H2].
  apply Z.leb_le in H1, H2. rewrite Z.mod_small by lia. lia.
Qed.

Lemma in_int32_int64 (n : Z) : in_int32 n = true -> in_int64 n = true.
Proof.
  unfold in_int32, in_int64. intros H. apply andb_prop in H as [H1 H2].
  apply Z.leb_le in H1, H2. apply andb_true_intro. split; apply Z.leb_le; lia.
Qed.

Lemma lstrip_no_blank (s : string) : no_blank s = true -> lstrip s = s.
Proof.
  destruct s as [|c r]; simpl; [reflexivity|]. intros H.
  apply andb_prop in H as [H _]. apply negb_true_iff in H.
  rewrite H. reflexivity.
Qed.

Lemma rstrip_no_blank (s : string) : no_blank s = true -> rstrip s = s.
Proof.
  induction s as [|c r IH]; simpl; [reflexivity|]. intros H.
  apply andb_prop in H as [H1 H2]. apply negb_true_iff in H1.
  rewrite (IH H2), H1. destruct r; reflexivity.
Qed.

Lemma trim_no_blank (s : string) : no_blank s = true -> trim s = s.
Proof.
  intros H. unfold trim. rewrite (lstrip_no_blank s H).
  apply rstrip_no_blank, H.
Qed.

Lemma no_blank_digits (d : Decimal.uint) :
  no_blank (DecimalString.NilEmpty.string_of_uint d) = true.
Proof. induction d; simpl; auto. Qed.

Lemma no_blank_uint (d : Decimal.uint) :
  no_blank (DecimalString.NilZero.string_of_uint d) = true.
Proof.
  destruct d; try reflexivity;
    apply (no_blank_digits (_ d)) || (simpl; apply no_blank_digits).
Qed.

Lemma digits_value_uint (d : Decimal.uint) :
  digits_value (DecimalString.NilZero.string_of_uint d) = Some (Z.of_uint d).
Proof.
  unfold digits_value. destruct d;
    try (rewrite DecimalString.NilZero.usu by discriminate; reflexivity).
  rewrite DecimalString.NilZero.usu_nil. reflexivity.
Qed.

Lemma digits_value_minus (r : string) : digits_value (String "-" r) = None.
Proof.
  unfold digits_value, DecimalString.NilZero.uint_of_string. simpl.
  destruct (DecimalString.NilEmpty.uint_of_string r); reflexivity.
Qed.

(** What is printed in decimal is read back. *)
Lemma parse_int_decimal (n : Z) : parse_int (decimal n) = Some n.
Proof.
  unfold parse_int, decimal.
  pose proof (DecimalZ.of_to n) as E.
  destruct (Z.to_int n) as [d|d]; simpl in E; subst n;
    simpl DecimalString.NilZero.string_of_int.
  - rewrite (trim_no_blank _ (no_blank_uint d)), digits_value_uint.
    reflexivity.
  - rewrite trim_no_blank by (simpl; apply no_blank_uint).
    rewrite digits_value_minus. simpl. rewrite digits_value_uint.
    reflexivity.
Qed.

(** A C [int] is read back as it was written, whether the platform kept
    it as a number or as its decimal text. *)
Lemma coerce_int_reloaded (fmt : Format) (n : Z) :
  in_int32 n = true ->
  coerce (Some TInt) (reload_value fmt (QInt n)) = Some (QInt n).
Proof.
  intros H. destruct fmt; simpl.
  - rewrite (wrap32_in_range n H). reflexivity.
  - unfold int_of_text. rewrite parse_int_decimal, (in_int32_int64 n H).
    rewrite (wrap32_in_range n H). reflexivity.
Qed.

Lemma coerce_int (n : Z) :
  in_int32 n = true -> coerce (Some TInt) (QInt n) = Some (QInt n).
Proof. intros H. simpl. rewrite (wrap32_in_range n H). reflexivity. Qed.

Lemma reload_value_str (fmt : Format) (s : string) :
  reload_value fmt (QStr s) = QStr s.
Proof. destruct fmt; reflexivity. Qed.

Lemma reload_value_bytes (fmt : Format) (b : list Byte.byte) :
  reload_value fmt (QBytes b) = QBytes b.
Proof. destruct fmt; reflexivity. Qed.

Lemma reload_lookup (fmt : Format) (st : gmap string QVariant) (k : string) :
  reload fmt st !! k = reload_value fmt <$> (st !! k).
Proof. unfold reload. apply lookup_fmap. Qed.

(** *** Writing and reading a key *)


Lemma settings_value_ok (k : string) (d v : QVariant) (ty : option QType)
    (w : World) :
  faults w = [] ->
  coerce ty (match settings w !! k with Some x => x | None => d end) = Some v ->
  settings_value k d ty w =
    (Ret v, set_trace (trace w ++ [EvGetValue k]) w).
Proof.
  intros Hf Hc. destruct w; simpl in *; subst.
  unfold settings_value. unfold_prog. rewrite Hc. reflexivity.
Qed.




(** Reading a key back from the saved settings. *)
Ltac saved_lookup :=
  unfold saved_settings;
  repeat first [ rewrite lookup_insert_eq
               | rewrite lookup_insert_ne by discriminate ].

(** ... and the value of a widget back from what was stored for it. *)
Ltac read_back :=
  rewrite ?reload_lookup; saved_lookup;
  cbv beta iota delta [fmap option_fmap option_map];
  first [ apply coerce_int_reloaded, c_range
        | apply coerce_int, c_range
        | rewrite ?reload_value_bytes, ?reload_value_str; reflexivity ].

Lemma restore_block (k name : string) (d v : QVariant) (ty : option QType)
    (setter : string -> QVariant -> M unit) (h : exn -> M unit) (w : World) :
  faults w = [] ->
  coerce ty (match settings w !! k with Some x => x | None => d end) = Some v ->
  (forall w', setter name v w'
              = (Ret tt, set_trace (trace w' ++ [EvWidgetSet name v]) w')) ->
  try_except (x <- settings_value k d ty ;; setter name x) h w
  = (Ret tt, set_trace (trace w ++ [EvGetValue k; EvWidgetSet name v]) w).
Proof.
  intros Hf Hc Hs. apply try_ret_eq.
  rewrite (bind_ret_eq _ _ _ _ _ (settings_value_ok k d v ty w Hf Hc)).
  rewrite Hs. destruct w; simpl. rewrite <- app_assoc. reflexivity.
Qed.

Lemma restore_state_reloaded (fmt : Format) (ui : Widgets)
    (st0 : gmap string QVariant) (w : World) :
  faults w = [] ->
  settings w = reload fmt (saved_settings ui st0) ->
  restore_state w = (Ret tt, set_trace (trace w ++ restored_calls ui) w).
Proof.
  intros Hf Hs. unfold restore_state.
  repeat (erewrite bind_ret_eq
            by (apply restore_block;
                [ exact Hf
                | simpl settings; rewrite Hs; read_back
                | intros; reflexivity ])).
  erewrite restore_block;
    [ | exact Hf
      | simpl settings; rewrite Hs; read_back
      | intros; reflexivity ].
  destruct w; simpl. rewrite <- !app_assoc. reflexivity.
Qed.

Lemma reload_typed (st : gmap string QVariant) : reload Typed st = st.
Proof.
  unfold reload. apply map_eq. intros k. rewrite lookup_fmap.
  destruct (st !! k) as [[| |]|]; reflexivity.
Qed.

Lemma restore_state_ok (ui : Widgets) (st0 : gmap string QVariant) (w : World) :
  faults w = [] ->
  settings w = saved_settings ui st0 ->
  restore_state w = (Ret tt, set_trace (trace w ++ restored_calls ui) w).
Proof.
  intros Hf Hs. apply (restore_state_reloaded Typed ui st0); [exact Hf|].
  rewrite reload_typed. exact Hs.
Qed.

(** At a start [widget_operations] connects the page signal, reads the
    page index and shows that page; when this changes the page of the
    stack, the slot writes the index back. *)
Lemma widget_operations_ok (index : Z) (v : QVariant) (w : World) :
  faults w = [] ->
  page_changed_slots (stack w) = 0%nat ->
  settings w !! "lastPageIndex" = Some v ->
  coerce (Some TInt) v = Some (QInt index) ->
  (exists l,
     trace (run widget_operations w)
     = l ++ [EvGetValue "lastPageIndex";
             EvWidgetSet "lilyStack.setCurrentIndex" (QInt index)]
         ++ (if changes_page index (stack w)
             then [EvSetValue "lastPageIndex"] else [])) /\
  settings (run widget_operations w)
    = (if changes_page index (stack w)
       then <["lastPageIndex" := QInt index]> (settings w)
       else settings w) /\
  faults (run widget_operations w) = [].
Proof.
  intros Hf Hn Hk Hc.
  destruct w as [fi cn co q st sl mo se lg tr fl [ci pc ps] ee].
  simpl in Hf, Hn, Hk. subst.
  unfold widget_operations, changes_page. simpl current_index. simpl page_count.
  simpl settings.
  destruct (0 <=? index) eqn:E1; destruct (index <? pc) eqn:E2;
    destruct (index =? ci) eqn:E3;
    repeat (unfold_prog; simpl repeat; rewrite ?Hk, ?Hc, ?E1, ?E2, ?E3;
            cbv beta iota delta [andb]);
    (split; [|split; reflexivity]);
    match goal with
    | |- exists l, ((?X ++ [?g]) ++ [?s]) ++ [?e] = _ =>
        exists X; rewrite <- !app_assoc; reflexivity
    | |- exists l, (?X ++ [?g]) ++ [?s] = _ =>
        exists X; rewrite <- !app_assoc; reflexivity
    end.
Qed.








(** ** Deleting with nothing selected *)

Lemma delete_selected_rows_empty (table_name model_name : string) (w : World) :
  selection w !! model_name = None \/ selection w !! model_name = Some [] ->
  delete_selected_rows table_name model_name w
  = (Ret tt,
     set_trace (trace w ++ [EvDeleteSelectedRows table_name model_name]) w).
Proof.
  intros H. unfold delete_selected_rows.
  destruct w; simpl in H. unfold_prog.
  destruct H as [-> | ->]; reflexivity.
Qed.

(** C7.  Deleting an empty set of identities returns the world as it
    was; an empty selection resolves to the empty set of identities; and
    the delete routine run with nothing selected returns normally, logs
    nothing and leaves every file, hence every table, as it was. *)
Theorem delete_empty_selection_is_noop
    (table_name model_name : string) (w : World) :
  deleteRows table_name [] w = (Ret tt, w) /\
  (forall rows, selectedRowIdentities rows [] = []) /\
  (selection w !! model_name = None \/ selection w !! model_name = Some [] ->
   result (delete_selected_rows table_name model_name) w = Ret tt /\
   files (run (delete_selected_rows table_name model_name) w) = files w /\
   log (run (delete_selected_rows table_name model_name) w) = log w /\
   forall t,
     select_all t (run (delete_selected_rows table_name model_name) w)
     = select_all t w).
Proof.
  split; [reflexivity|]. split; [reflexivity|].
  intros H. unfold result, run.
  rewrite (delete_selected_rows_empty table_name model_name w H).
  simpl. repeat split.
Qed.

Lemma delete_empty_selection_is_noop_witness :
  files (run (delete_selected_rows "lily_mood_table" "lily_mood_model")
           started_store)
  = files started_store.
Proof.
  destruct (delete_empty_selection_is_noop "lily_mood_table" "lily_mood_model"
              started_store) as (_ & _ & H).
  destruct (H ltac:(left; vm_compute; reflexivity)) as (_ & Hf & _).
  exact Hf.
Defined.

(** ** Closing the store *)

Lemma total_close_database : total close_database.
Proof. unfold close_database. apply total_try. intros e. apply total_logger_error. Qed.

Lemma close_database_open (w : World) :
  faults w = [] -> conn_open w = true ->
  close_database w
  = (Ret tt,
     set_conn (conn_name w) false
       (set_trace (trace w ++ [EvIsOpen; EvClose])
          (set_log (log w ++ [(INFO, "if database is open");
                              (INFO, "the database is closed successfully")]) w))).
Proof.
  intros Hf Ho. destruct w; simpl in *; subst.
  unfold close_database. unfold_prog.
  rewrite <- !app_assoc. reflexivity.
Qed.

Lemma close_database_closed (w : World) :
  faults w = [] -> conn_open w = false ->
  close_database w
  = (Ret tt,
     set_trace (trace w ++ [EvIsOpen])
       (set_log (log w ++ [(INFO, "if database is open")]) w)).
Proof.
  intros Hf Ho. destruct w; simpl in *; subst.
  unfold close_database. unfold_prog. reflexivity.
Qed.

(** Whatever the environment does, [close()] is only called on a
    connection that reported itself open. *)
Lemma close_database_only_when_open (w : World) :
  exists l, trace (run close_database w) = trace w ++ l /\
            (In EvClose l -> conn_open w = true).
Proof.
  destruct w as [fs cn co q st sl md se lg tr fl].
  unfold close_database, run. unfold_prog.
  destruct fl as [|f1 fl]; [|destruct f1]; simpl;
    destruct co; simpl;
    try (destruct fl as [|f2 fl]; [|destruct f2]; simpl);
    eexists; (split; [try rewrite <- !app_assoc; reflexivity|]);
    simpl; intros H; try reflexivity;
    repeat (destruct H as [H|H]; try discriminate); contradiction.
Qed.

(** C8.  [close_database] never lets an exception out and never touches
    the files; it calls [close()] only on a connection that is open.  With
    the environment behaving, an open connection is closed, and on a
    closed connection the call changes nothing of the store, so a second
    or later call leaves the store as the first one left it. *)
Theorem close_database_idempotent (w : World) :
  result close_database w = Ret tt /\
  (exists l, trace (run close_database w) = trace w ++ l /\
             (In EvClose l -> conn_open w = true)) /\
  (faults w = [] ->
   conn_open (run close_database w) = false /\
   files (run close_database w) = files w /\
   (conn_open w = true ->
    trace (run close_database w) = trace w ++ [EvIsOpen; EvClose]) /\
   (conn_open w = false ->
    store_state (run close_database w) = store_state w /\
    trace (run close_database w) = trace w ++ [EvIsOpen]) /\
   result close_database (run close_database w) = Ret tt /\
   store_state (run close_database (run close_database w))
     = store_state (run close_database w)).
Proof.
  split.
  { destruct (total_close_database w) as [[] E]. exact E. }
  split; [apply close_database_only_when_open|].
  intros Hf.
  assert (Hclosed : forall v, faults v = [] -> conn_open v = false ->
            store_state (run close_database v) = store_state v /\
            trace (run close_database v) = trace v ++ [EvIsOpen]).
  { intros v Hv Ho. unfold run. rewrite (close_database_closed v Hv Ho).
    split; reflexivity. }
  assert (Hafter : faults (run close_database w) = [] /\
                   conn_open (run close_database w) = false /\
                   files (run close_database w) = files w).
  { unfold run. destruct (conn_open w) eqn:Ho.
    - rewrite (close_database_open w Hf Ho). simpl. auto.
    - rewrite (close_database_closed w Hf Ho). simpl. auto. }
  destruct Hafter as (Hf1 & Ho1 & Hfiles).
  split; [exact Ho1|]. split; [exact Hfiles|].
  split.
  { intros Ho. unfold run. rewrite (close_database_open w Hf Ho). reflexivity. }
  split; [intros Ho; apply (Hclosed w Hf Ho)|].
  split.
  { destruct (total_close_database (run close_database w)) as [[] E]. exact E. }
  apply (Hclosed _ Hf1 Ho1).
Qed.

Lemma close_database_idempotent_witness :
  conn_open (run close_database started_store) = false
  /\ store_state (run close_database (run close_database started_store))
     = store_state (run close_database started_store).
Proof.
  destruct (close_database_idempotent started_store) as (_ & _ & H).
  destruct (H ltac:(vm_compute; reflexivity)) as (H1 & _ & _ & _ & _ & H2).
  split; [exact H1 | exact H2].
Defined.

(** ** The delete action *)

Lemma delete_calls_app (a b : list Event) :
  delete_calls (a ++ b) = delete_calls a ++ delete_calls b.
Proof.
  induction a as [|e a IH]; simpl; [reflexivity|].
  destruct e; simpl; rewrite ?IH; reflexivity.
Qed.

Lemma deleteRows_quiet (table_name : string) (ids : list Z) (w : World) :
  result (deleteRows table_name ids) w = Ret tt /\
  delete_calls (trace (run (deleteRows table_name ids) w))
    = delete_calls (trace w).
Proof.
  destruct w as [fs cn co q st sl md se lg tr fl].
  unfold deleteRows, result, run. destruct ids as [|i ids]; [split; reflexivity|].
  unfold_prog.
  destruct fl as [|f fl]; [|destruct f]; simpl;
    destruct co; simpl; try destruct (fs !! cn) as [db|]; simpl;
    try destruct (find_table table_name db); simpl;
    rewrite delete_calls_app, app_nil_r; split; reflexivity.
Qed.

Lemma delete_selected_rows_calls (table_name model_name : string) (w : World) :
  result (delete_selected_rows table_name model_name) w = Ret tt /\
  delete_calls (trace (run (delete_selected_rows table_name model_name) w))
    = delete_calls (trace w) ++ [(table_name, model_name)].
Proof.
  unfold delete_selected_rows, result, run.
  cbv beta iota delta [bind modify get].
  match goal with
  | |- context [deleteRows ?t ?ids ?v] =>
      destruct (deleteRows_quiet t ids v) as [Hr Hc]
  end.
  split; [exact Hr|].
  etransitivity; [exact Hc|].
  simpl. rewrite delete_calls_app. reflexivity.
Qed.

Lemma trigger_calls (sl : list (string * string)) (w : World) :
  result (for_each sl (fun s => delete_selected_rows (fst s) (snd s))) w
    = Ret tt /\
  delete_calls
    (trace (run (for_each sl (fun s => delete_selected_rows (fst s) (snd s))) w))
    = delete_calls (trace w) ++ sl.
Proof.
  revert w. induction sl as [|[t m] sl IH]; intros w; simpl.
  - split; [reflexivity|]. unfold run, ret. simpl. symmetry. apply app_nil_r.
  - destruct (delete_selected_rows_calls t m w) as [Hr Hc].
    unfold result, run, bind in *.
    destruct (delete_selected_rows t m w) as [[[]|e] w1]; simpl in *;
      [|discriminate].
    destruct (IH w1) as [Hr1 Hc1]. split; [exact Hr1|].
    rewrite Hc1, Hc, <- app_assoc. reflexivity.
Qed.

Lemma connect_delete_ok (t m : string) (w : World) :
  faults w = [] ->
  connect_delete t m w
  = (Ret tt, set_slots (slots w ++ [(t, m)])
               (set_trace (trace w ++ [EvConnect t m]) w)).
Proof.
  intros Hf. destruct w; simpl in *; subst.
  unfold connect_delete. unfold_prog. reflexivity.
Qed.

Lemma setup_delete_actions_slots (w : World) :
  faults w = [] ->
  slots (run setup_delete_actions w) = slots w ++ delete_slots /\
  slots (run July26.setup_delete_actions w) = slots w ++ delete_slots.
Proof.
  intros Hf. split.
  - unfold run, setup_delete_actions.
    erewrite try_ret_eq.
    2:{ repeat (erewrite bind_ret_eq
                  by (apply try_ret_eq; apply connect_delete_ok; exact Hf)).
        apply try_ret_eq. apply connect_delete_ok. exact Hf. }
    simpl. rewrite <- !app_assoc. reflexivity.
  - unfold run, July26.setup_delete_actions.
    erewrite try_ret_eq.
    2:{ repeat (erewrite bind_ret_eq by (apply connect_delete_ok; exact Hf)).
        apply connect_delete_ok. exact Hf. }
    simpl. rewrite <- !app_assoc. reflexivity.
Qed.

(** C9.  Both copies of the window connect six slots to the one delete
    action, in the order walk, diet, mood, room time, notes, walk notes.
    Every trigger of the action calls the delete routine once per slot,
    in that order, whichever table is on display.  The table arguments
    of the room-time and walk-note slots, [time_in_room_table] and
    [lily_walk_note_table], are not names of tables that the schema setup
    creates. *)
Theorem delete_action_calls_all_six (w : World) :
  (faults w = [] -> slots w = [] ->
   slots (run setup_delete_actions w) = delete_slots /\
   slots (run July26.setup_delete_actions w) = delete_slots) /\
  (slots w = delete_slots ->
   result trigger_action_delete_record w = Ret tt /\
   delete_calls (trace (run trigger_action_delete_record w))
     = delete_calls (trace w) ++ delete_slots) /\
  map fst delete_slots
    = ["lily_walk_table"; "lily_diet_table"; "lily_mood_table";
       "time_in_room_table"; "lily_notes_table"; "lily_walk_note_table"] /\
  option_map table_names (current_db started_store) = Some schema_tables /\
  ~ In "time_in_room_table" schema_tables /\
  ~ In "lily_walk_note_table" schema_tables.
Proof.
  split.
  { intros Hf Hs. destruct (setup_delete_actions_slots w Hf) as [H1 H2].
    rewrite Hs in H1, H2. split; assumption. }
  split.
  { intros Hs. unfold trigger_action_delete_record, result, run.
    unfold bind at 1, get at 1. unfold bind at 1, get at 1. rewrite Hs.
    apply (trigger_calls delete_slots w). }
  split; [reflexivity|].
  split; [vm_compute; reflexivity|].
  split; simpl; intros H;
    repeat (destruct H as [H|H]; try discriminate); contradiction.
Qed.

Lemma delete_action_calls_all_six_witness :
  slots (run setup_delete_actions started_store) = delete_slots
  /\ delete_calls (trace (run trigger_action_delete_record wired_store))
     = delete_calls (trace wired_store) ++ delete_slots.
Proof.
  split.
  - destruct (delete_action_calls_all_six started_store) as (H & _).
    destruct (H ltac:(vm_compute; reflexivity) ltac:(vm_compute; reflexivity))
      as (H1 & _).
    exact H1.
  - destruct (delete_action_calls_all_six wired_store) as (_ & H & _).
    destruct (H ltac:(vm_compute; reflexivity)) as (_ & H2).
    exact H2.
Defined.

(** ** Failures stay where they happen *)

Ltac total_prog :=
  repeat first
    [ apply total_try; intros; apply total_logger_error
    | apply total_bind; [|intros]
    | apply total_ret
    | apply total_logger_error
    | apply total_logger_info ].

Ltac emits_head :=
  first
    [ apply emits_attempt; intros; appends_prog
    | apply emits_bind_l; [emits_head | intros; appends_prog]
    | apply emits_try; [emits_head | intros; appends_prog]
    | progress unfold settings_setValue, settings_value; emits_head ].

Ltac emits_seq :=
  first
    [ solve [emits_head]
    | apply emits_bind_r; [appends_prog | total_prog | intros; emits_seq] ].

Lemma total_save_state ui : total (save_state ui).
Proof. unfold save_state. total_prog. Qed.

Lemma total_restore_state : total restore_state.
Proof. unfold restore_state. total_prog. Qed.

Lemma save_state_attempts_every_key (ui : Widgets) (k : string) :
  In k save_keys -> emits (EvSetValue k) (save_state ui).
Proof.
  unfold save_keys. simpl.
  intros [<-|[<-|[<-|[<-|[<-|[<-|[<-|[<-|[<-|[<-|[]]]]]]]]]]];
    unfold save_state; emits_seq.
Qed.

Lemma restore_state_attempts_every_key (k : string) :
  In k restore_keys -> emits (EvGetValue k) restore_state.
Proof.
  unfold restore_keys. simpl.
  intros [<-|[<-|[<-|[<-|[<-|[<-|[<-|[<-|[<-|[<-|[<-|[]]]]]]]]]]]];
    unfold restore_state; emits_seq.
Qed.

Lemma create_step_no_raise (sql msg : string) (w : World) :
  ~ In Raises (faults w) ->
  exists w',
    (ok <- query_exec_sql sql ;;
     if negb ok then logger_error msg else ret tt) w = (Ret tt, w') /\
    trace w' = trace w ++ [EvExecSql sql] /\
    ~ In Raises (faults w').
Proof.
  intros Hn. destruct w as [fs cn co q st sl md se lg tr fl]. simpl in Hn.
  unfold query_exec_sql. unfold_prog.
  destruct fl as [|f fl]; [|destruct f]; simpl in *.
  - destruct co; simpl;
      [destruct (fs !! cn) as [db|]; simpl;
       [destruct (compile sql) as [s|]; simpl;
        [destruct (run_stmt s [] db); simpl|]|]|];
      eexists; (split; [reflexivity|]); simpl; auto.
  - destruct co; simpl;
      [destruct (fs !! cn) as [db|]; simpl;
       [destruct (compile sql) as [s|]; simpl;
        [destruct (run_stmt s [] db); simpl|]|]|];
      eexists; (split; [reflexivity|]); simpl; split; auto.
  - eexists. split; [reflexivity|]. simpl. split; auto.
  - exfalso. apply Hn. left. reflexivity.
Qed.

Lemma setup_tables_attempts_all (w : World) :
  ~ In Raises (faults w) ->
  result setup_tables w = Ret tt /\
  trace (run setup_tables w) = trace w ++ map EvExecSql schema_statements.
Proof.
  intros H0. unfold result, run, setup_tables.
  destruct (create_step_no_raise create_lily_diet_table
              "Error creating table: lily_diet_table" w H0)
    as (w1 & E1 & T1 & H1).
  destruct (create_step_no_raise create_lily_mood_table
              "Error creating table: lily_mood_table" w1 H1)
    as (w2 & E2 & T2 & H2).
  destruct (create_step_no_raise create_lily_walk_table
              "Error creating table: lily_walk_table" w2 H2)
    as (w3 & E3 & T3 & H3).
  destruct (create_step_no_raise create_lily_in_room_table
              "Error creating table: lily_in_room_table" w3 H3)
    as (w4 & E4 & T4 & H4).
  destruct (create_step_no_raise create_lily_notes_table
              "Error creating table: lily_notes_table" w4 H4)
    as (w5 & E5 & T5 & H5).
  destruct (create_step_no_raise create_lily_walk_notes_table
              "Error creating table: lily_walk_notes_table" w5 H5)
    as (w6 & E6 & T6 & H6).
  rewrite (bind_ret_eq setup_lily_diet_table _ w w1 tt E1).
  rewrite (bind_ret_eq setup_lily_mood_table _ w1 w2 tt E2).
  rewrite (bind_ret_eq setup_wiggles_walks_table _ w2 w3 tt E3).
  rewrite (bind_ret_eq setup_time_in_room_table _ w3 w4 tt E4).
  rewrite (bind_ret_eq setup_lily_notes_table _ w4 w5 tt E5).
  change (setup_lily_walk_notes_table w5) with
    ((ok <- query_exec_sql create_lily_walk_notes_table ;;
      if negb ok then logger_error "Error creating table: lily_walk_notes_table"
      else ret tt) w5).
  rewrite E6. simpl. split; [reflexivity|].
  rewrite T6, T5, T4, T3, T2, T1. unfold schema_statements. simpl.
  rewrite <- !app_assoc. reflexivity.
Qed.

(** A table whose creation the driver reports as failed is logged, and
    the call returns normally. *)
Lemma setup_lily_diet_table_failure_logged (w : World) (fl : list Fault) :
  faults w = Fails :: fl ->
  result setup_lily_diet_table w = Ret tt /\
  log (run setup_lily_diet_table w)
    = log w ++ [(ERROR, "Error creating table: lily_diet_table")].
Proof.
  intros Hf. destruct w; simpl in *; subst.
  unfold setup_lily_diet_table, query_exec_sql. unfold_prog.
  split; reflexivity.
Qed.

Lemma total_initialize_database a b : total (initialize_database a b).
Proof. unfold initialize_database. total_prog. Qed.

Lemma total_DataManager_init n : total (DataManager_init n).
Proof. unfold DataManager_init. total_prog. Qed.

Lemma later_insert_attempted (label sql : string) (binds : list SqlValue)
    (label' sql' : string) (binds' : list SqlValue) :
  emits (EvPrepare sql')
    (insert_statement label sql binds ;; insert_statement label' sql' binds').
Proof.
  apply emits_bind_r.
  - apply appends_insert_statement.
  - apply total_insert_statement.
  - intros _. unfold insert_statement, insert_attempt.
    apply emits_try; [|intros; appends_prog].
    apply emits_bind_l; [|intros; appends_prog].
    unfold query_prepare. apply emits_attempt. intros; appends_prog.
Qed.

(** *** Every exception is answered by an error line *)

Lemma raised_app (a b : list Fault) :
  raised (a ++ b) = (raised a + raised b)%nat.
Proof.
  induction a as [|[] a IH]; simpl; rewrite ?IH; reflexivity.
Qed.

Lemma error_lines_app (a b : list (Level * string)) :
  error_lines (a ++ b) = (error_lines a + error_lines b)%nat.
Proof.
  induction a as [|[[] m] a IH]; simpl; rewrite ?IH; reflexivity.
Qed.

Lemma accounts_ret {A} (a : A) : accounts (ret a).
Proof.
  intros w. exists [], []. simpl. rewrite app_nil_r. repeat split. lia.
Qed.

Lemma accounts_raise {A} (e : exn) : accounts (@raise A e).
Proof.
  intros w. exists [], []. simpl. rewrite app_nil_r. repeat split. lia.
Qed.

Lemma accounts_get {A} (f : World -> A) : accounts (get f).
Proof.
  intros w. exists [], []. simpl. rewrite app_nil_r. repeat split. lia.
Qed.

Lemma accounts_modify (f : World -> World) :
  (forall w, faults (f w) = faults w /\ log (f w) = log w) ->
  accounts (modify f).
Proof.
  intros H w. exists [], []. unfold run, result, modify. simpl.
  destruct (H w) as [H1 H2]. rewrite H1, H2, app_nil_r. repeat split. lia.
Qed.

Lemma accounts_logger_error msg : accounts (logger_error msg).
Proof.
  intros w. exists [], [(ERROR, msg)]. simpl. repeat split. lia.
Qed.

Lemma accounts_logger_info msg : accounts (logger_info msg).
Proof.
  intros w. exists [], [(INFO, msg)]. simpl. repeat split. lia.
Qed.

Lemma accounts_bind {A B} (m : M A) (k : A -> M B) :
  accounts m -> (forall a, accounts (k a)) -> accounts (bind m k).
Proof.
  intros Hm Hk w. destruct (Hm w) as (u1 & a1 & F1 & L1 & N1).
  unfold run, result, bind in *. destruct (m w) as [[a|e] w1]; simpl in *.
  - destruct (Hk a w1) as (u2 & a2 & F2 & L2 & N2). unfold run, result in *.
    exists (u1 ++ u2), (a1 ++ a2).
    split; [rewrite <- app_assoc, <- F2; exact F1|].
    split; [rewrite L2, L1, app_assoc; reflexivity|].
    rewrite raised_app, error_lines_app. lia.
  - exists u1, a1. repeat split; assumption.
Qed.

Lemma accounts_try {A} (m : M A) (h : exn -> M A) :
  accounts m -> logs_it h -> accounts (try_except m h).
Proof.
  intros Hm Hh w. destruct (Hm w) as (u1 & a1 & F1 & L1 & N1).
  unfold run, result, try_except in *. destruct (m w) as [[a|e] w1]; simpl in *.
  - exists u1, a1. repeat split; assumption.
  - destruct (Hh e w1) as (msg & a & E). rewrite E. simpl.
    exists u1, (a1 ++ [(ERROR, msg)]).
    split; [exact F1|].
    split; [rewrite L1, app_assoc; reflexivity|].
    rewrite error_lines_app. simpl. lia.
Qed.

Lemma accounts_for_each {A} (l : list A) (f : A -> M unit) :
  (forall x, accounts (f x)) -> accounts (for_each l f).
Proof.
  intros Hf. induction l as [|x l IH]; simpl.
  - apply accounts_ret.
  - apply accounts_bind; [apply Hf | intros _; exact IH].
Qed.

(** A call into the environment that raises when the environment says
    so. *)
Lemma accounts_attempt {A} (ev : Event) (k : Fault -> M A) :
  (forall w, exists e, k Raises w = (Raise e, w)) ->
  accounts (k NoFault) -> accounts (k Fails) ->
  accounts (bind (attempt ev) k).
Proof.
  intros Hr Hn Hf w. unfold run, result, bind, attempt.
  destruct (faults w) as [|f fl] eqn:E.
  - destruct (Hn (set_trace (trace w ++ [ev]) w)) as (u & a & F & L & N).
    unfold run, result in *. simpl in F, L. rewrite E in F.
    exists u, a. repeat split; assumption.
  - destruct f.
    + destruct (Hn (set_faults fl (set_trace (trace w ++ [ev]) w)))
        as (u & a & F & L & N).
      unfold run, result in *. simpl in F, L.
      exists (NoFault :: u), a. simpl. rewrite <- F. repeat split; assumption.
    + destruct (Hf (set_faults fl (set_trace (trace w ++ [ev]) w)))
        as (u & a & F & L & N).
      unfold run, result in *. simpl in F, L.
      exists (Fails :: u), a. simpl. rewrite <- F. repeat split; assumption.
    + destruct (Hr (set_faults fl (set_trace (trace w ++ [ev]) w))) as [e Ee].
      rewrite Ee. simpl. exists [Raises], []. simpl.
      rewrite app_nil_r. repeat split. lia.
Qed.

Ltac accounts_step :=
  match goal with
  | |- accounts (bind (attempt _) _) =>
      apply accounts_attempt;
      [ intros; eexists; reflexivity | cbv beta iota | cbv beta iota ]
  | |- accounts (bind _ _) => apply accounts_bind
  | |- accounts (try_except _ _) =>
      apply accounts_try;
      [ | let e := fresh "e" in
          let w := fresh "w" in
          intros e w; try destruct e; do 2 eexists; reflexivity ]
  | |- accounts (ret _) => apply accounts_ret
  | |- accounts (raise _) => apply accounts_raise
  | |- accounts (get _) => apply accounts_get
  | |- accounts (modify _) => apply accounts_modify; intros; split; reflexivity
  | |- accounts (logger_error _) => apply accounts_logger_error
  | |- accounts (logger_info _) => apply accounts_logger_info
  | |- accounts (for_each _ _) => apply accounts_for_each
  | |- accounts (match ?x with _ => _ end) => destruct x
  | |- forall _, _ => intro
  end.

Ltac accounts_prog :=
  unfold insert_statement, insert_attempt, close_database,
    initialize_database, DataManager_init, setup_tables,
    setup_lily_diet_table, setup_lily_mood_table, setup_wiggles_walks_table,
    setup_time_in_room_table, setup_lily_notes_table,
    setup_lily_walk_notes_table, save_state, restore_state;
  unfold query_prepare, query_addBindValue, query_exec, query_exec_sql,
    db_addDatabase, db_open, db_isOpen, db_close, new_query, os_path_exists,
    shutil_copy, settings_setValue, settings_value, slider_setValue,
    text_setHtml, restore_bytes;
  repeat accounts_step.

Lemma accounts_emit (ev : Event) :
  accounts (fun w => (Ret tt, set_trace (trace w ++ [ev]) w)).
Proof.
  intros w. exists [], []. simpl. rewrite app_nil_r. repeat split. lia.
Qed.

Lemma logs_exceptions_of {A} (m : M A) :
  accounts m -> total m -> logs_exceptions m.
Proof.
  intros Ha Ht w. destruct (Ha w) as (u & a & F & L & N).
  destruct (Ht w) as [x Hx]. rewrite Hx in N.
  exists u, a. repeat split; [exact F | exact L | lia].
Qed.

Lemma accounts_insert_statement label sql binds :
  accounts (insert_statement label sql binds).
Proof. accounts_prog. Qed.

Lemma accounts_close_database : accounts close_database.
Proof. accounts_prog. Qed.

Lemma accounts_initialize_database a b : accounts (initialize_database a b).
Proof. accounts_prog. Qed.

Lemma accounts_setup_tables : accounts setup_tables.
Proof. accounts_prog. Qed.

Lemma accounts_DataManager_init n : accounts (DataManager_init n).
Proof. accounts_prog. Qed.

Lemma accounts_save_state ui : accounts (save_state ui).
Proof. accounts_prog. Qed.

Lemma accounts_restore_state : accounts restore_state.
Proof.
  accounts_prog;
    try (apply accounts_emit).
Qed.

(** *** A failure reported through a result is logged *)

Lemma schema_setup_failure_logged (m : M unit) (msg : string) (w : World)
    (fl : list Fault) :
  In (m, msg) schema_setups ->
  faults w = Fails :: fl ->
  result m w = Ret tt /\ log (run m w) = log w ++ [(ERROR, msg)].
Proof.
  intros Hin Hf. destruct w; simpl in Hf; subst.
  unfold schema_setups in Hin. simpl in Hin.
  repeat (destruct Hin as [Hin|Hin];
          [ inversion Hin; subst; clear Hin;
            unfold setup_lily_diet_table, setup_lily_mood_table,
              setup_wiggles_walks_table, setup_time_in_room_table,
              setup_lily_notes_table, setup_lily_walk_notes_table,
              query_exec_sql;
            unfold_prog; split; reflexivity | ]).
  contradiction.
Qed.

(** What the calls before [exec()] leave when none of them meets a
    fault: the faults after them, the log and the engine's error text as
    they were. *)
Lemma query_prepare_quiet (sql : string) (w : World) (fl : list Fault) :
  faults w = NoFault :: fl ->
  exists b w1,
    query_prepare sql w = (Ret b, w1) /\
    faults w1 = fl /\ log w1 = log w /\ engine_error w1 = engine_error w.
Proof.
  intros Hf. destruct w as [fi cn co q st sl mo se lg tr fs sk ee].
  simpl in Hf. subst.
  unfold query_prepare. unfold_prog.
  destruct co; simpl;
    [destruct (fi !! cn) as [db|]; simpl;
     [destruct (compile sql) as [s|]; simpl;
      [destruct (valid_stmt s db); simpl|]|]|];
    do 2 eexists; (split; [reflexivity|]); repeat split.
Qed.

Lemma add_bind_quiet (v : SqlValue) (w : World) (fl : list Fault) :
  faults w = NoFault :: fl ->
  exists w1,
    query_addBindValue v w = (Ret tt, w1) /\
    faults w1 = fl /\ log w1 = log w /\ engine_error w1 = engine_error w.
Proof.
  intros Hf. destruct w as [fi cn co q st sl mo se lg tr fs sk ee].
  simpl in Hf. subst. unfold query_addBindValue. unfold_prog.
  eexists. split; [reflexivity|]. repeat split.
Qed.

Lemma bind_values_quiet (binds : list SqlValue) (w : World) (fl : list Fault) :
  faults w = repeat NoFault (length binds) ++ fl ->
  exists w1,
    for_each binds query_addBindValue w = (Ret tt, w1) /\
    faults w1 = fl /\ log w1 = log w /\ engine_error w1 = engine_error w.
Proof.
  revert w. induction binds as [|v binds IH]; intros w Hf; simpl in *.
  - exists w. repeat split. exact Hf.
  - destruct (add_bind_quiet v w _ Hf) as (w1 & E1 & F1 & L1 & G1).
    destruct (IH w1 F1) as (w2 & E2 & F2 & L2 & G2).
    exists w2. rewrite (bind_ret_eq _ _ _ _ _ E1).
    repeat split; try assumption; congruence.
Qed.

Lemma query_exec_fails (w : World) (fl : list Fault) :
  faults w = Fails :: fl ->
  exists w1,
    query_exec w = (Ret false, w1) /\
    q_error (query w1) = engine_error w /\ log w1 = log w /\ faults w1 = fl.
Proof.
  intros Hf. destruct w as [fi cn co q st sl mo se lg tr fs sk ee].
  simpl in Hf. subst. unfold query_exec. unfold_prog.
  eexists. split; [reflexivity|]. repeat split.
Qed.

Lemma insert_exec_failure_logged (label sql : string) (binds : list SqlValue)
    (w : World) (fl : list Fault) :
  count_char "?" sql = length binds ->
  faults w = repeat NoFault (S (length binds)) ++ Fails :: fl ->
  result (insert_statement label sql binds) w = Ret tt /\
  log (run (insert_statement label sql binds) w)
    = log w ++ [(ERROR, "Error inserting data: " +:+ label +:+ " - "
                        +:+ engine_error w)].
Proof.
  intros Hn Hf. simpl in Hf.
  destruct (query_prepare_quiet sql w _ Hf) as (b & w1 & E1 & F1 & L1 & G1).
  destruct (bind_values_quiet binds w1 _ F1) as (w2 & E2 & F2 & L2 & G2).
  destruct (query_exec_fails w2 fl F2) as (w3 & E3 & Q3 & L3 & F3).
  unfold result, run, insert_statement, insert_attempt, try_except.
  rewrite (bind_ret_eq _ _ _ _ _ E1), (bind_ret_eq _ _ _ _ _ E2).
  rewrite Hn, Nat.eqb_refl. simpl negb. cbv iota.
  erewrite bind_ret_eq by reflexivity.
  rewrite (bind_ret_eq _ _ _ _ _ E3). simpl negb. cbv iota.
  unfold bind, get, logger_error. simpl.
  rewrite Q3, L3, L2, L1, G2, G1. split; reflexivity.
Qed.

Lemma try_bind_ret_eq {A B} (m : M A) (k : A -> M B) (h : exn -> M B)
    (w w1 : World) (a : A) :
  m w = (Ret a, w1) -> try_except (bind m k) h w = try_except (k a) h w1.
Proof. intros H. unfold try_except, bind. rewrite H. reflexivity. Qed.

Lemma open_failure_logged (db_name : string) (w : World) (fl : list Fault) :
  faults w = Fails :: fl ->
  In (ERROR, "Error: Unable to open database")
     (log (run (DataManager_init db_name) w)).
Proof.
  intros Hf.
  pose (w1 := set_log (log w ++ [(ERROR, "Error: Unable to open database")])
                (set_faults fl
                   (set_trace (trace w ++ [EvOpen db_name])
                      (set_conn db_name false w)))).
  assert (E : DataManager_init db_name w
              = try_except (logger_info "DB INITIALIZING" ;; new_query ;;
                            setup_tables)
                  (fun e => logger_error ("Error: Unable to open database "
                                          +:+ exn_text e)) w1).
  { destruct w; simpl in Hf; subst.
    unfold DataManager_init, try_except, w1. unfold_prog. reflexivity. }
  assert (Ha : accounts
                 (try_except (logger_info "DB INITIALIZING" ;; new_query ;;
                              setup_tables)
                    (fun e => logger_error ("Error: Unable to open database "
                                            +:+ exn_text e)))).
  { accounts_prog. }
  destruct (Ha w1) as (u & a & _ & L & _).
  unfold run in *. rewrite E, L. unfold w1. simpl.
  apply in_or_app. left. apply in_or_app. right. left. reflexivity.
Qed.

(** C6, as the code has it.  No exception leaves an insert method,
    [close_database], [save_state], [restore_state], [initialize_database]
    or the construction of the [DataManager], whatever the environment
    does: each of them answers every exception raised inside it with an
    error line in the log, and an insert that failed does not keep the
    next one from being attempted.  [save_state] attempts the write of
    each of its first nine keys and of [geometry], and [restore_state]
    the read of each of its eleven keys, whatever happened to the other
    keys.  A failure that the driver reports through a result is logged
    as well: a table that could not be created with the message of that
    table, an insert that could not be executed with the label of its
    method and the driver's error text, a database that could not be
    opened.  As long as no call raises, all six table statements are
    sent. *)
Theorem failures_are_contained :
  (forall d t n, total (insert_into_lily_notes_table d t n)) /\
  (forall d t v, total (insert_into_time_in_room_table d t v)) /\
  (forall d t, total (insert_into_lily_diet_table d t)) /\
  (forall d t m a e, total (insert_into_lily_mood_table d t m a e)) /\
  (forall d t b g, total (insert_into_wiggles_walks_table d t b g)) /\
  (forall d t n, total (insert_into_lily_walk_notes_table d t n)) /\
  (forall label sql binds label' sql' binds',
     emits (EvPrepare sql')
       (insert_statement label sql binds ;;
        insert_statement label' sql' binds')) /\
  total close_database /\
  (forall a b, total (initialize_database a b)) /\
  (forall n, total (DataManager_init n)) /\
  (forall ui, total (save_state ui)) /\
  total restore_state /\
  (forall ui k, In k save_keys -> emits (EvSetValue k) (save_state ui)) /\
  (forall k, In k restore_keys -> emits (EvGetValue k) restore_state) /\
  (forall w fl, faults w = Fails :: fl ->
     result setup_lily_diet_table w = Ret tt /\
     log (run setup_lily_diet_table w)
       = log w ++ [(ERROR, "Error creating table: lily_diet_table")]) /\
  (forall w, ~ In Raises (faults w) ->
     result setup_tables w = Ret tt /\
     trace (run setup_tables w) = trace w ++ map EvExecSql schema_statements) /\
  (forall d t n, logs_exceptions (insert_into_lily_notes_table d t n)) /\
  (forall d t v, logs_exceptions (insert_into_time_in_room_table d t v)) /\
  (forall d t, logs_exceptions (insert_into_lily_diet_table d t)) /\
  (forall d t m a e, logs_exceptions (insert_into_lily_mood_table d t m a e)) /\
  (forall d t b g, logs_exceptions (insert_into_wiggles_walks_table d t b g)) /\
  (forall d t n, logs_exceptions (insert_into_lily_walk_notes_table d t n)) /\
  logs_exceptions close_database /\
  (forall a b, logs_exceptions (initialize_database a b)) /\
  (forall n, logs_exceptions (DataManager_init n)) /\
  (forall ui, logs_exceptions (save_state ui)) /\
  logs_exceptions restore_state /\
  (forall m msg w fl, In (m, msg) schema_setups -> faults w = Fails :: fl ->
     result m w = Ret tt /\ log (run m w) = log w ++ [(ERROR, msg)]) /\
  (forall label sql binds w fl,
     count_char "?" sql = length binds ->
     faults w = repeat NoFault (S (length binds)) ++ Fails :: fl ->
     result (insert_statement label sql binds) w = Ret tt /\
     log (run (insert_statement label sql binds) w)
       = log w ++ [(ERROR, "Error inserting data: " +:+ label +:+ " - "
                           +:+ engine_error w)]) /\
  (forall n w fl, faults w = Fails :: fl ->
     In (ERROR, "Error: Unable to open database")
        (log (run (DataManager_init n) w))).
Proof.
  repeat match goal with |- _ /\ _ => split end.
  1-6: intros; apply total_insert_statement.
  - apply later_insert_attempted.
  - apply total_close_database.
  - apply total_initialize_database.
  - apply total_DataManager_init.
  - apply total_save_state.
  - apply total_restore_state.
  - apply save_state_attempts_every_key.
  - apply restore_state_attempts_every_key.
  - apply setup_lily_diet_table_failure_logged.
  - apply setup_tables_attempts_all.
  - intros. apply logs_exceptions_of;
      [apply accounts_insert_statement | apply total_insert_statement].
  - intros. apply logs_exceptions_of;
      [apply accounts_insert_statement | apply total_insert_statement].
  - intros. apply logs_exceptions_of;
      [apply accounts_insert_statement | apply total_insert_statement].
  - intros. apply logs_exceptions_of;
      [apply accounts_insert_statement | apply total_insert_statement].
  - intros. apply logs_exceptions_of;
      [apply accounts_insert_statement | apply total_insert_statement].
  - intros. apply logs_exceptions_of;
      [apply accounts_insert_statement | apply total_insert_statement].
  - apply logs_exceptions_of;
      [apply accounts_close_database | apply total_close_database].
  - intros. apply logs_exceptions_of;
      [apply accounts_initialize_database | apply total_initialize_database].
  - intros. apply logs_exceptions_of;
      [apply accounts_DataManager_init | apply total_DataManager_init].
  - intros. apply logs_exceptions_of;
      [apply accounts_save_state | apply total_save_state].
  - apply logs_exceptions_of;
      [apply accounts_restore_state | apply total_restore_state].
  - intros m msg w fl Hin Hf.
    apply (schema_setup_failure_logged m msg w fl Hin Hf).
  - intros label sql binds w fl Hn Hf.
    apply (insert_exec_failure_logged label sql binds w fl Hn Hf).
  - apply open_failure_logged.
Qed.

Lemma failures_are_contained_witness :
  trace (run setup_tables flaky_store)
    = trace flaky_store ++ map EvExecSql schema_statements
  /\ log (run setup_lily_mood_table flaky_store)
     = log flaky_store ++ [(ERROR, "Error creating table: lily_mood_table")]
  /\ log (run (insert_into_lily_diet_table "2024-01-01" "08:00") failing_exec_store)
     = log failing_exec_store
       ++ [(ERROR, "Error inserting data: lily_eats_table - disk I/O error")].
Proof.
  pose proof failures_are_contained as H'.
  do 15 (destruct H' as [_ H']). destruct H' as [H1 H'].
  do 11 (destruct H' as [_ H']). destruct H' as [H2 [H3 _]].
  split; [|split].
  - apply (H1 flaky_store).
    vm_compute. intros K. repeat (destruct K as [K|K]; try discriminate).
    contradiction.
  - apply (H2 setup_lily_mood_table "Error creating table: lily_mood_table"
             flaky_store [NoFault; Fails]);
      [right; left; reflexivity | reflexivity].
  - apply (H3 "lily_eats_table" insert_lily_diet_sql
             [SqlText "2024-01-01"; SqlText "08:00"] failing_exec_store []);
      [vm_compute; reflexivity | reflexivity].
Defined.

(** C6 as stated fails for schema creation and for the page index: an
    exception raised while the diet table is set up leaves
    [setup_lily_diet_table] and [setup_tables], so that the other five
    tables are never attempted; an exception raised while the page index
    is written leaves [on_page_changed]. *)
Lemma exception_leaves_schema_creation :
  result setup_lily_diet_table raising_store = Raise (TypeError "exec") /\
  result setup_tables raising_store = Raise (TypeError "exec") /\
  trace (run setup_tables raising_store)
    = trace raising_store ++ [EvExecSql create_lily_diet_table] /\
  ~ In (EvExecSql create_lily_mood_table)
       (trace (run setup_tables raising_store)) /\
  result (on_page_changed 1) raising_store = Raise (TypeError "setValue").
Proof.
  split; [vm_compute; reflexivity|].
  split; [vm_compute; reflexivity|].
  assert (E : trace (run setup_tables raising_store)
              = trace raising_store ++ [EvExecSql create_lily_diet_table])
    by (vm_compute; reflexivity).
  split; [exact E|]. split; [|vm_compute; reflexivity].
  rewrite E. vm_compute. intros K.
  repeat (destruct K as [K|K]; try discriminate). contradiction.
Qed.

(** The last [try] of [save_state] holds two writes: when the write of
    [geometry] raises, the write of [windowState] is not attempted. *)
Lemma save_state_geometry_failure_skips_windowState :
  result (save_state some_widgets) geometry_raising_store = Ret tt /\
  In (EvSetValue "geometry")
     (trace (run (save_state some_widgets) geometry_raising_store)) /\
  ~ In (EvSetValue "windowState")
       (trace (run (save_state some_widgets) geometry_raising_store)).
Proof.
  split; [vm_compute; reflexivity|].
  split.
  - vm_compute. do 10 right. left. reflexivity.
  - vm_compute. intros K.
    repeat (destruct K as [K|K]; try discriminate). contradiction.
Qed.

(** * More of the record store and of the window *)

(** ** Inserting into the other tables *)

Lemma find_table_update_other (n m : string) (t' : Table) (db : Database) :
  m <> n -> find_table m (update_table n t' db) = find_table m db.
Proof.
  intros Hne. induction db as [|[k x] db IH]; simpl; [reflexivity|].
  destruct (String.eqb_spec k n) as [->|Hkn]; simpl.
  - destruct (String.eqb_spec n m) as [->|_]; [contradiction | reflexivity].
  - destruct (String.eqb k m); [reflexivity | exact IH].
Qed.

Lemma columns_all_present (cols : list string) :
  forallb (fun c => existsb (fun k => String.eqb k c) cols) cols = true.
Proof.
  apply forallb_forall. intros c Hc. apply existsb_exists.
  exists c. split; [exact Hc | apply String.eqb_refl].
Qed.

Lemma max_rowid_nonneg (t : Table) : 0 <= max_rowid t.
Proof.
  unfold max_rowid. induction (t_rows t) as [|r l IH]; simpl; lia.
Qed.

Lemma fold_max_base (l : list (Z * list SqlValue)) (b : Z) :
  0 <= b ->
  fold_right (fun r m => Z.max (fst r) m) b l
  = Z.max (fold_right (fun r m => Z.max (fst r) m) 0 l) b.
Proof.
  intros Hb. induction l as [|r l IH]; simpl; [lia|]. rewrite IH. lia.
Qed.

(** The table an insert leaves: the same columns, the new row at the
    end, and the next identity one further. *)
Lemma insert_row_table (t t' : Table) (cols : list string) (vals : list SqlValue) :
  insert_row t cols vals = Some t' ->
  t_cols t' = t_cols t /\
  t_rows t' = t_rows t ++ [(next_id t, new_row t cols vals)] /\
  next_id t' = next_id t + 1.
Proof.
  unfold insert_row. destruct (exhausted t); [discriminate|].
  intros [= <-]. simpl. split; [reflexivity|]. split; [reflexivity|].
  pose proof (max_rowid_nonneg t) as Hm.
  unfold next_id at 1. cbn [t_seq]. unfold max_rowid at 1. cbn [t_rows].
  rewrite fold_right_app. cbn [fold_right fst].
  rewrite fold_max_base; fold (max_rowid t); unfold next_id; lia.
Qed.

(** An insert of a full row into a usable store whose table has an
    identity left. *)
Lemma insert_full_row (label sql name : string) (cols : list string)
    (binds : list SqlValue) (w : World) (db : Database) (t : Table) :
  ready w db ->
  compile sql = Some (InsertInto name cols (length binds)) ->
  count_char "?" sql = length binds ->
  length cols = length binds ->
  find_table name db = Some t ->
  map fst (t_cols t) = cols ->
  exhausted t = false ->
  exists w' t',
    insert_statement label sql binds w = (Ret tt, w') /\
    insert_row t cols binds = Some t' /\
    ready w' (update_table name t' db) /\
    log w' = log w /\
    conn_name w' = conn_name w /\
    stored_rows name w'
      = Some (t_rows t ++ [(next_id t, new_row t cols binds)]) /\
    (forall m, m <> name -> stored_rows m w' = stored_rows m w).
Proof.
  intros Hr Hc Hn Hl Ht Hcols Hx.
  assert (Hv : valid_stmt (InsertInto name cols (length binds)) db = true).
  { unfold valid_stmt. rewrite Ht, forallb_has_column, Hcols.
    rewrite columns_all_present, Hl, Nat.eqb_refl. reflexivity. }
  pose proof (insert_row_some t cols binds Hx) as Hi.
  assert (Hrun : run_stmt (InsertInto name cols (length binds)) binds db
                 = Some (update_table name
                           {| t_id := t_id t; t_cols := t_cols t;
                              t_rows := t_rows t
                                        ++ [(next_id t, new_row t cols binds)];
                              t_seq := next_id t |} db)).
  { unfold run_stmt. rewrite Hv, Nat.eqb_refl, Ht, Hi. reflexivity. }
  destruct (insert_statement_runs label sql name cols binds w db _ Hr Hc Hn Hv Hrun)
    as (w' & E & Hr' & Hf & Hcn & Hlog & Htr).
  exists w'. eexists. split; [exact E|]. split; [exact Hi|].
  split; [exact Hr'|]. split; [exact Hlog|]. split; [exact Hcn|].
  pose proof Hr as (_ & Ho & Hdb). pose proof Hr' as (_ & Ho' & Hdb').
  split.
  - unfold stored_rows, current_db. rewrite Ho', Hdb'.
    rewrite (find_table_update _ t _ _ Ht). reflexivity.
  - intros m Hm. unfold stored_rows, current_db. rewrite Ho', Hdb', Ho, Hdb.
    rewrite (find_table_update_other name m _ db Hm). reflexivity.
Qed.


















(** ** Inserts the store cannot take *)

Lemma query_prepare_refused (sql name : string) (cols : list string)
    (w : World) :
  faults w = [] ->
  compile sql = Some (InsertInto name cols (length cols)) ->
  refuses w name cols ->
  query_prepare sql w =
    (Ret false, set_query {| q_stmt := None; q_binds := [];
                             q_error := engine_error w |}
                  (set_trace (trace w ++ [EvPrepare sql]) w)).
Proof.
  intros Hf Hc Hr.
  destruct w as [fs cn co q st sl md se lg tr fl sk ee].
  simpl in Hf. subst fl.
  unfold refuses, current_db in Hr.
  cbv beta iota delta [conn_open files conn_name] in Hr.
  unfold query_prepare. unfold_prog. rewrite Hc.
  destruct co; [|reflexivity].
  destruct (fs !! cn) as [db|]; [|reflexivity].
  rewrite Hr. reflexivity.
Qed.

(** The driver gives up on a query whose statement was not accepted as
    soon as a value is bound to it. *)
Lemma query_exec_unprepared (w : World) :
  faults w = [] -> q_stmt (query w) = None -> q_binds (query w) <> [] ->
  query_exec w
  = (Ret false, set_error "Parameter count mismatch"
                  (set_trace (trace w ++ [EvExec]) w)).
Proof.
  intros Hf Hq Hb.
  destruct w as [fs cn co [qs qb qe] st sl md se lg tr fl sk ee];
    simpl in *; subst.
  destruct qb as [|v qb]; [contradiction|].
  reflexivity.
Qed.

Lemma insert_statement_refused (label sql name : string) (cols : list string)
    (binds : list SqlValue) (w : World) :
  faults w = [] ->
  compile sql = Some (InsertInto name cols (length cols)) ->
  count_char "?" sql = length binds ->
  binds <> [] ->
  refuses w name cols ->
  result (insert_statement label sql binds) w = Ret tt /\
  files (run (insert_statement label sql binds) w) = files w /\
  log (run (insert_statement label sql binds) w)
    = log w ++ [(ERROR, "Error inserting data: " +:+ label
                        +:+ " - Parameter count mismatch")].
Proof.
  intros Hf Hc Hn Hb Hr.
  assert (E : exists w',
    insert_statement label sql binds w = (Ret tt, w') /\
    files w' = files w /\
    log w' = log w ++ [(ERROR, "Error inserting data: " +:+ label
                               +:+ " - Parameter count mismatch")]).
  { eexists. split.
    - unfold insert_statement. apply try_ret_eq. unfold insert_attempt.
      erewrite bind_ret_eq by (eapply query_prepare_refused; eassumption).
      erewrite bind_ret_eq by (apply bind_values_ok; exact Hf).
      rewrite Hn, Nat.eqb_refl. simpl negb. cbv iota.
      erewrite bind_ret_eq by reflexivity.
      erewrite bind_ret_eq
        by (apply query_exec_unprepared; [exact Hf | reflexivity | exact Hb]).
      reflexivity.
    - split; reflexivity. }
  destruct E as (w' & E & Hfl & Hl).
  unfold result, run. rewrite E. simpl. auto.
Qed.

(** X7.  With the environment behaving, an insert the store cannot take
    (no open connection on a file, or no such table or column in the
    database) returns normally, leaves the files as they were and logs
    one error: the method's label followed by the text of the query's
    last error, which is the driver's [Parameter count mismatch] because
    values were bound to a statement that was not accepted; the diet
    method logs under [lily_eats_table]. *)
Theorem refused_inserts_are_logged (w : World) :
  faults w = [] ->
  (forall d t n, refuses w "lily_notes_table" notes_columns ->
     result (insert_into_lily_notes_table d t n) w = Ret tt /\
     files (run (insert_into_lily_notes_table d t n) w) = files w /\
     log (run (insert_into_lily_notes_table d t n) w)
       = log w ++ [(ERROR, "Error inserting data: lily_notes_table - Parameter count mismatch")]) /\
  (forall d t v, refuses w "lily_in_room_table" room_columns ->
     result (insert_into_time_in_room_table d t v) w = Ret tt /\
     files (run (insert_into_time_in_room_table d t v) w) = files w /\
     log (run (insert_into_time_in_room_table d t v) w)
       = log w ++ [(ERROR, "Error inserting data: lily_in_room_table - Parameter count mismatch")]) /\
  (forall d t, refuses w "lily_diet_table" diet_columns ->
     result (insert_into_lily_diet_table d t) w = Ret tt /\
     files (run (insert_into_lily_diet_table d t) w) = files w /\
     log (run (insert_into_lily_diet_table d t) w)
       = log w ++ [(ERROR, "Error inserting data: lily_eats_table - Parameter count mismatch")]) /\
  (forall d t m a e, refuses w "lily_mood_table" mood_columns ->
     result (insert_into_lily_mood_table d t m a e) w = Ret tt /\
     files (run (insert_into_lily_mood_table d t m a e) w) = files w /\
     log (run (insert_into_lily_mood_table d t m a e) w)
       = log w ++ [(ERROR, "Error inserting data: lily_mood_table - Parameter count mismatch")]) /\
  (forall d t b g, refuses w "lily_walk_table" walk_columns ->
     result (insert_into_wiggles_walks_table d t b g) w = Ret tt /\
     files (run (insert_into_wiggles_walks_table d t b g) w) = files w /\
     log (run (insert_into_wiggles_walks_table d t b g) w)
       = log w ++ [(ERROR, "Error inserting data: lily_walk_table - Parameter count mismatch")]) /\
  (forall d t n, refuses w "lily_walk_notes_table" walk_notes_columns ->
     result (insert_into_lily_walk_notes_table d t n) w = Ret tt /\
     files (run (insert_into_lily_walk_notes_table d t n) w) = files w /\
     log (run (insert_into_lily_walk_notes_table d t n) w)
       = log w ++ [(ERROR, "Error inserting data: lily_walk_notes_table - Parameter count mismatch")]).
Proof.
  intros Hf.
  compiled insert_lily_notes_sql H1. compiled insert_time_in_room_sql H2.
  compiled insert_lily_diet_sql H3. compiled insert_lily_mood_sql H4.
  compiled insert_wiggles_walks_sql H5. compiled insert_lily_walk_notes_sql H6.
  repeat match goal with |- _ /\ _ => split end; intros.
  - apply (insert_statement_refused "lily_notes_table" _ _ _ _ w Hf H1);
      [vm_compute; reflexivity | discriminate | assumption].
  - apply (insert_statement_refused "lily_in_room_table" _ _ _ _ w Hf H2);
      [vm_compute; reflexivity | discriminate | assumption].
  - apply (insert_statement_refused "lily_eats_table" _ _ _ _ w Hf H3);
      [vm_compute; reflexivity | discriminate | assumption].
  - apply (insert_statement_refused "lily_mood_table" _ _ _ _ w Hf H4);
      [vm_compute; reflexivity | discriminate | assumption].
  - apply (insert_statement_refused "lily_walk_table" _ _ _ _ w Hf H5);
      [vm_compute; reflexivity | discriminate | assumption].
  - apply (insert_statement_refused "lily_walk_notes_table" _ _ _ _ w Hf H6);
      [vm_compute; reflexivity | discriminate | assumption].
Qed.

Lemma refused_inserts_are_logged_witness :
  files (run (insert_into_lily_diet_table "2024-01-01" "08:00") closed_store)
    = files closed_store
  /\ log (run (insert_into_lily_mood_table "2024-01-01" "09:00" 3 2 4)
            unschemed_store)
     = log unschemed_store ++ [(ERROR, "Error inserting data: lily_mood_table - Parameter count mismatch")].
Proof.
  split.
  - destruct (refused_inserts_are_logged closed_store
                ltac:(vm_compute; reflexivity)) as (_ & _ & H & _).
    destruct (H "2024-01-01" "08:00" ltac:(vm_compute; exact I)) as (_ & Hf & _).
    exact Hf.
  - destruct (refused_inserts_are_logged unschemed_store
                ltac:(vm_compute; reflexivity)) as (_ & _ & _ & H & _).
    destruct (H "2024-01-01" "09:00" 3 2 4 ltac:(vm_compute; reflexivity))
      as (_ & _ & Hl).
    exact Hl.
Defined.

(** ** Identities of records inserted one after another *)

Lemma not_exhausted (t : Table) :
  next_id t <= max_rowid_value -> exhausted t = false.
Proof.
  unfold exhausted, next_id. intros H. apply Z.leb_gt. lia.
Qed.

(** X8.  Diet records inserted one after another into a usable store
    whose diet table has the columns of the schema with their declared
    types and has an identity left for each of them get consecutive
    identities in the order of insertion, continuing from the table's
    next identity; every insert returns normally. *)
Theorem consecutive_diet_identities (records : list (string * string))
    (w : World) (db : Database) (t : Table) :
  ready w db ->
  find_table "lily_diet_table" db = Some t ->
  t_cols t = diet_schema ->
  next_id t + Z.of_nat (length records) - 1 <= max_rowid_value ->
  result (for_each records
            (fun r => insert_into_lily_diet_table (fst r) (snd r))) w = Ret tt /\
  stored_rows "lily_diet_table"
    (run (for_each records
            (fun r => insert_into_lily_diet_table (fst r) (snd r))) w)
  = Some (t_rows t ++
          numbered (next_id t)
            (map (fun r => [SqlText (fst r); SqlText (snd r)]) records)).
Proof.
  compiled insert_lily_diet_sql Hs.
  revert w db t. induction records as [|[d tm] records IH];
    intros w db t Hr Ht Hc Hn.
  - simpl. split; [reflexivity|].
    destruct Hr as (_ & Ho & Hdb). unfold stored_rows, current_db, run, ret.
    simpl. rewrite Ho, Hdb, Ht, app_nil_r. reflexivity.
  - assert (Hx : exhausted t = false).
    { apply not_exhausted. simpl length in Hn. lia. }
    destruct (insert_full_row "lily_eats_table" insert_lily_diet_sql
                "lily_diet_table" diet_columns [SqlText d; SqlText tm]
                w db t Hr Hs ltac:(vm_compute; reflexivity) eq_refl
                Ht ltac:(rewrite Hc; reflexivity) Hx)
      as (w' & t' & E & Hi & Hr' & _ & _ & _ & _).
    destruct (insert_row_table _ _ _ _ Hi) as (Hc' & Hrows & Hnext).
    assert (Ht' : find_table "lily_diet_table"
                    (update_table "lily_diet_table" t' db) = Some t')
      by (apply (find_table_update _ t), Ht).
    destruct (IH w' _ _ Hr' Ht' ltac:(rewrite Hc'; exact Hc)
                ltac:(rewrite Hnext; simpl length in Hn; lia))
      as [IHr IHs].
    simpl for_each. unfold result, run in *.
    change (insert_into_lily_diet_table d tm)
      with (insert_statement "lily_eats_table" insert_lily_diet_sql
              [SqlText d; SqlText tm]).
    rewrite (bind_ret_eq _ _ _ _ _ E).
    split; [exact IHr|].
    rewrite IHs, Hnext, Hrows. unfold new_row. rewrite Hc.
    simpl. rewrite <- app_assoc. reflexivity.
Qed.

Lemma consecutive_diet_identities_witness :
  stored_rows "lily_diet_table"
    (run (for_each [("2024-01-01", "08:00"); ("2024-01-01", "18:00");
                    ("2024-01-02", "08:05")]
            (fun r => insert_into_lily_diet_table (fst r) (snd r)))
       started_store)
  = Some [(1, [SqlText "2024-01-01"; SqlText "08:00"]);
          (2, [SqlText "2024-01-01"; SqlText "18:00"]);
          (3, [SqlText "2024-01-02"; SqlText "08:05"])].
Proof.
  destruct (consecutive_diet_identities
              [("2024-01-01", "08:00"); ("2024-01-01", "18:00");
               ("2024-01-02", "08:05")]
              started_store (with_schema [])
              (fresh_table diet_schema)
              ltac:(repeat split; vm_compute; reflexivity)
              ltac:(vm_compute; reflexivity) ltac:(reflexivity)
              ltac:(vm_compute; discriminate))
    as (_ & H).
  exact H.
Defined.

(** ** Schema creation keeps what is there *)

Lemma with_schema_keeps (n : string) (t : Table) (db : Database) :
  find_table n db = Some t -> find_table n (with_schema db) = Some t.
Proof. intros H. unfold with_schema. do 6 apply ddl_keeps. exact H. Qed.

Lemma ddl_new_or_old (sql n : string) (t : Table) (db : Database) :
  find_table n (ddl_effect sql db) = Some t ->
  find_table n db = Some t \/
  (t_rows t = [] /\ t_seq t = 0 /\
   exists i c, compile sql = Some (CreateTableIfNotExists n i c)).
Proof.
  unfold ddl_effect.
  destruct (compile sql) as [[name i c|]|]; try (intros H; left; exact H).
  unfold create_if_not_exists.
  destruct (find_table name db) eqn:E; [intros H; left; exact H|].
  rewrite find_table_app.
  destruct (find_table n db) eqn:En; [intros H; left; exact H|].
  destruct (String.eqb_spec name n) as [->|_]; [|discriminate].
  intros H. inversion H; subst. right. simpl. eauto.
Qed.

Lemma with_schema_new_or_old (n : string) (t : Table) (db : Database) :
  find_table n (with_schema db) = Some t ->
  find_table n db = Some t \/
  (t_rows t = [] /\ t_seq t = 0 /\ In n schema_tables).
Proof.
  compiled create_lily_diet_table H1. compiled create_lily_mood_table H2.
  compiled create_lily_walk_table H3. compiled create_lily_in_room_table H4.
  compiled create_lily_notes_table H5. compiled create_lily_walk_notes_table H6.
  unfold with_schema. intros H.
  repeat (apply ddl_new_or_old in H;
          destruct H as [H|(Hr & Hq & i & c & Hc)];
          [| right; split; [exact Hr|]; split; [exact Hq|];
             first [ rewrite H1 in Hc | rewrite H2 in Hc | rewrite H3 in Hc
                   | rewrite H4 in Hc | rewrite H5 in Hc | rewrite H6 in Hc ];
             inversion Hc; simpl; tauto ]).
  left. exact H.
Qed.



(** ** Schema creation without a connection *)

Lemma create_step_closed (sql msg : string) (w : World) :
  conn_open w = false ->
  ~ In Raises (faults w) ->
  exists w',
    (ok <- query_exec_sql sql ;;
     if negb ok then logger_error msg else ret tt) w = (Ret tt, w') /\
    files w' = files w /\
    conn_open w' = false /\
    conn_name w' = conn_name w /\
    ~ In Raises (faults w') /\
    log w' = log w ++ [(ERROR, msg)].
Proof.
  intros Ho Hn. destruct w as [fs cn co q st sl md se lg tr fl].
  simpl in Ho, Hn. subst co.
  unfold query_exec_sql. unfold_prog.
  destruct fl as [|f fl]; [|destruct f]; simpl in *.
  - eexists. split; [reflexivity|]. simpl. repeat split. auto.
  - eexists. split; [reflexivity|]. simpl. repeat split. auto.
  - eexists. split; [reflexivity|]. simpl. repeat split. auto.
  - exfalso. apply Hn. left. reflexivity.
Qed.

Lemma setup_tables_closed (w : World) :
  conn_open w = false ->
  ~ In Raises (faults w) ->
  exists w',
    setup_tables w = (Ret tt, w') /\
    files w' = files w /\
    conn_open w' = false /\
    log w' = log w ++ schema_errors.
Proof.
  intros O0 H0. unfold setup_tables.
  destruct (create_step_closed create_lily_diet_table
              "Error creating table: lily_diet_table" w O0 H0)
    as (w1 & E1 & F1 & O1 & _ & H1 & L1).
  destruct (create_step_closed create_lily_mood_table
              "Error creating table: lily_mood_table" w1 O1 H1)
    as (w2 & E2 & F2 & O2 & _ & H2 & L2).
  destruct (create_step_closed create_lily_walk_table
              "Error creating table: lily_walk_table" w2 O2 H2)
    as (w3 & E3 & F3 & O3 & _ & H3 & L3).
  destruct (create_step_closed create_lily_in_room_table
              "Error creating table: lily_in_room_table" w3 O3 H3)
    as (w4 & E4 & F4 & O4 & _ & H4 & L4).
  destruct (create_step_closed create_lily_notes_table
              "Error creating table: lily_notes_table" w4 O4 H4)
    as (w5 & E5 & F5 & O5 & _ & H5 & L5).
  destruct (create_step_closed create_lily_walk_notes_table
              "Error creating table: lily_walk_notes_table" w5 O5 H5)
    as (w6 & E6 & F6 & O6 & _ & H6 & L6).
  exists w6. split.
  - rewrite (bind_ret_eq setup_lily_diet_table _ w w1 tt E1).
    rewrite (bind_ret_eq setup_lily_mood_table _ w1 w2 tt E2).
    rewrite (bind_ret_eq setup_wiggles_walks_table _ w2 w3 tt E3).
    rewrite (bind_ret_eq setup_time_in_room_table _ w3 w4 tt E4).
    rewrite (bind_ret_eq setup_lily_notes_table _ w4 w5 tt E5).
    exact E6.
  - split; [congruence|]. split; [exact O6|].
    rewrite L6, L5, L4, L3, L2, L1. unfold schema_errors.
    rewrite <- !app_assoc. reflexivity.
Qed.

(** X10.  Without an open connection, and as long as no call raises,
    [setup_tables] returns normally, leaves the files as they were and
    logs one error per table, in the order diet, mood, walk, room time,
    notes, walk notes. *)
Theorem setup_tables_without_connection (w : World) :
  conn_open w = false ->
  ~ In Raises (faults w) ->
  result setup_tables w = Ret tt /\
  files (run setup_tables w) = files w /\
  conn_open (run setup_tables w) = false /\
  log (run setup_tables w) = log w ++ schema_errors.
Proof.
  intros Ho Hn.
  destruct (setup_tables_closed w Ho Hn) as (w' & E & Hf & Hc & Hl).
  unfold result, run. rewrite E. simpl.
  split; [reflexivity|]. split; [exact Hf|]. split; [exact Hc | exact Hl].
Qed.

Lemma setup_tables_without_connection_witness :
  files (run setup_tables closed_store) = files closed_store
  /\ log (run setup_tables closed_store) = log closed_store ++ schema_errors.
Proof.
  destruct (setup_tables_without_connection closed_store
              ltac:(vm_compute; reflexivity)
              ltac:(vm_compute; intros K; exact K))
    as (_ & H1 & _ & H2).
  split; [exact H1 | exact H2].
Defined.

(** ** Building the [DataManager] *)

Lemma db_open_ok (w : World) :
  faults w = [] ->
  db_open w =
    (Ret true,
     set_conn (conn_name w) true
       (set_files (create_if_absent (conn_name w) (files w))
          (set_trace (trace w ++ [EvOpen (conn_name w)]) w))).
Proof.
  intros Hf. destruct w; simpl in *; subst.
  unfold db_open. unfold_prog. reflexivity.
Qed.

Lemma create_if_absent_lookup (name : string) (fs : gmap string Database) :
  create_if_absent name fs !! name = Some (opened_db name fs).
Proof.
  unfold create_if_absent, opened_db.
  destruct (fs !! name) eqn:E; [exact E | apply lookup_insert_eq].
Qed.

Lemma DataManager_init_ok (name : string) (w : World) :
  faults w = [] ->
  exists w',
    DataManager_init name w = (Ret tt, w') /\
    ready w' (with_schema (opened_db name (files w))) /\
    conn_name w' = name /\
    files w' = <[name := with_schema (opened_db name (files w))]> (files w) /\
    log w' = log w ++ [(INFO, "DB INITIALIZING")].
Proof.
  intros Hf.
  pose (w1 := set_query {| q_stmt := None; q_binds := []; q_error := "" |}
               (set_log (log w ++ [(INFO, "DB INITIALIZING")])
                  (set_conn name true
                     (set_files (create_if_absent name (files w))
                        (set_trace (trace w ++ [EvOpen name]) w))))).
  assert (Hr1 : ready w1 (opened_db name (files w))).
  { unfold ready, w1. simpl. repeat split; [exact Hf|].
    apply create_if_absent_lookup. }
  destruct (setup_tables_ready w1 _ Hr1) as (w' & E & Hr' & Hfl & Hcn & Hl & _).
  exists w'. split.
  - unfold DataManager_init. apply try_ret_eq.
    erewrite bind_ret_eq by reflexivity.
    erewrite bind_ret_eq by (apply db_open_ok; exact Hf).
    simpl negb. cbv iota.
    erewrite bind_ret_eq by reflexivity.
    erewrite bind_ret_eq by reflexivity.
    erewrite bind_ret_eq by reflexivity.
    exact E.
  - split; [exact Hr'|]. split; [rewrite Hcn; reflexivity|].
    split.
    + rewrite Hfl. unfold w1. simpl. unfold create_if_absent.
      destruct (files w !! name); [reflexivity|].
      apply insert_insert_eq.
    + rewrite Hl. reflexivity.
Qed.

(** X11.  With the environment behaving, building the [DataManager] on
    [db_name] returns normally with the connection open on [db_name] and
    logs only the start-up line; every table the file held is there with
    all its rows, every table of the schema exists, and no other file is
    touched. *)
Theorem DataManager_init_opens_with_schema (db_name : string) (w : World) :
  faults w = [] ->
  result (DataManager_init db_name) w = Ret tt /\
  conn_open (run (DataManager_init db_name) w) = true /\
  conn_name (run (DataManager_init db_name) w) = db_name /\
  log (run (DataManager_init db_name) w) = log w ++ [(INFO, "DB INITIALIZING")] /\
  (forall n t, find_table n (opened_db db_name (files w)) = Some t ->
     stored_rows n (run (DataManager_init db_name) w) = Some (t_rows t)) /\
  (forall n, In n schema_tables ->
     exists rows, stored_rows n (run (DataManager_init db_name) w) = Some rows) /\
  (forall p, p <> db_name ->
     files (run (DataManager_init db_name) w) !! p = files w !! p).
Proof.
  intros Hf.
  destruct (DataManager_init_ok db_name w Hf)
    as (w' & E & (_ & Ho & Hdb) & Hcn & Hfl & Hl).
  unfold result, run. rewrite E. simpl.
  split; [reflexivity|]. split; [exact Ho|]. split; [exact Hcn|].
  split; [exact Hl|].
  unfold stored_rows, current_db. rewrite Ho, Hdb. repeat split.
  - intros n t Ht. rewrite (with_schema_keeps n t _ Ht). reflexivity.
  - intros n Hn. destruct (with_schema_has n (opened_db db_name (files w)) Hn)
      as [t Ht].
    rewrite Ht. eauto.
  - intros p Hp. rewrite Hfl. apply lookup_insert_ne. congruence.
Qed.

Lemma DataManager_init_opens_with_schema_witness :
  stored_rows "lily_diet_table"
    (run (DataManager_init "/home/u/lily.db") later_start)
  = Some [(1, [SqlText "2023-12-31"; SqlText "18:30"])].
Proof.
  destruct (DataManager_init_opens_with_schema "/home/u/lily.db" later_start
              ltac:(reflexivity)) as (_ & _ & _ & _ & H & _).
  exact (H "lily_diet_table" _ ltac:(vm_compute; reflexivity)).
Defined.

Lemma db_open_fails (w : World) (fl : list Fault) :
  faults w = Fails :: fl ->
  db_open w =
    (Ret false, set_faults fl (set_trace (trace w ++ [EvOpen (conn_name w)]) w)).
Proof.
  intros Hf. destruct w; simpl in *; subst.
  unfold db_open. unfold_prog. reflexivity.
Qed.

(** X12.  When opening the database fails, the [DataManager] is built all
    the same and the files stay as they were.  If [open()] reports the
    failure through its result, the error is logged and the schema setup
    is still run on the closed connection, logging one error per table;
    if [open()] raises, the error is logged and the schema setup is not
    run at all. *)
Theorem DataManager_init_without_database (db_name : string) (w : World)
    (fl : list Fault) :
  (faults w = Fails :: fl -> ~ In Raises fl ->
   result (DataManager_init db_name) w = Ret tt /\
   files (run (DataManager_init db_name) w) = files w /\
   conn_open (run (DataManager_init db_name) w) = false /\
   log (run (DataManager_init db_name) w)
     = log w ++ (ERROR, "Error: Unable to open database")
             :: (INFO, "DB INITIALIZING") :: schema_errors) /\
  (faults w = Raises :: fl ->
   result (DataManager_init db_name) w = Ret tt /\
   files (run (DataManager_init db_name) w) = files w /\
   conn_open (run (DataManager_init db_name) w) = false /\
   trace (run (DataManager_init db_name) w) = trace w ++ [EvOpen db_name] /\
   log (run (DataManager_init db_name) w)
     = log w ++ [(ERROR, "Error: Unable to open database open")]).
Proof.
  split.
  - intros Hf Hn.
    pose (w1 := set_query {| q_stmt := None; q_binds := []; q_error := "" |}
                 (set_log (log w ++ [(ERROR, "Error: Unable to open database");
                                     (INFO, "DB INITIALIZING")])
                    (set_faults fl
                       (set_trace (trace w ++ [EvOpen db_name])
                          (set_conn db_name false w))))).
    destruct (setup_tables_closed w1 eq_refl Hn)
      as (w2 & E2 & Hfiles & Ho & Hl).
    assert (E : DataManager_init db_name w = (Ret tt, w2)).
    { unfold DataManager_init, try_except.
      erewrite bind_ret_eq by reflexivity.
      erewrite bind_ret_eq by (apply db_open_fails; exact Hf).
      simpl negb. cbv iota.
      erewrite bind_ret_eq
        by (unfold logger_error; reflexivity).
      erewrite bind_ret_eq by reflexivity.
      erewrite bind_ret_eq by reflexivity.
      replace (set_query {| q_stmt := None; q_binds := [] |} _) with w1.
      - rewrite E2. reflexivity.
      - unfold w1. destruct w; simpl. rewrite <- app_assoc. reflexivity. }
    unfold result, run. rewrite E. simpl.
    split; [reflexivity|]. split; [exact Hfiles|]. split; [exact Ho|].
    rewrite Hl. unfold w1. simpl. rewrite <- app_assoc. reflexivity.
  - intros Hf. destruct w; simpl in *; subst.
    unfold DataManager_init, result, run. unfold_prog. repeat split.
Qed.

Lemma DataManager_init_without_database_witness :
  log (run (DataManager_init "/home/u/lily.db") locked_start)
  = (ERROR, "Error: Unable to open database")
    :: (INFO, "DB INITIALIZING") :: schema_errors.
Proof.
  destruct (DataManager_init_without_database "/home/u/lily.db" locked_start [])
    as (H & _).
  destruct (H ltac:(reflexivity) ltac:(intros K; exact K)) as (_ & _ & _ & Hl).
  exact Hl.
Defined.

(** ** Start-up when seeding fails *)

(** X13.  When the copy of the template raises, [initialize_database]
    returns normally and logs the error.  If the copy raised before the
    user's file was created, no file is created.  If it raised once the
    user's file was there, the file stays, every other file is as it
    was, and a later [initialize_database] does nothing at all, so that
    the seeding is not tried again.  When there is no template and the
    database cannot be opened, it logs the error and still closes the
    connection; if [open()] raises instead, the error is logged and
    [close()] is not called. *)
Theorem initialize_database_failures (db_path target_db_path : string)
    (w : World) (fl : list Fault) :
  files w !! target_db_path = None ->
  (forall tpl, files w !! db_path = Some tpl ->
     faults w = Raises :: fl ->
     result (initialize_database db_path target_db_path) w = Ret tt /\
     files (run (initialize_database db_path target_db_path) w) = files w /\
     trace (run (initialize_database db_path target_db_path) w)
       = trace w ++ [EvCopy db_path target_db_path] /\
     log (run (initialize_database db_path target_db_path) w)
       = log w ++ [(ERROR, "Error: Unable to create database")]) /\
  (forall tpl, files w !! db_path = Some tpl ->
     faults w = Fails :: fl ->
     result (initialize_database db_path target_db_path) w = Ret tt /\
     files (run (initialize_database db_path target_db_path) w)
       !! target_db_path <> None /\
     (forall p, p <> target_db_path ->
        files (run (initialize_database db_path target_db_path) w) !! p
        = files w !! p) /\
     trace (run (initialize_database db_path target_db_path) w)
       = trace w ++ [EvCopy db_path target_db_path] /\
     log (run (initialize_database db_path target_db_path) w)
       = log w ++ [(ERROR, "Error: Unable to create database")] /\
     initialize_database db_path target_db_path
       (run (initialize_database db_path target_db_path) w)
     = (Ret tt, run (initialize_database db_path target_db_path) w)) /\
  (files w !! db_path = None -> faults w = [Fails] ->
   result (initialize_database db_path target_db_path) w = Ret tt /\
   files (run (initialize_database db_path target_db_path) w) = files w /\
   trace (run (initialize_database db_path target_db_path) w)
     = trace w ++ [EvOpen target_db_path; EvClose] /\
   log (run (initialize_database db_path target_db_path) w)
     = log w ++ [(ERROR, "Error: Unable to create database")]) /\
  (files w !! db_path = None -> faults w = Raises :: fl ->
   result (initialize_database db_path target_db_path) w = Ret tt /\
   files (run (initialize_database db_path target_db_path) w) = files w /\
   trace (run (initialize_database db_path target_db_path) w)
     = trace w ++ [EvOpen target_db_path] /\
   log (run (initialize_database db_path target_db_path) w)
     = log w ++ [(ERROR, "Error: Unable to create database")]).
Proof.
  intros Ht.
  split; [|split; [|split]].
  - intros tpl Hd Hf. destruct w as [fs cn co q st sl md se lg tr fls sk ee].
    simpl in Ht, Hd, Hf. subst fls.
    unfold result, run, initialize_database.
    repeat (unfold_prog; rewrite ?Ht, ?Hd). repeat split.
  - intros tpl Hd Hf.
    assert (E : initialize_database db_path target_db_path w
                = (Ret tt,
                   set_log (log w ++ [(ERROR, "Error: Unable to create database")])
                     (set_files (<[target_db_path := tpl]> (files w))
                        (set_faults fl
                           (set_trace (trace w ++ [EvCopy db_path target_db_path])
                              w))))).
    { destruct w as [fs cn co q st sl md se lg tr fls sk ee].
      simpl in Ht, Hd, Hf. subst fls.
      unfold initialize_database.
      repeat (unfold_prog; rewrite ?Ht, ?Hd). reflexivity. }
    unfold result, run. rewrite E. cbn [fst snd].
    split; [reflexivity|].
    split; [destruct w; simpl; rewrite lookup_insert_eq; discriminate|].
    split; [intros p Hp; destruct w; simpl; apply lookup_insert_ne; congruence|].
    split; [destruct w; reflexivity|].
    split; [destruct w; reflexivity|].
    apply (initialize_database_existing db_path target_db_path _ tpl).
    destruct w; simpl. apply lookup_insert_eq.
  - intros Hd Hf. destruct w as [fs cn co q st sl md se lg tr fls sk ee].
    simpl in Ht, Hd, Hf. subst fls.
    unfold result, run, initialize_database.
    repeat (unfold_prog; rewrite ?Ht, ?Hd).
    rewrite <- app_assoc. repeat split.
  - intros Hd Hf. destruct w as [fs cn co q st sl md se lg tr fls sk ee].
    simpl in Ht, Hd, Hf. subst fls.
    unfold result, run, initialize_database.
    repeat (unfold_prog; rewrite ?Ht, ?Hd). repeat split.
Qed.

Lemma initialize_database_failures_witness :
  (files (run (initialize_database "/app/lily.db" "/home/u/lily.db")
            failing_copy_start) = files failing_copy_start
   /\ log (run (initialize_database "/app/lily.db" "/home/u/lily.db")
             failing_copy_start)
      = [(ERROR, "Error: Unable to create database")])
  /\ initialize_database "/app/lily.db" "/home/u/lily.db"
       (run (initialize_database "/app/lily.db" "/home/u/lily.db")
          interrupted_copy_start)
     = (Ret tt, run (initialize_database "/app/lily.db" "/home/u/lily.db")
                  interrupted_copy_start).
Proof.
  split.
  - destruct (initialize_database_failures "/app/lily.db" "/home/u/lily.db"
                failing_copy_start [] ltac:(vm_compute; reflexivity))
      as (H & _).
    destruct (H template_db ltac:(vm_compute; reflexivity) ltac:(reflexivity))
      as (_ & H1 & _ & H2).
    split; [exact H1 | exact H2].
  - destruct (initialize_database_failures "/app/lily.db" "/home/u/lily.db"
                interrupted_copy_start [] ltac:(vm_compute; reflexivity))
      as (_ & H & _).
    destruct (H template_db ltac:(vm_compute; reflexivity) ltac:(reflexivity))
      as (_ & _ & _ & _ & _ & H1).
    exact H1.
Defined.

(** ** Start-up as a whole *)

Lemma startup_ok (db_path target_db_path : string) (w : World) :
  faults w = [] ->
  exists w' db,
    startup db_path target_db_path w = (Ret tt, w') /\
    ready w' (with_schema db) /\
    conn_name w' = target_db_path /\
    db = match files w !! target_db_path with
         | Some d => d
         | None => match files w !! db_path with
                   | Some tpl => tpl
                   | None => []
                   end
         end /\
    files w' = <[target_db_path := with_schema db]> (files w).
Proof.
  intros Hf. unfold startup.
  destruct (files w !! target_db_path) as [d|] eqn:Ht.
  - destruct (DataManager_init_ok target_db_path w Hf)
      as (w' & E & Hr & Hcn & Hfl & _).
    unfold opened_db in *. rewrite Ht in *.
    exists w', d.
    rewrite (bind_ret_eq _ _ _ _ _
               (initialize_database_existing db_path target_db_path w d Ht)).
    auto.
  - destruct (files w !! db_path) as [tpl|] eqn:Hd.
    + pose proof (initialize_database_copy db_path target_db_path w tpl Hf Ht Hd)
        as E0.
      match type of E0 with _ = (_, ?v) =>
        destruct (DataManager_init_ok target_db_path v Hf)
          as (w' & E & Hr & Hcn & Hfl & _)
      end.
      simpl files in *. unfold opened_db in *.
      rewrite lookup_insert_eq in *.
      exists w', tpl. rewrite (bind_ret_eq _ _ _ _ _ E0).
      split; [exact E|]. split; [exact Hr|]. split; [exact Hcn|].
      split; [reflexivity|]. rewrite Hfl. apply insert_insert_eq.
    + pose proof (initialize_database_create db_path target_db_path w Hf Ht Hd)
        as E0.
      match type of E0 with _ = (_, ?v) =>
        destruct (DataManager_init_ok target_db_path v Hf)
          as (w' & E & Hr & Hcn & Hfl & _)
      end.
      simpl files in *. unfold opened_db in *.
      rewrite lookup_insert_eq in *.
      exists w', []. rewrite (bind_ret_eq _ _ _ _ _ E0).
      split; [exact E|]. split; [exact Hr|]. split; [exact Hcn|].
      split; [reflexivity|]. rewrite Hfl. apply insert_insert_eq.
Qed.

(** X14.  First start with a bundled template: afterwards the user's
    store holds every table of the template with all its rows, every
    table of the schema exists, and the template file itself is as it
    was. *)
Theorem first_start_shows_template (db_path target_db_path : string)
    (w : World) (tpl : Database) :
  faults w = [] ->
  files w !! target_db_path = None ->
  files w !! db_path = Some tpl ->
  result (startup db_path target_db_path) w = Ret tt /\
  (forall n t, find_table n tpl = Some t ->
     stored_rows n (run (startup db_path target_db_path) w) = Some (t_rows t)) /\
  (forall n, In n schema_tables ->
     exists rows,
       stored_rows n (run (startup db_path target_db_path) w) = Some rows) /\
  files (run (startup db_path target_db_path) w) !! db_path = Some tpl.
Proof.
  intros Hf Ht Hd.
  destruct (startup_ok db_path target_db_path w Hf)
    as (w' & db & E & (_ & Ho & Hdb) & Hcn & Hdbeq & Hfl).
  rewrite Ht, Hd in Hdbeq. subst db.
  unfold result, run. rewrite E. simpl.
  split; [reflexivity|].
  unfold stored_rows, current_db. rewrite Ho, Hdb. repeat split.
  - intros n t Hn. rewrite (with_schema_keeps n t tpl Hn). reflexivity.
  - intros n Hn. destruct (with_schema_has n tpl Hn) as [t Hn'].
    rewrite Hn'. eauto.
  - rewrite Hfl, lookup_insert_ne; [exact Hd | congruence].
Qed.

Lemma first_start_shows_template_witness :
  stored_rows "lily_diet_table"
    (run (startup "/app/lily.db" "/home/u/lily.db") first_start)
  = Some [(1, [SqlText "2023-12-31"; SqlText "18:30"])].
Proof.
  destruct (first_start_shows_template "/app/lily.db" "/home/u/lily.db"
              first_start template_db ltac:(reflexivity)
              ltac:(vm_compute; reflexivity) ltac:(vm_compute; reflexivity))
    as (_ & H & _).
  exact (H "lily_diet_table" _ eq_refl).
Defined.

(** X15.  First start with neither file: afterwards the user's database
    exists and every table of the schema is there without a row. *)
Theorem bare_start_gives_empty_schema (db_path target_db_path : string)
    (w : World) :
  faults w = [] ->
  files w !! target_db_path = None ->
  files w !! db_path = None ->
  result (startup db_path target_db_path) w = Ret tt /\
  forall n, In n schema_tables ->
    stored_rows n (run (startup db_path target_db_path) w) = Some [].
Proof.
  intros Hf Ht Hd.
  destruct (startup_ok db_path target_db_path w Hf)
    as (w' & db & E & (_ & Ho & Hdb) & Hcn & Hdbeq & Hfl).
  rewrite Ht, Hd in Hdbeq. subst db.
  unfold result, run. rewrite E. simpl.
  split; [reflexivity|].
  intros n Hn. unfold stored_rows, current_db. rewrite Ho, Hdb.
  destruct (with_schema_has n [] Hn) as [t Hn']. rewrite Hn'.
  destruct (with_schema_new_or_old n t [] Hn') as [H|(Hrows & _)];
    [discriminate|].
  rewrite Hrows. reflexivity.
Qed.

Lemma bare_start_gives_empty_schema_witness :
  stored_rows "lily_walk_notes_table"
    (run (startup "/app/lily.db" "/home/u/lily.db") bare_start) = Some [].
Proof.
  destruct (bare_start_gives_empty_schema "/app/lily.db" "/home/u/lily.db"
              bare_start ltac:(reflexivity) ltac:(vm_compute; reflexivity)
              ltac:(vm_compute; reflexivity)) as (_ & H).
  apply H. simpl. tauto.
Defined.

(** X16.  Starting again changes no file: with the environment behaving,
    a second start-up leaves the files exactly as the first one left
    them, whatever was there before the first. *)
Theorem restart_changes_no_file (db_path target_db_path : string) (w : World) :
  faults w = [] ->
  result (startup db_path target_db_path ;; startup db_path target_db_path) w
    = Ret tt /\
  files (run (startup db_path target_db_path ;;
              startup db_path target_db_path) w)
    = files (run (startup db_path target_db_path) w).
Proof.
  intros Hf.
  destruct (startup_ok db_path target_db_path w Hf)
    as (w1 & db & E1 & Hr1 & Hcn1 & _ & Hfl1).
  pose proof Hr1 as (Hf1 & Ho1 & Hdb1).
  destruct (startup_ok db_path target_db_path w1 Hf1)
    as (w2 & db2 & E2 & _ & _ & Hdbeq2 & Hfl2).
  rewrite Hcn1 in Hdb1. rewrite Hdb1 in Hdbeq2. subst db2.
  unfold result, run. rewrite (bind_ret_eq _ _ _ _ _ E1), E2, E1. simpl.
  split; [reflexivity|].
  rewrite Hfl2, with_schema_idempotent. apply insert_id. exact Hdb1.
Qed.

Lemma restart_changes_no_file_witness :
  files (run (startup "/app/lily.db" "/home/u/lily.db" ;;
              startup "/app/lily.db" "/home/u/lily.db") first_start)
  = files (run (startup "/app/lily.db" "/home/u/lily.db") first_start).
Proof.
  destruct (restart_changes_no_file "/app/lily.db" "/home/u/lily.db"
              first_start ltac:(reflexivity)) as (_ & H).
  exact H.
Defined.

(** X17.  Records survive closing and reopening: on a usable store,
    [close_database] followed by building the [DataManager] on the same
    database name shows every table with the rows it had. *)
Theorem records_survive_close_and_reopen (w : World) (db : Database) :
  ready w db ->
  result (close_database ;; DataManager_init (conn_name w)) w = Ret tt /\
  conn_open (run (close_database ;; DataManager_init (conn_name w)) w) = true /\
  forall n t, find_table n db = Some t ->
    stored_rows n (run (close_database ;; DataManager_init (conn_name w)) w)
    = Some (t_rows t).
Proof.
  intros (Hf & Ho & Hdb).
  pose proof (close_database_open w Hf Ho) as E1.
  match type of E1 with _ = (_, ?v) =>
    destruct (DataManager_init_ok (conn_name w) v Hf)
      as (w' & E & (_ & Ho' & Hdb') & _)
  end.
  simpl files in *. unfold opened_db in *. rewrite Hdb in *.
  unfold result, run. rewrite (bind_ret_eq _ _ _ _ _ E1), E. simpl.
  split; [reflexivity|]. split; [exact Ho'|].
  intros n t Ht. unfold stored_rows, current_db. rewrite Ho', Hdb'.
  rewrite (with_schema_keeps n t db Ht). reflexivity.
Qed.

Lemma records_survive_close_and_reopen_witness :
  stored_rows "lily_diet_table"
    (run (close_database ;; DataManager_init "/home/u/lily.db") open_store)
  = Some [(1, [SqlText "2023-12-31"; SqlText "18:30"])].
Proof.
  destruct (records_survive_close_and_reopen open_store template_db
              ltac:(repeat split; vm_compute; reflexivity)) as (_ & _ & H).
  exact (H "lily_diet_table" _ eq_refl).
Defined.

(** ** What a program leaves alone *)

Section Respects.

Variable R : World -> World -> Prop.
Hypothesis R_refl : forall w, R w w.
Hypothesis R_trans : forall a b c, R a b -> R b c -> R a c.

Lemma respects_ret {A} (a : A) : respects R (ret a).
Proof. intros w. apply R_refl. Qed.

Lemma respects_raise {A} (e : exn) : respects R (@raise A e).
Proof. intros w. apply R_refl. Qed.

Lemma respects_get {A} (f : World -> A) : respects R (get f).
Proof. intros w. apply R_refl. Qed.

Lemma respects_modify (f : World -> World) :
  (forall w, R w (f w)) -> respects R (modify f).
Proof. intros H w. apply H. Qed.

Lemma respects_bind {A B} (m : M A) (k : A -> M B) :
  respects R m -> (forall a, respects R (k a)) -> respects R (bind m k).
Proof.
  intros Hm Hk w. specialize (Hm w). unfold run, bind in *.
  destruct (m w) as [[a|e] w1]; simpl in *; [|exact Hm].
  apply (R_trans _ _ _ Hm). apply (Hk a w1).
Qed.

Lemma respects_try {A} (m : M A) (h : exn -> M A) :
  respects R m -> (forall e, respects R (h e)) -> respects R (try_except m h).
Proof.
  intros Hm Hh w. specialize (Hm w). unfold run, try_except in *.
  destruct (m w) as [[a|e] w1]; simpl in *; [exact Hm|].
  apply (R_trans _ _ _ Hm). apply (Hh e w1).
Qed.

Lemma respects_for_each {A} (l : list A) (f : A -> M unit) :
  (forall x, respects R (f x)) -> respects R (for_each l f).
Proof.
  intros Hf. induction l as [|x l IH]; simpl.
  - apply respects_ret.
  - apply respects_bind; [apply Hf | intros _; exact IH].
Qed.

Lemma respects_attempt (ev : Event) :
  (forall w x, R w (set_trace x w)) ->
  (forall w x, R w (set_faults x w)) ->
  respects R (attempt ev).
Proof.
  intros Ht Hf w. unfold run, attempt.
  destruct (faults w); simpl; [apply Ht|].
  eapply R_trans; [apply Ht | apply Hf].
Qed.

End Respects.

Ltac frame_step base :=
  match goal with
  | |- respects _ (bind _ _) => apply respects_bind; [base | | intro]
  | |- respects _ (try_except _ _) => apply respects_try; [base | | intro]
  | |- respects _ (ret _) => apply respects_ret; base
  | |- respects _ (raise _) => apply respects_raise; base
  | |- respects _ (get _) => apply respects_get; base
  | |- respects _ (for_each _ _) =>
      apply respects_for_each; [base | base | intro]
  | |- respects _ (attempt _) => apply respects_attempt; [base | base | base]
  | |- respects _ (modify _) => apply respects_modify; base
  | |- respects _ (logger_error _) => intros ?; base
  | |- respects _ (logger_info _) => intros ?; base
  | |- respects _ (match ?x with _ => _ end) => destruct x
  | |- respects _ (fun _ => _) => intros ?; base
  end.

Ltac same_settings_base :=
  unfold same_settings, run, store_db; simpl; intros; congruence.

Ltac same_store_base :=
  unfold same_store, run; simpl; intros; intuition congruence.

Ltac unfold_calls :=
  unfold settings_value, settings_setValue, slider_setValue, text_setHtml,
    restore_bytes, lilyStack_setCurrentIndex, qt_call, query_prepare,
    query_addBindValue, query_exec, query_exec_sql, db_open, db_close,
    db_isOpen, db_addDatabase, new_query, shutil_copy, os_path_exists,
    connect_delete.

Ltac outside_base :=
  unfold same_settings_outside, run; simpl; intros;
  repeat match goal with
         | H : forall k, ~ In k _ -> _ = _ |- _ => rewrite H by assumption
         end; reflexivity.

Lemma settings_value_read_only k d ty :
  respects same_settings (settings_value k d ty).
Proof. unfold settings_value. repeat frame_step same_settings_base. Qed.

Lemma settings_value_store k d ty :
  respects same_store (settings_value k d ty).
Proof. unfold settings_value. repeat frame_step same_store_base. Qed.

Lemma settings_setValue_store k v :
  respects same_store (settings_setValue k v).
Proof. unfold settings_setValue. repeat frame_step same_store_base. Qed.

Lemma settings_setValue_outside (ks : list string) k v :
  In k ks -> respects (same_settings_outside ks) (settings_setValue k v).
Proof.
  intros Hk. unfold settings_setValue.
  apply respects_bind; [outside_base | repeat frame_step outside_base |].
  intros f. destruct f; try (repeat frame_step outside_base).
  apply respects_modify. intros w j Hj. simpl.
  apply lookup_insert_ne. intros ->. contradiction.
Qed.

(** X18.  Whatever the environment does, [save_state] leaves the
    database side of the world alone and changes no setting other than
    its own eleven keys; the recorded page index, for one, survives.
    [closeEvent] does exactly what [save_state] does: its own handler
    never runs. *)
Theorem save_state_touches_only_its_keys (ui : Widgets) (w : World) :
  closeEvent ui w = save_state ui w /\
  same_store w (run (save_state ui) w) /\
  same_settings_outside state_keys w (run (save_state ui) w) /\
  settings (run (save_state ui) w) !! "lastPageIndex"
    = settings w !! "lastPageIndex".
Proof.
  assert (Hs : respects same_store (save_state ui)).
  { unfold save_state.
    repeat first [ apply settings_setValue_store | frame_step same_store_base ]. }
  assert (Ho : forall ks, incl state_keys ks ->
                 respects (same_settings_outside ks) (save_state ui)).
  { intros ks Hin. unfold save_state.
    repeat first [ apply settings_setValue_outside; apply Hin;
                     unfold state_keys, save_keys; simpl; tauto
                 | frame_step outside_base ]. }
  split.
  { destruct (total_save_state ui w) as [a Ha]. unfold result in Ha.
    unfold closeEvent, try_except.
    destruct (save_state ui w) as [[u|e] w1]; simpl in Ha;
      [reflexivity | discriminate]. }
  split; [apply Hs|]. split; [apply (Ho _ (incl_refl _))|].
  apply (Ho _ (incl_refl _) w). unfold state_keys, save_keys. simpl. intros H.
  repeat (destruct H as [H|H]; try discriminate). contradiction.
Qed.

Ltac unfold_widget_calls :=
  unfold settings_value, lilyStack_setCurrentIndex, qt_call,
    connect_page_changed, emit_currentChanged, on_page_changed.

(** X19.  Whatever the environment does and whatever the settings hold,
    [restore_state] only reads: it changes no setting and nothing on the
    database side.  [widget_operations] changes nothing on the database
    side and no setting other than [lastPageIndex]; that one it does
    write: with the environment behaving, when the page index read from
    the settings is a page other than the one shown, showing it fires
    [on_page_changed], which stores the index as an integer, whatever
    the form it was read from. *)
Theorem restoring_writes_page_index_only (w : World) :
  same_settings w (run restore_state w) /\
  same_store w (run restore_state w) /\
  same_store w (run widget_operations w) /\
  same_settings_outside ["lastPageIndex"] w (run widget_operations w) /\
  (forall index v,
     faults w = [] ->
     page_changed_slots (stack w) = 0%nat ->
     settings w !! "lastPageIndex" = Some v ->
     coerce (Some TInt) v = Some (QInt index) ->
     changes_page index (stack w) = true ->
     settings (run widget_operations w)
     = <["lastPageIndex" := QInt index]> (settings w)).
Proof.
  split; [|split; [|split; [|split]]].
  - assert (H : respects same_settings restore_state)
      by (unfold restore_state; unfold_calls;
          repeat frame_step same_settings_base).
    apply H.
  - assert (H : respects same_store restore_state)
      by (unfold restore_state; unfold_calls;
          repeat frame_step same_store_base).
    apply H.
  - assert (H : respects same_store widget_operations)
      by (unfold widget_operations, slider_set_spinbox, auto_date_time,
            stack_navigation; unfold_widget_calls;
          repeat first [ apply settings_setValue_store
                       | frame_step same_store_base ]).
    apply H.
  - assert (H : forall ks, In "lastPageIndex" ks ->
                   respects (same_settings_outside ks) widget_operations)
      by (intros ks Hin;
          unfold widget_operations, slider_set_spinbox, auto_date_time,
            stack_navigation; unfold_widget_calls;
          repeat first [ apply settings_setValue_outside; exact Hin
                       | frame_step outside_base ]).
    apply H. left. reflexivity.
  - intros index v Hf Hn Hk Hc Hp.
    destruct (widget_operations_ok index v w Hf Hn Hk Hc) as (_ & Hs & _).
    rewrite Hs, Hp. reflexivity.
Qed.

Lemma restoring_writes_page_index_only_witness :
  settings (run widget_operations
              (next_start Textual 0 1 some_widgets started_store))
  = <["lastPageIndex" := QInt 1]>
      (settings (next_start Textual 0 1 some_widgets started_store)).
Proof.
  destruct (restoring_writes_page_index_only
              (next_start Textual 0 1 some_widgets started_store))
    as (_ & _ & _ & _ & H).
  exact (H 1 (QStr "1") ltac:(vm_compute; reflexivity)
           ltac:(vm_compute; reflexivity) ltac:(vm_compute; reflexivity)
           ltac:(vm_compute; reflexivity) ltac:(vm_compute; reflexivity)).
Defined.

Ltac kept_base :=
  unfold kept_or_saved, run; simpl; intros;
  first
    [ left; reflexivity
    | match goal with
      | H1 : forall k, settings ?b !! k = settings ?a !! k \/ _,
        H2 : forall k, settings ?c !! k = settings ?b !! k \/ _
        |- settings ?c !! ?k = settings ?a !! ?k \/ _ =>
          destruct (H2 k) as [E2|(v2 & ? & ?)];
          [ destruct (H1 k) as [E1|(v1 & ? & ?)];
            [ left; congruence
            | right; exists v1; split; congruence ]
          | right; exists v2; split; assumption ]
      end ].

Lemma settings_setValue_kept_or_saved (ui : Widgets) k v :
  widget_settings ui !! k = Some v ->
  respects (kept_or_saved ui) (settings_setValue k v).
Proof.
  intros Hk. unfold settings_setValue.
  apply respects_bind; [kept_base | repeat frame_step kept_base |].
  intros f. destruct f; try (repeat frame_step kept_base).
  apply respects_modify. intros w j. simpl.
  destruct (decide (j = k)) as [->|Hne].
  - right. exists v. split; [exact Hk | apply lookup_insert_eq].
  - left. apply lookup_insert_ne. congruence.
Qed.

(** X20.  Whatever the environment does, [save_state] leaves every
    setting either as it was or holding the value of its widget: a save
    that fails part of the way never stores anything else. *)
Theorem save_state_keeps_or_writes (ui : Widgets) (w : World) (k : string) :
  settings (run (save_state ui) w) !! k = settings w !! k \/
  exists v, widget_settings ui !! k = Some v /\
            settings (run (save_state ui) w) !! k = Some v.
Proof.
  assert (H : respects (kept_or_saved ui) (save_state ui)).
  { unfold save_state.
    repeat first [ apply settings_setValue_kept_or_saved;
                     unfold widget_settings; saved_lookup; reflexivity
                 | frame_step kept_base ]. }
  apply (H w k).
Qed.

(** X21.  On a first run, with the environment behaving and none of the
    eleven keys stored, [restore_state] hands every widget its default:
    zero for the sliders and spin boxes, the empty text for the notes,
    an empty byte array for geometry and window state; nothing is
    logged. *)
Theorem restore_state_first_run (w : World) :
  faults w = [] ->
  (forall k, In k restore_keys -> settings w !! k = None) ->
  result restore_state w = Ret tt /\
  trace (run restore_state w) = trace w ++ restored_calls default_widgets /\
  log (run restore_state w) = log w /\
  settings (run restore_state w) = settings w.
Proof.
  intros Hf Hn.
  assert (E : restore_state w
              = (Ret tt, set_trace (trace w ++ restored_calls default_widgets) w)).
  { unfold restore_state.
    repeat (erewrite bind_ret_eq
              by (apply restore_block;
                  [ exact Hf
                  | simpl settings;
                    rewrite Hn by (unfold restore_keys; simpl; tauto);
                    reflexivity
                  | intros; reflexivity ])).
    erewrite restore_block;
      [ | exact Hf
        | simpl settings;
          rewrite Hn by (unfold restore_keys; simpl; tauto); reflexivity
        | intros; reflexivity ].
    destruct w; simpl. rewrite <- !app_assoc. reflexivity. }
  unfold result, run. rewrite E. destruct w; simpl. repeat split.
Qed.

Lemma restore_state_first_run_witness :
  trace (run restore_state (fresh_world ∅)) = restored_calls default_widgets.
Proof.
  destruct (restore_state_first_run (fresh_world ∅) eq_refl
              ltac:(intros; apply lookup_empty)) as (_ & H & _).
  exact H.
Defined.

Lemma connected_nil (sl : list (string * string)) : connected [] sl = sl.
Proof. destruct sl; reflexivity. Qed.

Lemma connected_cons fl s r :
  connected fl (s :: r) = connected fl [s] ++ connected (tl fl) r.
Proof.
  destruct fl as [|[] fl]; simpl; try reflexivity; destruct r; reflexivity.
Qed.

Lemma connect_delete_handled (t m : string) (h : exn -> M unit) (w : World) :
  (forall e w0, exists w1,
      h e w0 = (Ret tt, w1) /\ slots w1 = slots w0 /\ faults w1 = faults w0) ->
  exists w',
    try_except (connect_delete t m) h w = (Ret tt, w') /\
    slots w' = slots w ++ connected (faults w) [(t, m)] /\
    faults w' = tl (faults w).
Proof.
  intros Hh. destruct w as [fi cn co q st sl mo se lg tr fl].
  unfold try_except, connect_delete.
  destruct fl as [|[] fl]; unfold_prog; simpl.
  - eexists. repeat split.
  - eexists. repeat split.
  - eexists. repeat split.
  - match goal with
    | |- context [h ?e ?w0] => destruct (Hh e w0) as (w1 & E & S & F)
    end.
    rewrite E. exists w1. simpl in *. rewrite app_nil_r.
    repeat split; assumption.
Qed.

Lemma logger_error_handles (msg : exn -> string) :
  forall e w0, exists w1,
    logger_error (msg e) w0 = (Ret tt, w1) /\
    slots w1 = slots w0 /\ faults w1 = faults w0.
Proof. intros e w0. eexists. repeat split. Qed.

(** X22.  Whatever the environment does, [setup_delete_actions] returns.
    In the current window every [connect] has a handler of its own, so
    the slots connected are all those whose [connect] did not raise; in
    the older copy one handler surrounds the six calls, so the first
    [connect] that raises costs its own slot and all the later ones. *)
Theorem delete_wiring_under_failures (w : World) :
  result setup_delete_actions w = Ret tt /\
  slots (run setup_delete_actions w)
    = slots w ++ connected (faults w) delete_slots /\
  result July26.setup_delete_actions w = Ret tt /\
  slots (run July26.setup_delete_actions w)
    = slots w ++ connected_until (faults w) delete_slots.
Proof.
  assert (Hnew : exists w',
             setup_delete_actions w = (Ret tt, w') /\
             slots w' = slots w ++ connected (faults w) delete_slots).
  { unfold setup_delete_actions.
    pose proof (logger_error_handles
                  (fun e => "Error setting up delete actions: " +:+ exn_text e))
      as Hh.
    destruct (connect_delete_handled "lily_walk_table" "lily_walk_model"
                _ w Hh) as (w1 & E1 & S1 & F1).
    destruct (connect_delete_handled "lily_diet_table" "lily_diet_model"
                _ w1 Hh) as (w2 & E2 & S2 & F2).
    destruct (connect_delete_handled "lily_mood_table" "lily_mood_model"
                _ w2 Hh) as (w3 & E3 & S3 & F3).
    destruct (connect_delete_handled "time_in_room_table" "lily_room_model"
                _ w3 Hh) as (w4 & E4 & S4 & F4).
    destruct (connect_delete_handled "lily_notes_table" "lily_note_model"
                _ w4 Hh) as (w5 & E5 & S5 & F5).
    destruct (connect_delete_handled "lily_walk_note_table"
                "lily_walk_note_model" _ w5 Hh) as (w6 & E6 & S6 & F6).
    exists w6. split.
    - apply try_ret_eq.
      erewrite bind_ret_eq by exact E1.
      erewrite bind_ret_eq by exact E2.
      erewrite bind_ret_eq by exact E3.
      erewrite bind_ret_eq by exact E4.
      erewrite bind_ret_eq by exact E5.
      exact E6.
    - rewrite S6, S5, S4, S3, S2, S1, F5, F4, F3, F2, F1.
      unfold delete_slots.
      rewrite (connected_cons (faults w) _ (_ :: _)),
        (connected_cons (tl (faults w)) _ (_ :: _)),
        (connected_cons (tl (tl (faults w))) _ (_ :: _)),
        (connected_cons (tl (tl (tl (faults w)))) _ (_ :: _)),
        (connected_cons (tl (tl (tl (tl (faults w))))) _ (_ :: _)).
      rewrite <- !app_assoc. reflexivity. }
  destruct Hnew as (w' & E & S).
  split; [unfold result; rewrite E; reflexivity|].
  split; [unfold run; rewrite E; exact S|].
  destruct w as [fi cn co q st sl mo se lg tr fl].
  unfold July26.setup_delete_actions, delete_slots.
  destruct fl as [|[] fl]; [ | | |];
    try (split; unfold_prog; simpl; rewrite ?app_nil_r, <- ?app_assoc;
         reflexivity);
  destruct fl as [|[] fl];
    try (split; unfold_prog; simpl; rewrite ?app_nil_r, <- ?app_assoc;
         reflexivity);
  destruct fl as [|[] fl];
    try (split; unfold_prog; simpl; rewrite ?app_nil_r, <- ?app_assoc;
         reflexivity);
  destruct fl as [|[] fl];
    try (split; unfold_prog; simpl; rewrite ?app_nil_r, <- ?app_assoc;
         reflexivity);
  destruct fl as [|[] fl];
    try (split; unfold_prog; simpl; rewrite ?app_nil_r, <- ?app_assoc;
         reflexivity);
  destruct fl as [|[] fl];
    split; unfold_prog; simpl; rewrite ?app_nil_r, <- ?app_assoc;
    reflexivity.
Qed.

(** ** The older copy of the window *)

Ltac notes_base :=
  unfold notes_untouched, run; simpl; intros;
  rewrite ?List.filter_app; simpl; rewrite ?app_nil_r;
  intuition congruence.

Lemma attempt_notes (ev : Event) :
  about_notes ev = false -> respects notes_untouched (attempt ev).
Proof.
  intros H w. unfold run, attempt, notes_untouched.
  destruct (faults w); simpl; rewrite List.filter_app; simpl; rewrite H;
    rewrite app_nil_r; split; reflexivity.
Qed.

Ltac notes_step :=
  first
    [ apply attempt_notes; reflexivity
    | apply respects_modify; intros ?; split;
      [ simpl; apply lookup_insert_ne; discriminate | reflexivity ]
    | frame_step notes_base ].

(** X23.  Whatever the environment does, saving and restoring with the
    older copy of the window never concerns the notes: the setting
    [lily_notes] is neither written nor read and keeps its value, and the
    notes widget is not set.  Notes typed into the older window are lost
    across a restart. *)
Theorem older_window_forgets_notes (ui : Widgets) (w : World) :
  settings (run (July26State.save_state ui ;; July26State.restore_state) w)
    !! "lily_notes" = settings w !! "lily_notes" /\
  List.filter about_notes
    (trace (run (July26State.save_state ui ;; July26State.restore_state) w))
  = List.filter about_notes (trace w).
Proof.
  assert (H : respects notes_untouched
                (July26State.save_state ui ;; July26State.restore_state)).
  { unfold July26State.save_state, July26State.restore_state.
    unfold_calls. repeat notes_step. }
  exact (H w).
Qed.

Lemma older_save_state_ok (ui : Widgets) (w : World) :
  faults w = [] ->
  exists w',
    July26State.save_state ui w = (Ret tt, w') /\
    faults w' = [] /\ log w' = log w /\
    settings w' = older_saved_settings ui (settings w).
Proof.
  intros Hf. destruct w; simpl in *; subst.
  unfold July26State.save_state. unfold_prog.
  eexists. split; [reflexivity|]. repeat split.
Qed.

Ltac older_lookup :=
  unfold older_saved_settings;
  repeat first [ rewrite lookup_insert_eq
               | rewrite lookup_insert_ne by discriminate ].

(** X24.  With the environment behaving, the older copy of the window
    brings back what it saved: [save_state] stores the eight slider and
    spin box values, the geometry and the window state, and
    [restore_state] then reads each of these keys and hands each widget
    the value that was saved; neither logs anything. *)
Theorem older_window_round_trip (ui : Widgets) (w : World) :
  faults w = [] ->
  settings (run (July26State.save_state ui) w)
    = older_saved_settings ui (settings w) /\
  result July26State.restore_state (run (July26State.save_state ui) w)
    = Ret tt /\
  trace (run July26State.restore_state (run (July26State.save_state ui) w))
    = trace (run (July26State.save_state ui) w) ++ older_restored_calls ui /\
  log (run July26State.restore_state (run (July26State.save_state ui) w))
    = log w.
Proof.
  intros Hf.
  destruct (older_save_state_ok ui w Hf) as (w1 & E1 & Hf1 & Hl1 & Hs1).
  assert (Hrun : run (July26State.save_state ui) w = w1)
    by (unfold run; rewrite E1; reflexivity).
  rewrite Hrun. split; [exact Hs1|].
  assert (E : July26State.restore_state w1
              = (Ret tt, set_trace (trace w1 ++ older_restored_calls ui) w1)).
  { unfold July26State.restore_state.
    repeat (erewrite bind_ret_eq
              by (apply restore_block;
                  [ exact Hf1
                  | simpl settings; rewrite Hs1; older_lookup;
                    first [ apply coerce_int, c_range | reflexivity ]
                  | intros; reflexivity ])).
    erewrite restore_block;
      [ | exact Hf1
        | simpl settings; rewrite Hs1; older_lookup;
                    first [ apply coerce_int, c_range | reflexivity ]
        | intros; reflexivity ].
    destruct w1; simpl. rewrite <- !app_assoc. reflexivity. }
  unfold result, run. rewrite E. destruct w1; simpl in *.
  split; [reflexivity|]. split; [reflexivity|]. exact Hl1.
Qed.

Lemma older_window_round_trip_witness :
  trace (run July26State.restore_state
           (run (July26State.save_state some_widgets) (fresh_world ∅)))
  = trace (run (July26State.save_state some_widgets) (fresh_world ∅))
    ++ older_restored_calls some_widgets.
Proof.
  destruct (older_window_round_trip some_widgets (fresh_world ∅) eq_refl)
    as (_ & _ & H & _).
  exact H.
Defined.
